(** * Cart, merge-on-login, checkout and order reads of the store backend

    A shallow embedding of the route handlers in
    [src/routes/auth.ts] (registration, login with guest-cart merge, and the
    cart routes that follow it in the same file), [src/routes/checkout.ts],
    the order routes and the admin routes of [src/routes/products.ts] that
    delete or change a product or upload its images, over an explicit model
    of the relational store they talk to.

    Conventions of the embedding.
    - Table rows are records holding the columns the handlers read or write;
      a table is a list of rows in storage order, so that "first matching
      row" ([findFirst], [const [x] = await select ...], [limit 1]) is the
      head of a filter.  Timestamp columns are kept only where a handler
      reads or sets them (carts, orders, order status history).
    - Integers are [Z].  A quantity written to a cart line must fit the
      32-bit [integer] column ([int4]); the stock written by checkout is
      below a stock that was stored, and the values of an admin product
      update are taken to be in range.
    - Money in a [decimal(10,2)] column is an integer number of cents.  The
      cart view computes in JavaScript numbers: [parseFloat(price) *
      quantity] and the sum of the subtotals are IEEE doubles, written with
      primitive floats ([number_of_cents], [float_of_Z]) and left unrounded
      as the code leaves them.  The total of a checkout is
      [totalAmount.toFixed(2)] of such a sum; it is written as the exact sum
      in cents ([order_total]), which the rounding to two decimals gives
      back as long as the double sum is within half a cent of the exact one
      (any total that fits the column, over fewer than some 10^5 lines).
      The order insert is refused when the total does not fit
      [numeric(10,2)].
    - Every [await db...] is one statement of the store monad [M].  A
      statement can throw: because a constraint of the schema rejects it
      (unique order number, unique (cart, product), the quantity and stock
      checks, the user of a cart), because a value is out of the range of
      its column, or because the store itself fails.  The last is driven by
      the [budget] of the store: [None] is a store that never fails,
      [Some n] lets [n] statements through and fails the next.  A throw
      keeps the writes made so far: the handlers open no transaction.
    - [serial] keys come from per-table sequences kept in the store.  An
      insert that a constraint rejects has drawn its id: the rows are as
      before and the sequence has moved.  A value out of range is refused
      when the parameters of the statement are bound, before it runs.
    - Foreign keys: the cascade from carts to cart items is modelled where
      the handlers rely on it, and so is the check of [carts.user_id]
      against the users table on insert, since a token outlives its user.
      The other inserts take their keys from rows read in the same request
      (the product of a new line, the cart of the caller, the order just
      inserted); the user of an order owns the cart that is checked out,
      whose own foreign key keeps the user in the table.
    - Two texts come from libraries outside the sources and are inputs of
      the request environment [Ctx]: the message of the JWT middleware's
      refusal ([jwt_refusal]) and the message of an error thrown by the
      database driver ([driver_message]), in which the global error handler
      looks for "drizzle" or "database" to choose its 500 body. *)

From Stdlib Require Import ZArith List String Ascii Bool Lia DecimalString.
From Stdlib Require DecimalPos DecimalZ.
From Stdlib Require Import Permutation.
From Stdlib Require Import Floats.
Import ListNotations.
Open Scope string_scope.
Open Scope list_scope.
Open Scope Z_scope.

(** ** Schema ([src/db/schema.ts], [drizzle/0000_many_expediter.sql]) *)

Inductive UserRole := customer | admin.

Inductive OrderStatus := pending | processing | shipped | delivered | cancelled.

Module User.
Record t := mk
  { id : Z; email : string; passwordHash : string;
    fullName : option string; phone : option string; role : UserRole }.
End User.

Module Product.
Record t := mk { id : Z; name : string; price : Z; stockQuantity : Z }.
End Product.

Module ProductImage.
Record t := mk { id : Z; productId : Z; url : string; isPrimary : bool }.
End ProductImage.

Module Cart.
Record t := mk
  { id : Z; userId : option Z; sessionId : option string;
    expiresAt : option Z; updatedAt : Z }.
End Cart.

Module CartItem.
Record t := mk { id : Z; cartId : Z; productId : Z; quantity : Z }.
End CartItem.

Record ShippingAddress := mkAddress
  { street : string; city : string; state : string; zip : string; country : string }.

Module Order.
Record t := mk
  { id : Z; userId : option Z; orderNumber : string; totalAmount : Z;
    status : OrderStatus; shippingAddress : option ShippingAddress;
    createdAt : Z; updatedAt : Z }.
End Order.

Module OrderItem.
Record t := mk
  { id : Z; orderId : Z; productId : option Z; quantity : Z;
    priceAtTime : Z; productName : option string }.
End OrderItem.

Module OrderStatusHistory.
Record t := mk
  { id : Z; orderId : Z; status : OrderStatus; notes : option string;
    createdAt : Z }.
End OrderStatusHistory.

(** The tables and the next value of each [serial] sequence. *)
Record DB := mkDB
  { users : list User.t;
    products : list Product.t;
    productImages : list ProductImage.t;
    carts : list Cart.t;
    cartItems : list CartItem.t;
    orders : list Order.t;
    orderItems : list OrderItem.t;
    orderStatusHistory : list OrderStatusHistory.t;
    carts_seq : Z;
    cartItems_seq : Z;
    orders_seq : Z;
    orderItems_seq : Z;
    orderStatusHistory_seq : Z }.

Definition with_products (f : list Product.t -> list Product.t) (d : DB) : DB :=
  mkDB (users d) (f (products d)) (productImages d) (carts d) (cartItems d)
       (orders d) (orderItems d) (orderStatusHistory d)
       (carts_seq d) (cartItems_seq d) (orders_seq d) (orderItems_seq d)
       (orderStatusHistory_seq d).

Definition with_carts (f : list Cart.t -> list Cart.t) (seq : Z) (d : DB) : DB :=
  mkDB (users d) (products d) (productImages d) (f (carts d)) (cartItems d)
       (orders d) (orderItems d) (orderStatusHistory d)
       seq (cartItems_seq d) (orders_seq d) (orderItems_seq d)
       (orderStatusHistory_seq d).

Definition with_cartItems (f : list CartItem.t -> list CartItem.t) (seq : Z) (d : DB) : DB :=
  mkDB (users d) (products d) (productImages d) (carts d) (f (cartItems d))
       (orders d) (orderItems d) (orderStatusHistory d)
       (carts_seq d) seq (orders_seq d) (orderItems_seq d)
       (orderStatusHistory_seq d).

Definition with_orders (f : list Order.t -> list Order.t) (seq : Z) (d : DB) : DB :=
  mkDB (users d) (products d) (productImages d) (carts d) (cartItems d)
       (f (orders d)) (orderItems d) (orderStatusHistory d)
       (carts_seq d) (cartItems_seq d) seq (orderItems_seq d)
       (orderStatusHistory_seq d).

Definition with_orderItems (f : list OrderItem.t -> list OrderItem.t) (seq : Z) (d : DB) : DB :=
  mkDB (users d) (products d) (productImages d) (carts d) (cartItems d)
       (orders d) (f (orderItems d)) (orderStatusHistory d)
       (carts_seq d) (cartItems_seq d) (orders_seq d) seq
       (orderStatusHistory_seq d).

Definition with_orderStatusHistory
    (f : list OrderStatusHistory.t -> list OrderStatusHistory.t) (seq : Z) (d : DB) : DB :=
  mkDB (users d) (products d) (productImages d) (carts d) (cartItems d)
       (orders d) (orderItems d) (f (orderStatusHistory d))
       (carts_seq d) (cartItems_seq d) (orders_seq d) (orderItems_seq d)
       seq.

(** ** The store monad *)

(** What the driver throws.  The handlers never inspect it; only
    [errorHandler] looks at the message. *)
Inductive DbError :=
| UniqueViolation (constraint : string)
| CheckViolation (constraint : string)
| ForeignKeyViolation (constraint : string)
| OutOfRange (type : string)
| ConnectionFailure.

Record Store := mkStore { db : DB; budget : option nat }.

(** A store that never fails on its own. *)
Definition reliable (d : DB) : Store := mkStore d None.

Inductive Outcome (A : Type) :=
| Done (a : A) (s : Store)
| Thrown (e : DbError) (s : Store).
Arguments Done {A} a s.
Arguments Thrown {A} e s.

Definition M (A : Type) := Store -> Outcome A.

Definition ret {A} (a : A) : M A := fun s => Done a s.

Definition bind {A B} (m : M A) (k : A -> M B) : M B :=
  fun s => match m s with
           | Done a s' => k a s'
           | Thrown e s' => Thrown e s'
           end.

Notation "x <- m ;; k" := (bind m (fun x => k))
  (at level 61, m at next level, right associativity).
Notation "m ;;; k" := (bind m (fun _ => k))
  (at level 61, right associativity).

Definition store_of {A} (o : Outcome A) : Store :=
  match o with Done _ s => s | Thrown _ s => s end.

(** One [await db...]: runs [q] on the tables unless the store fails first.
    A statement that the store rejects leaves the tables it gives with the
    error: the rows are as before, but a sequence the statement drew from
    has moved. *)
Definition stmt {A} (q : DB -> DbError * DB + A * DB) : M A :=
  fun s =>
    match budget s with
    | Some O => Thrown ConnectionFailure s
    | b =>
        match q (db s) with
        | inl (e, d') => Thrown e (mkStore d' (option_map Nat.pred b))
        | inr (a, d') => Done a (mkStore d' (option_map Nat.pred b))
        end
    end.

(** A read-only statement. *)
Definition query {A} (q : DB -> A) : M A := stmt (fun d => inr (q d, d)).

(** [for (const x of xs) { await ... }] *)
Fixpoint for_each {A} (xs : list A) (f : A -> M unit) : M unit :=
  match xs with
  | [] => ret tt
  | x :: rest => f x ;;; for_each rest f
  end.

(** ** Statements issued by the handlers *)

(** The range of an [integer] column and of a [numeric(10,2)] column in
    cents.  A parameter outside the range of its column is refused when the
    statement is bound, before any sequence is drawn from. *)
Definition int4 (z : Z) : bool := (-2147483648 <=? z) && (z <=? 2147483647).

Definition numeric_10_2 (cents : Z) : bool := Z.abs cents <=? 9999999999.

(** *** carts *)

(** [carts.user_id] references [users.id]. *)
Definition references_user (userId : option Z) (d : DB) : bool :=
  match userId with
  | Some u => existsb (fun x => User.id x =? u) (users d)
  | None => true
  end.

(** A rejected insert has drawn its id from the sequence all the same. *)
Definition insert_cart (userId : option Z) (sessionId : option string)
    (expiresAt : option Z) (now : Z) : M Cart.t :=
  stmt (fun d =>
    let row := Cart.mk (carts_seq d) userId sessionId expiresAt now in
    if references_user userId d
    then inr (row, with_carts (fun t => t ++ [row]) (carts_seq d + 1) d)
    else inl (ForeignKeyViolation "carts_user_id_users_id_fk",
              with_carts (fun t => t) (carts_seq d + 1) d)).

(** [update(carts).set({ expiresAt, updatedAt }).where(eq(carts.id, id))] *)
Definition touch (expiresAt now : Z) (c : Cart.t) : Cart.t :=
  Cart.mk (Cart.id c) (Cart.userId c) (Cart.sessionId c) (Some expiresAt) now.

Definition touch_cart (id expiresAt now : Z) : M unit :=
  stmt (fun d =>
    inr (tt, with_carts
               (map (fun c => if Cart.id c =? id then touch expiresAt now c else c))
               (carts_seq d) d)).

(** [delete(carts).where(eq(carts.id, id))]; [cart_items.cart_id] cascades. *)
Definition delete_cart (id : Z) : M unit :=
  stmt (fun d =>
    inr (tt, with_cartItems
               (filter (fun it => negb (CartItem.cartId it =? id)))
               (cartItems_seq d)
               (with_carts (filter (fun c => negb (Cart.id c =? id))) (carts_seq d) d))).

(** *** cart_items *)

Definition same_line (cartId productId : Z) (it : CartItem.t) : bool :=
  (CartItem.cartId it =? cartId) && (CartItem.productId it =? productId).

Definition insert_cartItem (cartId productId quantity : Z) : M CartItem.t :=
  stmt (fun d =>
    if negb (int4 quantity) then inl (OutOfRange "integer", d)
    else if quantity <=? 0
    then inl (CheckViolation "cart_quantity_check",
              with_cartItems (fun t => t) (cartItems_seq d + 1) d)
    else if existsb (same_line cartId productId) (cartItems d)
    then inl (UniqueViolation "unique_cart_item",
              with_cartItems (fun t => t) (cartItems_seq d + 1) d)
    else
      let row := CartItem.mk (cartItems_seq d) cartId productId quantity in
      inr (row, with_cartItems (fun t => t ++ [row]) (cartItems_seq d + 1) d)).

Definition set_quantity (q : Z) (it : CartItem.t) : CartItem.t :=
  CartItem.mk (CartItem.id it) (CartItem.cartId it) (CartItem.productId it) q.

(** [update(cartItems).set({ quantity }).where(eq(cartItems.id, id))] *)
Definition update_cartItem_quantity (id quantity : Z) : M unit :=
  stmt (fun d =>
    if negb (int4 quantity) then inl (OutOfRange "integer", d)
    else if existsb (fun it => CartItem.id it =? id) (cartItems d) && (quantity <=? 0)
    then inl (CheckViolation "cart_quantity_check", d)
    else
      inr (tt, with_cartItems
                 (map (fun it => if CartItem.id it =? id then set_quantity quantity it else it))
                 (cartItems_seq d) d)).

Definition delete_cartItems_of_cart (cartId : Z) : M unit :=
  stmt (fun d =>
    inr (tt, with_cartItems (filter (fun it => negb (CartItem.cartId it =? cartId)))
               (cartItems_seq d) d)).

Definition delete_cartItem (id : Z) : M unit :=
  stmt (fun d =>
    inr (tt, with_cartItems (filter (fun it => negb (CartItem.id it =? id)))
               (cartItems_seq d) d)).

(** *** products *)

Definition set_stock (q : Z) (p : Product.t) : Product.t :=
  Product.mk (Product.id p) (Product.name p) (Product.price p) q.

(** [update(products).set({ stockQuantity }).where(eq(products.id, id))] *)
Definition update_product_stock (id stockQuantity : Z) : M unit :=
  stmt (fun d =>
    if existsb (fun p => Product.id p =? id) (products d) && (stockQuantity <? 0)
    then inl (CheckViolation "stock_quantity_check", d)
    else
      inr (tt, with_products
                 (map (fun p => if Product.id p =? id then set_stock stockQuantity p else p))
                 d)).

(** *** orders, order_items, order_status_history *)

Definition insert_order (userId : option Z) (orderNumber : string) (totalAmount : Z)
    (status : OrderStatus) (shippingAddress : option ShippingAddress) (now : Z)
    : M Order.t :=
  stmt (fun d =>
    if negb (numeric_10_2 totalAmount) then inl (OutOfRange "numeric", d)
    else if existsb (fun o => String.eqb (Order.orderNumber o) orderNumber) (orders d)
    then inl (UniqueViolation "orders_order_number_unique",
              with_orders (fun t => t) (orders_seq d + 1) d)
    else
      let row := Order.mk (orders_seq d) userId orderNumber totalAmount status
                          shippingAddress now now in
      inr (row, with_orders (fun t => t ++ [row]) (orders_seq d + 1) d)).

(** The values of one row of [insert(orderItems).values([...])]. *)
Record NewOrderItem := mkNewOrderItem
  { new_orderId : Z; new_productId : Z; new_quantity : Z;
    new_priceAtTime : Z; new_productName : string }.

Fixpoint number_rows (seq : Z) (rows : list NewOrderItem) : list OrderItem.t :=
  match rows with
  | [] => []
  | r :: rest =>
      OrderItem.mk seq (new_orderId r) (Some (new_productId r)) (new_quantity r)
                   (new_priceAtTime r) (Some (new_productName r))
      :: number_rows (seq + 1) rest
  end.

(** The ids a multi-row insert has drawn when a row fails the quantity
    check: one per row up to and including that row. *)
Fixpoint ids_drawn (rows : list NewOrderItem) : Z :=
  match rows with
  | [] => 0
  | r :: rest => if new_quantity r <=? 0 then 1 else 1 + ids_drawn rest
  end.

(** A multi-row insert is one statement: all rows or none. *)
Definition insert_orderItems (rows : list NewOrderItem) : M unit :=
  stmt (fun d =>
    if existsb (fun r => new_quantity r <=? 0) rows
    then inl (CheckViolation "order_quantity_check",
              with_orderItems (fun t => t) (orderItems_seq d + ids_drawn rows) d)
    else
      inr (tt, with_orderItems (fun t => t ++ number_rows (orderItems_seq d) rows)
                 (orderItems_seq d + Z.of_nat (List.length rows)) d)).

Definition insert_orderStatusHistory (orderId : Z) (status : OrderStatus)
    (notes : option string) (now : Z) : M unit :=
  stmt (fun d =>
    let row := OrderStatusHistory.mk (orderStatusHistory_seq d) orderId status notes now in
    inr (tt, with_orderStatusHistory (fun t => t ++ [row])
               (orderStatusHistory_seq d + 1) d)).

(** ** JavaScript numbers

    A JavaScript number is an IEEE 754 double. *)

(** The double nearest to an integer. *)
Definition float_of_Z (z : Z) : float :=
  SF2Prim (binary_normalize prec emax z 0 false).

(** [Math.floor] of a finite double (0 stands for NaN and the infinities,
    which no handler floors). *)
Definition floor_of_float (f : float) : Z :=
  match Prim2SF f with
  | S754_finite negative m e =>
      let whole := if 0 <=? e then Z.pos m * 2 ^ e else Z.pos m / 2 ^ (- e) in
      let exact := if 0 <=? e then true else Z.pos m mod 2 ^ (- e) =? 0 in
      if negative then (if exact then - whole else - whole - 1) else whole
  | _ => 0
  end.

(** [parseFloat] and [Number] on a [decimal(10,2)] column that holds [cents]:
    the double nearest to the decimal. *)
Definition number_of_cents (cents : Z) : float :=
  (float_of_Z cents / float_of_Z 100)%float.

(** ** Requests and responses *)

(** What a handler reads from the request and from its environment. *)
Record Ctx := mkCtx
  { bearer : option Z;
      (* the subject id of a valid bearer token, parsed: the result of
         [getUserIdFromToken], and [parseInt(jwtPayload.sub)] behind [requireAuth] *)
    cookie_session_id : option string;   (* [getCookie(c, 'session_id')] *)
    uuidv4 : string;                     (* what [uuidv4()] returns when called *)
    header_x_session_id : option string;   (* [c.req.header('x-session-id')] *)
    query_session_id : option string;      (* [c.req.query('session_id')] *)
    now : Z;                             (* [Date.now()], milliseconds *)
    nowISO : string;                     (* [new Date().toISOString()] *)
    random : float;                      (* what [Math.random()] returns when called *)
    JWT_SECRET : string;
    jwt_refusal : string;
      (* the message of the [HTTPException] that hono's [jwt] middleware
         throws behind [requireAuth] when it finds no valid bearer token *)
    driver_message : DbError -> string
      (* [err.message] of the error the driver throws for a statement of this
         request that the store rejects or that finds the store failing; the
         text carries the statement and its parameters *) }.

(** JavaScript truthiness of [number | null] and of [string | undefined]. *)
Definition truthy_num (n : option Z) : bool :=
  match n with Some v => negb (v =? 0) | None => false end.

Definition truthy_str (s : option string) : bool :=
  match s with Some v => negb (String.eqb v "") | None => false end.

(** The price of a view is [parseFloat] of the column, written here by its
    cents; the subtotal and the total are the doubles the handler computes. *)
Record CartItemWithProduct := mkCartItemWithProduct
  { ciw_id : Z; ciw_product_id : Z; ciw_product_name : string;
    ciw_product_price : Z; ciw_product_image : option string;
    ciw_quantity : Z; ciw_subtotal : float }.

Record CartResponse := mkCartResponse
  { cr_id : option Z; cr_items : list CartItemWithProduct;
    cr_itemCount : Z; cr_total : float }.

Record OrderItemView := mkOrderItemView
  { oiv_id : Z; oiv_product_id : option Z; oiv_product_name : option string;
    oiv_product_price : option Z; oiv_quantity : Z; oiv_priceAtTime : Z }.

Record OrderView := mkOrderView
  { ov_id : Z; ov_orderNumber : string; ov_status : OrderStatus; ov_totalAmount : Z;
    ov_shippingAddress : option ShippingAddress; ov_items : list OrderItemView;
    ov_statusHistory : list OrderStatusHistory.t; ov_createdAt : Z }.

Record JWTPayload := mkJWTPayload { sub : string; jwt_email : string; jwt_role : UserRole }.

Inductive Body :=
| Failure (error : string)                 (* [{ success: false, error }] *)
| ValidationFailure                        (* the 400 body of a validator *)
| CartBody (v : CartResponse)
| LoginBody (token : string) (user : User.t)   (* the user without its password hash *)
| OrderBody (v : OrderView)
| TimelineBody (orderId : Z) (timeline : list OrderStatusHistory.t).

Record Response := mkResponse { status : Z; body : Body }.

Definition json (b : Body) (st : Z) : Response := mkResponse st b.

(** The error kinds of the specification, read off a response. *)
Inductive ErrorKind := NotFound | BadRequest | Unauthorized | Forbidden | Conflict | Internal.

Definition error_kind (r : Response) : option ErrorKind :=
  if status r =? 400 then Some BadRequest
  else if status r =? 401 then Some Unauthorized
  else if status r =? 403 then Some Forbidden
  else if status r =? 404 then Some NotFound
  else if status r =? 409 then Some Conflict
  else if status r =? 500 then Some Internal
  else None.

Definition includes (needle hay : string) : bool :=
  match String.index 0 needle hay with Some _ => true | None => false end.

(** What reaches [app.onError]: the [HTTPException] of a middleware, or an
    error of the driver ([ZodError]s are answered by the validators). *)
Inductive Exception :=
| HTTPException (status : Z) (message : string)
| DriverError (message : string).

(** [errorHandler] of [src/middleware/error-handler.ts]. *)
Definition errorHandler (err : Exception) : Response :=
  match err with
  | HTTPException status message => json (Failure message) status
  | DriverError message =>
      if includes "drizzle" message || includes "database" message
      then json (Failure "Database error occurred") 500
      else json (Failure "Internal server error") 500
  end.

(** The error of the driver as the request sees it. *)
Definition thrown (c : Ctx) (e : DbError) : Exception := DriverError (driver_message c e).

Definition Handler := Store -> Response * Store.

(** A handler without [try]: a throw reaches [app.onError(errorHandler)]. *)
Definition run (c : Ctx) (m : M Response) : Handler :=
  fun s => match m s with
           | Done r s' => (r, s')
           | Thrown e s' => (errorHandler (thrown c e), s')
           end.

(** [try { ... } catch (error) { return c.json({ success: false, error: msg }, 500) }] *)
Definition try_catch (m : M Response) (msg : string) : Handler :=
  fun s => match m s with
           | Done r s' => (r, s')
           | Thrown _ s' => (json (Failure msg) 500, s')
           end.

(** ** Cart routes (the second module of [src/routes/auth.ts]) *)

(** SQL [=] on a nullable column: never true on NULL. *)
Definition col_eqZ (col : option Z) (v : option Z) : bool :=
  match col, v with Some a, Some b => a =? b | _, _ => false end.

Definition col_eqS (col : option string) (v : option string) : bool :=
  match col, v with Some a, Some b => String.eqb a b | _, _ => false end.

Definition isNull {A} (col : option A) : bool :=
  match col with None => true | Some _ => false end.

Definition week_ms : Z := 7 * 24 * 60 * 60 * 1000.

(** [getExpirationDate]: seven days from now, taken as 7 x 24 hours (a
    daylight-saving shift inside the week is not modelled). *)
Definition getExpirationDate (c : Ctx) : Z := now c + week_ms.

(** [getOrCreateSessionId]: the cookie when it is set, a new UUID otherwise
    (the [Set-Cookie] header it adds to the response is not modelled). *)
Definition getOrCreateSessionId (c : Ctx) : string :=
  match cookie_session_id c with
  | Some s => if String.eqb s "" then uuidv4 c else s
  | None => uuidv4 c
  end.

Definition getUserIdFromToken (c : Ctx) : option Z := bearer c.

(** [const sessionId = userId ? null : getOrCreateSessionId(c)] *)
Definition session_of (c : Ctx) : option string :=
  if truthy_num (getUserIdFromToken c) then None else Some (getOrCreateSessionId c).

(** The lookup shared by [getOrCreateCart], [GET /cart] and [DELETE /cart]:
    by user id for a signed-in caller, by session id otherwise. *)
Definition find_cart (userId : option Z) (sessionId : option string) : M (option Cart.t) :=
  if truthy_num userId then
    rows <- query (fun d => filter (fun c => col_eqZ (Cart.userId c) userId) (carts d)) ;;
    ret (hd_error rows)
  else if truthy_str sessionId then
    rows <- query (fun d => filter (fun c => col_eqS (Cart.sessionId c) sessionId) (carts d)) ;;
    ret (hd_error rows)
  else ret None.

(** [getOrCreateCart]: returns [{ id, userId }] of the caller's cart. *)
Definition getOrCreateCart (c : Ctx) : M (Z * option Z) :=
  let userId := getUserIdFromToken c in
  let sessionId := session_of c in
  let expiresAt := getExpirationDate c in
  cart <- find_cart userId sessionId ;;
  match cart with
  | Some cart =>
      touch_cart (Cart.id cart) expiresAt (now c) ;;;
      ret (Cart.id cart, Cart.userId cart)
  | None =>
      newCart <- insert_cart userId sessionId (Some expiresAt) (now c) ;;
      ret (Cart.id newCart, Cart.userId newCart)
  end.

(** The rows of
    [cartItems innerJoin products leftJoin productImages (primary) where cartId]. *)
Definition cart_rows (cartId : Z) (d : DB)
    : list (CartItem.t * Product.t * option string) :=
  flat_map
    (fun it =>
       flat_map
         (fun p =>
            match filter (fun im => (ProductImage.productId im =? Product.id p)
                                    && ProductImage.isPrimary im) (productImages d) with
            | [] => [(it, p, None)]
            | imgs => map (fun im => (it, p, Some (ProductImage.url im))) imgs
            end)
         (filter (fun p => CartItem.productId it =? Product.id p) (products d)))
    (filter (fun it => CartItem.cartId it =? cartId) (cartItems d)).

Definition format_item (row : CartItem.t * Product.t * option string) : CartItemWithProduct :=
  let '(it, p, img) := row in
  mkCartItemWithProduct (CartItem.id it) (Product.id p) (Product.name p) (Product.price p)
    (if truthy_str img then img else None)
    (CartItem.quantity it)
    (number_of_cents (Product.price p) * float_of_Z (CartItem.quantity it))%float.

(** The view [buildCartResponse] computes from the rows it selected. *)
Definition cart_view (cartId : Z) (items : list (CartItem.t * Product.t * option string))
    : CartResponse :=
  let formattedItems := map format_item items in
  let itemCount := fold_left (fun sum item => sum + ciw_quantity item) formattedItems 0 in
  let total := fold_left (fun sum item => (sum + ciw_subtotal item)%float)
                         formattedItems 0%float in
  mkCartResponse (Some cartId) formattedItems itemCount total.

(** [buildCartResponse] *)
Definition buildCartResponse (cartId : Z) : M CartResponse :=
  items <- query (cart_rows cartId) ;;
  ret (cart_view cartId items).

Definition empty_cart_view : Response :=
  json (CartBody (mkCartResponse None [] 0 0)) 200.

Definition reject (r : Response) : Handler := fun s => (r, s).

(** [GET /cart] *)
Definition cart_get (c : Ctx) : Handler :=
  try_catch
    (let userId := getUserIdFromToken c in
     let sessionId := session_of c in
     cart <- find_cart userId sessionId ;;
     match cart with
     | None => ret empty_cart_view
     | Some cart =>
         touch_cart (Cart.id cart) (getExpirationDate c) (now c) ;;;
         cartResponse <- buildCartResponse (Cart.id cart) ;;
         ret (json (CartBody cartResponse) 200)
     end)
    "Failed to fetch cart".

(** [addToCartSchema], [updateCartItemSchema] *)
Definition addToCartSchema (productId quantity : Z) : bool :=
  (0 <? productId) && (1 <=? quantity).

Definition updateCartItemSchema (quantity : Z) : bool := 1 <=? quantity.

(** [POST /cart/items] *)
Definition cart_post_items (c : Ctx) (productId quantity : Z) : Handler :=
  if addToCartSchema productId quantity then
    try_catch
      (found <- query (fun d => filter (fun p => Product.id p =? productId) (products d)) ;;
       match hd_error found with
       | None => ret (json (Failure "Product not found") 404)
       | Some product =>
           if Product.stockQuantity product <? quantity
           then ret (json (Failure "Insufficient stock") 400)
           else
             cart <- getOrCreateCart c ;;
             existing <- query (fun d => filter (same_line (fst cart) productId) (cartItems d)) ;;
             match hd_error existing with
             | Some existingItem =>
                 let newQuantity := CartItem.quantity existingItem + quantity in
                 if newQuantity >? Product.stockQuantity product
                 then ret (json (Failure "Insufficient stock for updated quantity") 400)
                 else
                   update_cartItem_quantity (CartItem.id existingItem) newQuantity ;;;
                   cartResponse <- buildCartResponse (fst cart) ;;
                   ret (json (CartBody cartResponse) 200)
             | None =>
                 insert_cartItem (fst cart) productId quantity ;;;
                 cartResponse <- buildCartResponse (fst cart) ;;
                 ret (json (CartBody cartResponse) 200)
             end
       end)
      "Failed to add item to cart"
  else reject (json ValidationFailure 400).

(** The line [itemId] of cart [cartId]:
    [where(and(eq(cartItems.id, itemId), eq(cartItems.cartId, cart.id)))]. *)
Definition owned_line (itemId cartId : Z) (it : CartItem.t) : bool :=
  (CartItem.id it =? itemId) && (CartItem.cartId it =? cartId).

(** [PUT /cart/items/:id]; [itemId] is [parseInt] of the parameter, [None] for NaN. *)
Definition cart_put_item (c : Ctx) (itemId : option Z) (quantity : Z) : Handler :=
  if updateCartItemSchema quantity then
    try_catch
      (match itemId with
       | None => ret (json (Failure "Invalid item ID") 400)
       | Some itemId =>
           cart <- getOrCreateCart c ;;
           found <- query (fun d => filter (owned_line itemId (fst cart)) (cartItems d)) ;;
           match hd_error found with
           | None => ret (json (Failure "Cart item not found") 404)
           | Some cartItem =>
               prods <- query (fun d => filter (fun p => Product.id p =? CartItem.productId cartItem)
                                          (products d)) ;;
               match hd_error prods with
               | None => ret (json (Failure "Product not found") 404)
               | Some product =>
                   if quantity >? Product.stockQuantity product
                   then ret (json (Failure "Insufficient stock") 400)
                   else
                     update_cartItem_quantity itemId quantity ;;;
                     cartResponse <- buildCartResponse (fst cart) ;;
                     ret (json (CartBody cartResponse) 200)
               end
           end
       end)
      "Failed to update cart item"
  else reject (json ValidationFailure 400).

(** [DELETE /cart/items/:id] *)
Definition cart_delete_item (c : Ctx) (itemId : option Z) : Handler :=
  try_catch
    (match itemId with
     | None => ret (json (Failure "Invalid item ID") 400)
     | Some itemId =>
         cart <- getOrCreateCart c ;;
         found <- query (fun d => filter (owned_line itemId (fst cart)) (cartItems d)) ;;
         match hd_error found with
         | None => ret (json (Failure "Cart item not found") 404)
         | Some _ =>
             delete_cartItem itemId ;;;
             cartResponse <- buildCartResponse (fst cart) ;;
             ret (json (CartBody cartResponse) 200)
         end
     end)
    "Failed to remove cart item".

(** [DELETE /cart] *)
Definition cart_delete (c : Ctx) : Handler :=
  try_catch
    (let userId := getUserIdFromToken c in
     let sessionId := session_of c in
     cart <- find_cart userId sessionId ;;
     match cart with
     | Some cart =>
         delete_cartItems_of_cart (Cart.id cart) ;;;
         delete_cart (Cart.id cart) ;;;
         ret empty_cart_view
     | None => ret empty_cart_view
     end)
    "Failed to clear cart".

(** ** Login with guest-cart merge (the first module of [src/routes/auth.ts]) *)

Definition Z_to_string (z : Z) : string := NilZero.string_of_int (Z.to_int z).

(** The merge loop body: sum into the user's line for the product, or insert. *)
Definition merge_item (userCartId : Z) (item : CartItem.t) : M unit :=
  found <- query (fun d => filter (same_line userCartId (CartItem.productId item)) (cartItems d)) ;;
  match hd_error found with
  | Some existingItem =>
      update_cartItem_quantity (CartItem.id existingItem)
        (CartItem.quantity existingItem + CartItem.quantity item)
  | None =>
      insert_cartItem userCartId (CartItem.productId item) (CartItem.quantity item) ;;;
      ret tt
  end.

(** [c.req.header('x-session-id') || c.req.query('session_id')] *)
Definition login_sessionId (c : Ctx) : option string :=
  if truthy_str (header_x_session_id c) then header_x_session_id c else query_session_id c.

(** The block under [// Handle cart migration for guest users]. *)
Definition migrate_guest_cart (c : Ctx) (user : User.t) : M unit :=
  let sessionId := login_sessionId c in
  if truthy_str sessionId then
    guests <- query (fun d => filter (fun g => col_eqS (Cart.sessionId g) sessionId
                                               && isNull (Cart.userId g)) (carts d)) ;;
    match hd_error guests with
    | None => ret tt
    | Some guestCart =>
        guestCartItems <- query (fun d => filter (fun it => CartItem.cartId it =? Cart.id guestCart)
                                            (cartItems d)) ;;
        if (0 <? Z.of_nat (List.length guestCartItems)) then
          mine <- query (fun d => filter (fun u => col_eqZ (Cart.userId u) (Some (User.id user)))
                                    (carts d)) ;;
          userCart <- match hd_error mine with
                      | Some userCart => ret userCart
                      | None => insert_cart (Some (User.id user)) None
                                  (Some (now c + week_ms)) (now c)
                      end ;;
          for_each guestCartItems (merge_item (Cart.id userCart)) ;;;
          delete_cartItems_of_cart (Cart.id guestCart) ;;;
          delete_cart (Cart.id guestCart)
        else ret tt
    end
  else ret tt.

Section Login.
(** Collaborators that are not part of the sources: [comparePassword] of
    [utils/password.js], [sign] of [hono/jwt] behind [signJWT], and zod's
    e-mail check. *)
Variable comparePassword : string -> string -> bool.
Variable signJWT : JWTPayload -> string -> string.
Variable is_email : string -> bool.

Definition loginSchema (email password : string) : bool :=
  is_email email && negb (String.eqb password "").

Definition invalid_credentials : Response :=
  json (Failure "Invalid email or password") 401.

(** [auth.post('/login', ...)] *)
Definition auth_login (c : Ctx) (email password : string) : Handler :=
  if loginSchema email password then
    run c
      (found <- query (fun d => filter (fun u => String.eqb (User.email u) email) (users d)) ;;
       match hd_error found with
       | None => ret invalid_credentials
       | Some user =>
           if negb (comparePassword password (User.passwordHash user))
           then ret invalid_credentials
           else
             migrate_guest_cart c user ;;;
             let token :=
               signJWT (mkJWTPayload (Z_to_string (User.id user)) (User.email user)
                                     (User.role user))
                       (JWT_SECRET c) in
             ret (json (LoginBody token user) 200)
       end)
  else reject (json ValidationFailure 400).
End Login.

(** ** Checkout ([src/routes/checkout.ts]) *)

Record CheckoutBody := mkCheckoutBody
  { body_shippingAddress : ShippingAddress; body_paymentMethod : string }.

Definition nonempty (s : string) : bool := negb (String.eqb s "").

Definition checkoutSchema (b : CheckoutBody) : bool :=
  let a := body_shippingAddress b in
  nonempty (street a) && nonempty (city a) && nonempty (state a)
  && nonempty (zip a) && nonempty (country a)
  && String.eqb (body_paymentMethod b) "mock".

Fixpoint remove_dashes (s : string) : string :=
  match s with
  | EmptyString => EmptyString
  | String ch rest =>
      if Ascii.eqb ch "-"%char then remove_dashes rest else String ch (remove_dashes rest)
  end.

(** [Math.floor(1000 + Math.random() * 9000)], in doubles as the code has it. *)
Definition four_digits (c : Ctx) : Z :=
  floor_of_float (1000 + random c * 9000)%float.

(** [generateOrderNumber]: [ORD-YYYYMMDD-rrrr]. *)
Definition generateOrderNumber (c : Ctx) : string :=
  let dateStr := remove_dashes (substring 0 10 (nowISO c)) in
  let random := four_digits c in
  String.append "ORD-" (String.append dateStr (String.append "-" (Z_to_string random))).

(** [cartItems innerJoin products where cartId]. *)
Definition cart_lines (cartId : Z) (d : DB) : list (CartItem.t * Product.t) :=
  flat_map
    (fun it => map (fun p => (it, p))
                 (filter (fun p => CartItem.productId it =? Product.id p) (products d)))
    (filter (fun it => CartItem.cartId it =? cartId) (cartItems d)).

Definition short_of_stock (line : CartItem.t * Product.t) : bool :=
  Product.stockQuantity (snd line) <? CartItem.quantity (fst line).

Definition insufficient_stock_message (line : CartItem.t * Product.t) : string :=
  String.append "Insufficient stock for "
    (String.append (Product.name (snd line))
       (String.append ". Available: "
          (String.append (Z_to_string (Product.stockQuantity (snd line)))
             (String.append ", Requested: " (Z_to_string (CartItem.quantity (fst line))))))).

Definition order_total (lines : list (CartItem.t * Product.t)) : Z :=
  fold_left (fun totalAmount item =>
               totalAmount + Product.price (snd item) * CartItem.quantity (fst item))
            lines 0.

Definition orderItemsData (orderId : Z) (lines : list (CartItem.t * Product.t))
    : list NewOrderItem :=
  map (fun item => mkNewOrderItem orderId (Product.id (snd item))
                     (CartItem.quantity (fst item)) (Product.price (snd item))
                     (Product.name (snd item)))
      lines.

(** [orderBy(orderStatusHistory.createdAt)]: a stable sort. *)
Fixpoint insert_by_createdAt (h : OrderStatusHistory.t) (l : list OrderStatusHistory.t)
    : list OrderStatusHistory.t :=
  match l with
  | [] => [h]
  | x :: rest =>
      if OrderStatusHistory.createdAt h <? OrderStatusHistory.createdAt x
      then h :: l else x :: insert_by_createdAt h rest
  end.

Definition orderBy_createdAt (l : list OrderStatusHistory.t) : list OrderStatusHistory.t :=
  fold_left (fun acc h => insert_by_createdAt h acc) l [].

Definition status_history (orderId : Z) (d : DB) : list OrderStatusHistory.t :=
  orderBy_createdAt
    (filter (fun h => OrderStatusHistory.orderId h =? orderId) (orderStatusHistory d)).

(** The answer to a request that [requireAuth] refuses: the middleware's
    [HTTPException], through [errorHandler]. *)
Definition unauthorized (c : Ctx) : Response :=
  errorHandler (HTTPException 401 (jwt_refusal c)).

(** The writes of a checkout, from the order insert to the cart clearing. *)
Definition place_order (c : Ctx) (userId : Z) (b : CheckoutBody) (cart : Cart.t)
    (cartItemsResult : list (CartItem.t * Product.t)) : M Order.t :=
  let totalAmount := order_total cartItemsResult in
  let orderNumber := generateOrderNumber c in
  order <- insert_order (Some userId) orderNumber totalAmount pending
             (Some (body_shippingAddress b)) (now c) ;;
  insert_orderItems (orderItemsData (Order.id order) cartItemsResult) ;;;
  for_each cartItemsResult
    (fun item => update_product_stock (Product.id (snd item))
                   (Product.stockQuantity (snd item) - CartItem.quantity (fst item))) ;;;
  insert_orderStatusHistory (Order.id order) pending (Some "Order created") (now c) ;;;
  delete_cartItems_of_cart (Cart.id cart) ;;;
  ret order.

Definition checkout_view (order : Order.t) (b : CheckoutBody)
    (items : list OrderItem.t) (history : list OrderStatusHistory.t) : OrderView :=
  mkOrderView (Order.id order) (Order.orderNumber order) (Order.status order)
    (Order.totalAmount order) (Some (body_shippingAddress b))
    (map (fun item => mkOrderItemView (OrderItem.id item) (OrderItem.productId item)
                        (OrderItem.productName item) None
                        (OrderItem.quantity item) (OrderItem.priceAtTime item)) items)
    history (Order.createdAt order).

(** [app.post('/', requireAuth, validateBody(checkoutSchema), ...)] *)
Definition checkout_post (c : Ctx) (b : CheckoutBody) : Handler :=
  match bearer c with
  | None => reject (unauthorized c)
  | Some userId =>
      if checkoutSchema b then
        run c
          (cartResult <- query (fun d => firstn 1 (filter (fun k => col_eqZ (Cart.userId k) (Some userId))
                                                     (carts d))) ;;
           match cartResult with
           | [] => ret (json (Failure "Cart not found") 400)
           | cart :: _ =>
               cartItemsResult <- query (cart_lines (Cart.id cart)) ;;
               if Z.of_nat (List.length cartItemsResult) =? 0
               then ret (json (Failure "Cart is empty") 400)
               else
                 match find short_of_stock cartItemsResult with
                 | Some item => ret (json (Failure (insufficient_stock_message item)) 400)
                 | None =>
                     order <- place_order c userId b cart cartItemsResult ;;
                     orderItemsResult <- query (fun d => filter (fun i => OrderItem.orderId i =? Order.id order)
                                                           (orderItems d)) ;;
                     statusHistoryResult <- query (status_history (Order.id order)) ;;
                     ret (json (OrderBody (checkout_view order b orderItemsResult
                                             statusHistoryResult)) 201)
                 end
           end)
      else reject (json (Failure "Validation failed") 400)
  end.

(** ** Order reads (the orders router) *)

Definition orderIdParamsSchema (id : Z) : bool := 1 <=? id.

Definition not_found_order : Response := json (Failure "Order not found") 404.
Definition forbidden_order : Response := json (Failure "Forbidden: Access denied") 403.

(** [order.userId !== userId] *)
Definition not_owner (order : Order.t) (userId : Z) : bool :=
  match Order.userId order with Some u => negb (u =? userId) | None => true end.

(** [orderItems leftJoin products where orderId]. *)
Definition order_rows (orderId : Z) (d : DB) : list (OrderItem.t * option Product.t) :=
  flat_map
    (fun i =>
       match filter (fun p => col_eqZ (OrderItem.productId i) (Some (Product.id p))) (products d) with
       | [] => [(i, None)]
       | ps => map (fun p => (i, Some p)) ps
       end)
    (filter (fun i => OrderItem.orderId i =? orderId) (orderItems d)).

Definition detail_item (row : OrderItem.t * option Product.t) : OrderItemView :=
  let i := fst row in
  match snd row with
  | Some p =>
      if Product.id p =? 0
      then mkOrderItemView (OrderItem.id i) (OrderItem.productId i)
             (Some (match OrderItem.productName i with
                    | Some n => if String.eqb n "" then "Unknown Product" else n
                    | None => "Unknown Product"
                    end)) None (OrderItem.quantity i) (OrderItem.priceAtTime i)
      else mkOrderItemView (OrderItem.id i) (Some (Product.id p)) (Some (Product.name p))
             (Some (Product.price p)) (OrderItem.quantity i) (OrderItem.priceAtTime i)
  | None =>
      mkOrderItemView (OrderItem.id i) (OrderItem.productId i)
        (Some (match OrderItem.productName i with
               | Some n => if String.eqb n "" then "Unknown Product" else n
               | None => "Unknown Product"
               end)) None (OrderItem.quantity i) (OrderItem.priceAtTime i)
  end.

(** [app.get('/:id', requireAuth, validateParams(orderIdParamsSchema), ...)] *)
Definition orders_get_id (c : Ctx) (id : Z) : Handler :=
  match bearer c with
  | None => reject (unauthorized c)
  | Some userId =>
      if orderIdParamsSchema id then
        run c
          (orderResult <- query (fun d => firstn 1 (filter (fun o => Order.id o =? id) (orders d))) ;;
           match orderResult with
           | [] => ret not_found_order
           | order :: _ =>
               if not_owner order userId then ret forbidden_order
               else
                 orderItemsResult <- query (order_rows id) ;;
                 statusHistoryResult <- query (status_history id) ;;
                 ret (json (OrderBody
                              (mkOrderView (Order.id order) (Order.orderNumber order)
                                 (Order.status order) (Order.totalAmount order)
                                 (Order.shippingAddress order)
                                 (map detail_item orderItemsResult)
                                 statusHistoryResult (Order.createdAt order))) 200)
           end)
      else reject (json (Failure "Parameter validation failed") 400)
  end.

(** [app.get('/:id/status', requireAuth, validateParams(orderIdParamsSchema), ...)] *)
Definition orders_get_id_status (c : Ctx) (id : Z) : Handler :=
  match bearer c with
  | None => reject (unauthorized c)
  | Some userId =>
      if orderIdParamsSchema id then
        run c
          (orderResult <- query (fun d => firstn 1 (filter (fun o => Order.id o =? id) (orders d))) ;;
           match orderResult with
           | [] => ret not_found_order
           | order :: _ =>
               if not_owner order userId then ret forbidden_order
               else
                 statusHistoryResult <- query (status_history id) ;;
                 ret (json (TimelineBody id statusHistoryResult) 200)
           end)
      else reject (json (Failure "Parameter validation failed") 400)
  end.

(** * Integrity of a store

    The constraints of the schema, as executable checks on the tables.  The
    store enforces them; the properties below take the ones they need as
    hypotheses on the store a request starts from. *)

Fixpoint distinct_by {A} (same : A -> A -> bool) (l : list A) : bool :=
  match l with
  | [] => true
  | x :: rest => negb (existsb (same x) rest) && distinct_by same rest
  end.

(** Primary keys. *)
Definition products_pkey (d : DB) : bool :=
  distinct_by (fun a b => Product.id a =? Product.id b) (products d).

Definition carts_pkey (d : DB) : bool :=
  distinct_by (fun a b => Cart.id a =? Cart.id b) (carts d).

Definition cartItems_pkey (d : DB) : bool :=
  distinct_by (fun a b => CartItem.id a =? CartItem.id b) (cartItems d).

(** [unique_cart_item]: one line per (cart, product). *)
Definition unique_cart_item (d : DB) : bool :=
  distinct_by (fun a b => same_line (CartItem.cartId a) (CartItem.productId a) b)
              (cartItems d).

(** [cart_quantity_check] and [stock_quantity_check]. *)
Definition cart_quantity_check (d : DB) : bool :=
  forallb (fun it => 0 <? CartItem.quantity it) (cartItems d).

Definition stock_quantity_check (d : DB) : bool :=
  forallb (fun p => 0 <=? Product.stockQuantity p) (products d).

(** Foreign keys of [cart_items]. *)
Definition cartItems_product_fkey (d : DB) : bool :=
  forallb (fun it => existsb (fun p => Product.id p =? CartItem.productId it) (products d))
          (cartItems d).


(** The sequences are ahead of the keys in use. *)
Definition carts_seq_ahead (d : DB) : bool :=
  forallb (fun k => Cart.id k <? carts_seq d) (carts d).

Definition cartItems_seq_ahead (d : DB) : bool :=
  forallb (fun it => CartItem.id it <? cartItems_seq d) (cartItems d).

(** The data-model invariant kept by the handlers: at most one cart per user
    and at most one per session. *)
Definition one_cart_per_user (d : DB) : bool :=
  distinct_by (fun a b => col_eqZ (Cart.userId a) (Cart.userId b)) (carts d).

Definition one_cart_per_session (d : DB) : bool :=
  distinct_by (fun a b => col_eqS (Cart.sessionId a) (Cart.sessionId b)) (carts d).

(** A cart has exactly one identity when it has a user and no session, or a
    session and no user. *)
Definition one_identity (k : Cart.t) : bool :=
  match Cart.userId k, Cart.sessionId k with
  | Some _, None => true
  | None, Some _ => true
  | _, _ => false
  end.

(** The identity columns of a cart row. *)
Definition identity (k : Cart.t) : Z * option Z * option string :=
  (Cart.id k, Cart.userId k, Cart.sessionId k).

(** ** The stock loop of checkout on the products table *)

(** The effect of the stock loop on the products table. *)
Definition sell (line : CartItem.t * Product.t) (p : Product.t) : Product.t :=
  if Product.id p =? Product.id (snd line)
  then set_stock (Product.stockQuantity (snd line) - CartItem.quantity (fst line)) p
  else p.

(** The joined rows of one cart line. *)
Definition line_rows (P : list Product.t) (it : CartItem.t) : list (CartItem.t * Product.t) :=
  map (fun p => (it, p)) (filter (fun p => CartItem.productId it =? Product.id p) P).

(** Quantity of product key [k] over a list of cart lines. *)
Definition quantity_of (k : Z) (items : list CartItem.t) : Z :=
  fold_right Z.add 0
    (map CartItem.quantity (filter (fun it => CartItem.productId it =? k) items)).

(** ** The caller's cart *)

(** The row [find_cart] returns for the caller of [c]. *)
Definition caller_cart (c : Ctx) (d : DB) : option Cart.t :=
  if truthy_num (getUserIdFromToken c) then
    hd_error (filter (fun k => col_eqZ (Cart.userId k) (getUserIdFromToken c)) (carts d))
  else if truthy_str (session_of c) then
    hd_error (filter (fun k => col_eqS (Cart.sessionId k) (session_of c)) (carts d))
  else None.

(** The store after [getOrCreateCart] found [cart]: its expiry is refreshed. *)
Definition touched (c : Ctx) (cart : Cart.t) (d : DB) : DB :=
  with_carts
    (map (fun k => if Cart.id k =? Cart.id cart
                   then touch (getExpirationDate c) (now c) k else k))
    (carts_seq d) d.

(** The row [getOrCreateCart] inserts when the caller has no cart. *)
Definition fresh_cart (c : Ctx) (d : DB) : Cart.t :=
  Cart.mk (carts_seq d) (getUserIdFromToken c) (session_of c)
          (Some (getExpirationDate c)) (now c).

Definition with_fresh_cart (c : Ctx) (d : DB) : DB :=
  with_carts (fun t => t ++ [fresh_cart c d]) (carts_seq d + 1) d.

(** The store after [DELETE /cart] removed [cart]: its lines and its row. *)
Definition cleared (cart : Cart.t) (d : DB) : DB :=
  mkDB (users d) (products d) (productImages d)
       (filter (fun k => negb (Cart.id k =? Cart.id cart)) (carts d))
       (filter (fun it => negb (CartItem.cartId it =? Cart.id cart)) (cartItems d))
       (orders d) (orderItems d) (orderStatusHistory d)
       (carts_seq d) (cartItems_seq d) (orders_seq d) (orderItems_seq d)
       (orderStatusHistory_seq d).

(** [n] requests [h] in a row; the answers are dropped. *)
Fixpoint repeat_request (n : nat) (h : Handler) (s : Store) : Store :=
  match n with
  | O => s
  | S n' => repeat_request n' h (snd (h s))
  end.

(** ** The core operations as one request type *)

Inductive Request :=
| GetCart
| AddItem (productId quantity : Z)
| UpdateItem (itemId : option Z) (quantity : Z)
| RemoveItem (itemId : option Z)
| ClearCart
| Login (email password : string)
| Checkout (b : CheckoutBody)
| GetOrder (id : Z)
| GetOrderStatus (id : Z).

Section Core.
Variable comparePassword : string -> string -> bool.
Variable signJWT : JWTPayload -> string -> string.
Variable is_email : string -> bool.

Definition handle (c : Ctx) (r : Request) : Handler :=
  match r with
  | GetCart => cart_get c
  | AddItem productId quantity => cart_post_items c productId quantity
  | UpdateItem itemId quantity => cart_put_item c itemId quantity
  | RemoveItem itemId => cart_delete_item c itemId
  | ClearCart => cart_delete c
  | Login email password => auth_login comparePassword signJWT is_email c email password
  | Checkout b => checkout_post c b
  | GetOrder id => orders_get_id c id
  | GetOrderStatus id => orders_get_id_status c id
  end.
End Core.

(** The carts sequence has not gone back, and every cart of [d'] is a cart of
    [d] with its id and identity columns intact, or a row with exactly one
    identity under an id drawn from the sequence since [d]. *)
Definition carts_kept (d d' : DB) : Prop :=
  carts_seq d <= carts_seq d'
  /\ forall k', In k' (carts d') ->
       (exists k, In k (carts d) /\ identity k = identity k')
       \/ (one_identity k' = true /\ carts_seq d <= Cart.id k' < carts_seq d').

(** A computation under which [carts_kept] holds from any store, whether it
    returns or throws. *)
Definition keeps {A} (m : M A) : Prop :=
  forall s, carts_kept (db s) (db (store_of (m s))).

(** ** The merge loop on the cart-items table *)

(** What [update(cartItems).set({ quantity: q }).where(eq(cartItems.id, e.id))]
    does to a row. *)
Definition bump (e : CartItem.t) (q : Z) (it : CartItem.t) : CartItem.t :=
  if CartItem.id it =? CartItem.id e then set_quantity q it else it.

(** One turn of the merge loop on the table and its sequence. *)
Definition merge_step (userCartId : Z) (st : list CartItem.t * Z) (g : CartItem.t)
    : list CartItem.t * Z :=
  match hd_error (filter (same_line userCartId (CartItem.productId g)) (fst st)) with
  | Some e =>
      (map (bump e (CartItem.quantity e + CartItem.quantity g)) (fst st), snd st)
  | None =>
      (fst st ++ [CartItem.mk (snd st) userCartId (CartItem.productId g) (CartItem.quantity g)],
       snd st + 1)
  end.

(** The constraints the loop relies on and keeps. *)
Definition table_ok (st : list CartItem.t * Z) : Prop :=
  distinct_by (fun a b => CartItem.id a =? CartItem.id b) (fst st) = true
  /\ distinct_by (fun a b => same_line (CartItem.cartId a) (CartItem.productId a) b) (fst st) = true
  /\ forallb (fun it => 0 <? CartItem.quantity it) (fst st) = true
  /\ forallb (fun it => CartItem.id it <? snd st) (fst st) = true.

(** The quantities the loop writes for the guest lines [G] fit the integer
    column: each guest quantity, and its sum with what cart [userCartId]
    holds for the same product. *)
Definition sums_fit (userCartId : Z) (G items : list CartItem.t) : Prop :=
  forall g, In g G ->
    CartItem.quantity g <= 2147483647
    /\ forall e, In e items ->
         same_line userCartId (CartItem.productId g) e = true ->
         CartItem.quantity e + CartItem.quantity g <= 2147483647.

(** The quantities held for product [pid] by cart [cartId]: one entry per line. *)
Definition held (cartId pid : Z) (items : list CartItem.t) : list Z :=
  map CartItem.quantity (filter (same_line cartId pid) items).

(** Folding the guest's quantity for a product into the user's. *)
Definition fold_in (guest user : list Z) : list Z :=
  match guest, user with
  | [], _ => user
  | g :: _, [] => [g]
  | g :: _, u :: _ => [u + g]
  end.

(** ** What the merge at login leaves *)

Definition is_cart_of (user : User.t) (k : Cart.t) : bool :=
  col_eqZ (Cart.userId k) (Some (User.id user)).

(** The cart the guest lines are merged into: the user's cart, or the row the
    merge inserts when the user has none. *)
Definition merge_target (c : Ctx) (user : User.t) (d : DB) : Cart.t :=
  match hd_error (filter (is_cart_of user) (carts d)) with
  | Some userCart => userCart
  | None => Cart.mk (carts_seq d) (Some (User.id user)) None (Some (now c + week_ms)) (now c)
  end.

Definition with_merge_target (c : Ctx) (user : User.t) (d : DB) : DB :=
  match hd_error (filter (is_cart_of user) (carts d)) with
  | Some _ => d
  | None => with_carts (fun t => t ++ [merge_target c user d]) (carts_seq d + 1) d
  end.

Definition is_guest_cart (sessionId : option string) (g : Cart.t) : bool :=
  col_eqS (Cart.sessionId g) sessionId && isNull (Cart.userId g).

Definition lines_of (cartId : Z) (d : DB) : list CartItem.t :=
  filter (fun it => CartItem.cartId it =? cartId) (cartItems d).

Definition after_merge (c : Ctx) (user : User.t) (guest : Cart.t) (d : DB) : DB :=
  let d0 := with_merge_target c user d in
  let st := fold_left (merge_step (Cart.id (merge_target c user d)))
                      (lines_of (Cart.id guest) d) (cartItems d, cartItems_seq d) in
  mkDB (users d) (products d) (productImages d)
       (filter (fun k => negb (Cart.id k =? Cart.id guest)) (carts d0))
       (filter (fun it => negb (CartItem.cartId it =? Cart.id guest)) (fst st))
       (orders d) (orderItems d) (orderStatusHistory d)
       (carts_seq d0) (snd st) (orders_seq d) (orderItems_seq d)
       (orderStatusHistory_seq d).

(** ** What a successful checkout leaves, table by table *)

(** Units of product [p] held by cart [cartId]. *)
Definition purchased (cartId : Z) (d : DB) (p : Product.t) : Z :=
  fold_right Z.add 0
    (map CartItem.quantity (filter (same_line cartId (Product.id p)) (cartItems d))).

Definition sum_of_lines (lines : list (CartItem.t * Product.t)) : Z :=
  fold_right Z.add 0
    (map (fun l => Product.price (snd l) * CartItem.quantity (fst l)) lines).

Definition new_order (c : Ctx) (userId : Z) (b : CheckoutBody) (cart : Cart.t) (d : DB)
    : Order.t :=
  Order.mk (orders_seq d) (Some userId) (generateOrderNumber c)
    (sum_of_lines (cart_lines (Cart.id cart) d)) pending
    (Some (body_shippingAddress b)) (now c) (now c).

Definition order_created (c : Ctx) (d : DB) : OrderStatusHistory.t :=
  OrderStatusHistory.mk (orderStatusHistory_seq d) (orders_seq d) pending
    (Some "Order created") (now c).

Definition after_checkout (c : Ctx) (userId : Z) (b : CheckoutBody) (cart : Cart.t) (d : DB)
    : DB :=
  mkDB (users d)
    (map (fun p => set_stock (Product.stockQuantity p - purchased (Cart.id cart) d p) p)
         (products d))
    (productImages d)
    (carts d)
    (filter (fun it => negb (CartItem.cartId it =? Cart.id cart)) (cartItems d))
    (orders d ++ [new_order c userId b cart d])
    (orderItems d
     ++ number_rows (orderItems_seq d)
          (orderItemsData (orders_seq d) (cart_lines (Cart.id cart) d)))
    (orderStatusHistory d ++ [order_created c d])
    (carts_seq d) (cartItems_seq d) (orders_seq d + 1)
    (orderItems_seq d + Z.of_nat (List.length (cart_lines (Cart.id cart) d)))
    (orderStatusHistory_seq d + 1).

(** The rows of every table are the same; the sequences may have moved. *)
Definition same_rows (d d' : DB) : Prop :=
  users d' = users d
  /\ products d' = products d
  /\ productImages d' = productImages d
  /\ carts d' = carts d
  /\ cartItems d' = cartItems d
  /\ orders d' = orders d
  /\ orderItems d' = orderItems d
  /\ orderStatusHistory d' = orderStatusHistory d.

(** * Frames and triples for the further properties *)

(** [m] relates the tables it starts from to the tables it ends with by [R],
    whether it returns or throws. *)
Definition respects {A} (R : DB -> DB -> Prop) (m : M A) : Prop :=
  forall s, R (db s) (db (store_of (m s))).

(** Users, catalogue and order tables are the same. *)
Definition same_catalog_and_orders (d d' : DB) : Prop :=
  users d' = users d
  /\ products d' = products d
  /\ productImages d' = productImages d
  /\ orders d' = orders d
  /\ orderItems d' = orderItems d
  /\ orderStatusHistory d' = orderStatusHistory d
  /\ orders_seq d' = orders_seq d
  /\ orderItems_seq d' = orderItems_seq d
  /\ orderStatusHistory_seq d' = orderStatusHistory_seq d.

(** Users and cart rows are the same. *)
Definition same_users_and_carts (d d' : DB) : Prop :=
  users d' = users d /\ carts d' = carts d /\ carts_seq d' = carts_seq d.

(** From tables satisfying [P], [m] returns [a] on tables satisfying [Q a],
    or throws on tables satisfying [E]. *)
Definition triple {A} (P : DB -> Prop) (m : M A) (Q : A -> DB -> Prop) (E : DB -> Prop)
    : Prop :=
  forall s, P (db s) ->
    match m s with
    | Done a s' => Q a (db s')
    | Thrown _ s' => E (db s')
    end.

Definition is_checkout (r : Request) : bool :=
  match r with Checkout _ => true | _ => false end.

Definition is_order_read (r : Request) : bool :=
  match r with GetOrder _ | GetOrderStatus _ => true | _ => false end.



(** At most one primary image per product. *)
Definition one_primary_image (d : DB) : bool :=
  forallb
    (fun p => Nat.leb (List.length
                         (filter (fun im => (ProductImage.productId im =? Product.id p)
                                            && ProductImage.isPrimary im)
                                 (productImages d))) 1)
    (products d).

(** Cart rows keep their identity columns and the lines are untouched. *)
Definition same_cart_contents (d d' : DB) : Prop :=
  map identity (carts d') = map identity (carts d)
  /\ carts_seq d' = carts_seq d
  /\ cartItems d' = cartItems d
  /\ cartItems_seq d' = cartItems_seq d.

(** Whether a string holds a dash. *)
Fixpoint has_dash (s : string) : bool :=
  match s with
  | EmptyString => false
  | String ch rest => Ascii.eqb ch "-"%char || has_dash rest
  end.

(** At most one cart per user and at most one per session. *)
Definition one_cart_per_identity (d : DB) : Prop :=
  one_cart_per_user d = true /\ one_cart_per_session d = true.

(** If the tables before hold at most one cart per identity, so do the
    tables after. *)
Definition keeps_one_cart (d d' : DB) : Prop :=
  one_cart_per_identity d -> one_cart_per_identity d'.

(** A response whose status and body agree: 200 or 201 with data, or 400,
    401, 403, 404 or 500 with an error body. *)
Definition well_formed (r : Response) : bool :=
  match body r with
  | Failure _ | ValidationFailure =>
      (status r =? 400) || (status r =? 401) || (status r =? 403) || (status r =? 404)
      || (status r =? 500)
  | _ => (status r =? 200) || (status r =? 201)
  end.

(** [m], when it returns, returns a well-formed response. *)
Definition answers_well (m : M Response) : Prop :=
  triple (fun _ => True) m (fun r _ => well_formed r = true) (fun _ => True).

(** * The order list ([GET /orders] of the orders router) *)

(** The query string after zod's coercion, for integer [page] and [limit]
    (a status outside the enum cannot be written down here). *)
Record OrderQuery := mkOrderQuery
  { q_page : option Z; q_limit : option Z; q_status : option OrderStatus }.

(** [.default(1)], [.default(20)] *)
Definition query_page (q : OrderQuery) : Z :=
  match q_page q with Some p => p | None => 1 end.

Definition query_limit (q : OrderQuery) : Z :=
  match q_limit q with Some l => l | None => 20 end.

(** [orderQuerySchema] *)
Definition orderQuerySchema (q : OrderQuery) : bool :=
  (1 <=? query_page q) && (1 <=? query_limit q) && (query_limit q <=? 100).

Definition status_eqb (a b : OrderStatus) : bool :=
  match a, b with
  | pending, pending | processing, processing | shipped, shipped
  | delivered, delivered | cancelled, cancelled => true
  | _, _ => false
  end.

(** [eq(orders.userId, userId)], with [eq(orders.status, status)] when a
    status is given. *)
Definition whereClause (userId : Z) (status : option OrderStatus) (o : Order.t) : bool :=
  match status with
  | Some st => col_eqZ (Order.userId o) (Some userId) && status_eqb (Order.status o) st
  | None => col_eqZ (Order.userId o) (Some userId)
  end.

(** [orderBy(desc(orders.createdAt))]: newest first; orders created at the
    same instant stay in table order. *)
Fixpoint insert_newest_first (o : Order.t) (l : list Order.t) : list Order.t :=
  match l with
  | [] => [o]
  | x :: rest =>
      if Order.createdAt x <? Order.createdAt o
      then o :: l else x :: insert_newest_first o rest
  end.

Definition orderBy_desc_createdAt (l : list Order.t) : list Order.t :=
  fold_left (fun acc o => insert_newest_first o acc) l [].

(** The orders the list selects from, in the order it selects them. *)
Definition matching_orders (userId : Z) (status : option OrderStatus) (d : DB)
    : list Order.t :=
  orderBy_desc_createdAt (filter (whereClause userId status) (orders d)).

Record OrderSummary := mkOrderSummary
  { os_id : Z; os_orderNumber : string; os_status : OrderStatus; os_totalAmount : Z;
    os_itemCount : Z; os_createdAt : Z }.

Record Pagination := mkPagination
  { pg_page : Z; pg_limit : Z; pg_total : Z; pg_totalPages : Z }.

Record OrdersPage := mkOrdersPage
  { op_orders : list OrderSummary; op_pagination : Pagination }.

(** [Math.ceil(total / limit)] for a positive [limit], taken exactly. *)
Definition ceil_div (total limit : Z) : Z := (total + limit - 1) / limit.

(** [await Promise.all(xs.map(async (x) => ...))], the statements taken in
    the order of [xs]. *)
Fixpoint map_each {A B} (xs : list A) (f : A -> M B) : M (list B) :=
  match xs with
  | [] => ret []
  | x :: rest => y <- f x ;; ys <- map_each rest f ;; ret (y :: ys)
  end.

(** The SQL count of the lines of an order. *)
Definition count_items (orderId : Z) (d : DB) : Z :=
  Z.of_nat (List.length (filter (fun i => OrderItem.orderId i =? orderId) (orderItems d))).

Definition summary (order : Order.t) (itemCount : Z) : OrderSummary :=
  mkOrderSummary (Order.id order) (Order.orderNumber order) (Order.status order)
    (Order.totalAmount order) itemCount (Order.createdAt order).

(** The body of the handler, after [requireAuth] and [validateQuery]. *)
Definition list_orders (userId : Z) (q : OrderQuery) : M OrdersPage :=
  let page := query_page q in
  let limit := query_limit q in
  let status := q_status q in
  let offset := (page - 1) * limit in
  ordersResult <- query (fun d => firstn (Z.to_nat limit)
                                    (skipn (Z.to_nat offset) (matching_orders userId status d))) ;;
  total <- query (fun d => Z.of_nat (List.length (filter (whereClause userId status)
                                                         (orders d)))) ;;
  ordersWithItemCount <-
    map_each ordersResult
      (fun order =>
         itemCount <- query (count_items (Order.id order)) ;;
         ret (summary order itemCount)) ;;
  ret (mkOrdersPage ordersWithItemCount
         (mkPagination page limit total (ceil_div total limit))).

(** [app.get('/', requireAuth, validateQuery(orderQuerySchema), ...)]: an
    error response or the page. *)
Definition orders_get (c : Ctx) (q : OrderQuery) (s : Store)
    : (Response + OrdersPage) * Store :=
  match bearer c with
  | None => (inl (unauthorized c), s)
  | Some userId =>
      if orderQuerySchema q then
        match list_orders userId q s with
        | Done p s' => (inr p, s')
        | Thrown e s' => (inl (errorHandler (thrown c e)), s')
        end
      else (inl (json (Failure "Query validation failed") 400), s)
  end.

(** The order ids on page [p] of the caller's list. *)
Definition page_ids (c : Ctx) (q : OrderQuery) (d : DB) (p : Z) : list Z :=
  match fst (orders_get c (mkOrderQuery (Some p) (q_limit q) (q_status q)) (reliable d)) with
  | inr page => map os_id (op_orders page)
  | inl _ => []
  end.


(** * Admin product routes ([src/routes/products.ts], with the auth middleware) *)

(** What a referencing order line keeps when its product is deleted
    ([ON DELETE set null] on [order_items.product_id]). *)
Definition forget_product (id : Z) (i : OrderItem.t) : OrderItem.t :=
  if col_eqZ (OrderItem.productId i) (Some id)
  then OrderItem.mk (OrderItem.id i) (OrderItem.orderId i) None (OrderItem.quantity i)
         (OrderItem.priceAtTime i) (OrderItem.productName i)
  else i.

(** The tables after [delete(products).where(eq(products.id, id))]: the
    images and the cart lines of the product cascade, the order lines lose
    the reference. *)
Definition without_product (id : Z) (d : DB) : DB :=
  mkDB (users d)
       (filter (fun p => negb (Product.id p =? id)) (products d))
       (filter (fun im => negb (ProductImage.productId im =? id)) (productImages d))
       (carts d)
       (filter (fun it => negb (CartItem.productId it =? id)) (cartItems d))
       (orders d)
       (map (forget_product id) (orderItems d))
       (orderStatusHistory d)
       (carts_seq d) (cartItems_seq d) (orders_seq d) (orderItems_seq d)
       (orderStatusHistory_seq d).

Definition delete_product (id : Z) : M unit :=
  stmt (fun d => inr (tt, without_product id d)).

Definition role_eqb (a b : UserRole) : bool :=
  match a, b with
  | customer, customer | admin, admin => true
  | _, _ => false
  end.

(** [requireRole(allowedRoles)]: the response that stops the request, if any. *)
Definition requireRole (allowedRoles : list UserRole) (payload : option JWTPayload)
    : option Response :=
  match payload with
  | None => Some (json (Failure "Unauthorized") 401)
  | Some p =>
      if existsb (role_eqb (jwt_role p)) allowedRoles then None
      else Some (json (Failure "Forbidden: Insufficient permissions") 403)
  end.

(** The answer of an admin route: an error response, or the confirmation
    [{ success: true, message }]. *)
Inductive AdminAnswer :=
| Refused (r : Response)
| Confirmed (message : string)
| Updated (product : option Product.t)
| Uploaded (images : list ProductImage.t).

(** [productsRouter.delete('/admin/products/:id', requireAuth,
    requireRole(['admin']), zValidator('param', productIdSchema), ...)];
    [payload] is the payload of the bearer token, [None] without a valid
    one, and [id] is what [productIdSchema] parsed from the parameter (a
    parameter that is not a number makes the schema throw and is not
    modelled). *)
Definition products_delete (c : Ctx) (payload : option JWTPayload) (id : Z) (s : Store)
    : AdminAnswer * Store :=
  match payload with
  | None => (Refused (unauthorized c), s)
  | Some _ =>
      match requireRole [admin] payload with
      | Some r => (Refused r, s)
      | None =>
          match (existingProduct <- query (fun d => hd_error (filter (fun p => Product.id p =? id)
                                                               (products d))) ;;
                 match existingProduct with
                 | None => ret (Refused (json (Failure "Product not found") 404))
                 | Some _ =>
                     delete_product id ;;;
                     ret (Confirmed "Product deleted successfully")
                 end) s with
          | Done a s' => (a, s')
          | Thrown e s' => (Refused (errorHandler (thrown c e)), s')
          end
      end
  end.







Definition with_productImages (f : list ProductImage.t -> list ProductImage.t) (d : DB)
    : DB :=
  mkDB (users d) (products d) (f (productImages d)) (carts d) (cartItems d)
       (orders d) (orderItems d) (orderStatusHistory d)
       (carts_seq d) (cartItems_seq d) (orders_seq d) (orderItems_seq d)
       (orderStatusHistory_seq d).

(** One round of the upload loop.  A file is [Some (publicUrl, storagePath)]
    when it is a [File] and the storage took it, [None] when the loop skips
    it; the state is [uploadedImages], as (url, isPrimary), and the index
    [i]. *)
Definition upload_step (state : list (string * bool) * nat)
    (file : option (string * string)) : list (string * bool) * nat :=
  let '(uploadedImages, i) := state in
  match file with
  | None => (uploadedImages, S i)
  | Some (publicUrl, _) =>
      (uploadedImages
         ++ [(publicUrl, Nat.eqb i 0 && Nat.eqb (List.length uploadedImages) 0)],
       S i)
  end.

Definition upload_loop (files : list (option (string * string))) : list (string * bool) :=
  fst (fold_left upload_step files ([], 0%nat)).

(** The rows of [insert(productImages).values(...)], numbered from [nextval],
    the next value of the images sequence, which the tables do not hold. *)
Fixpoint image_rows (nextval productId : Z) (imgs : list (string * bool))
    : list ProductImage.t :=
  match imgs with
  | [] => []
  | (url, isPrimary) :: rest =>
      ProductImage.mk nextval productId url isPrimary
      :: image_rows (nextval + 1) productId rest
  end.

Definition insert_productImages (nextval productId : Z) (imgs : list (string * bool))
    : M (list ProductImage.t) :=
  stmt (fun d =>
    let rows := image_rows nextval productId imgs in
    inr (rows, with_productImages (fun t => t ++ rows) d)).

(** [productsRouter.post('/admin/products/:id/images', requireAuth,
    requireRole(['admin']), zValidator('param', productIdSchema), ...)];
    [files] is [None] when the body has no [images] field. *)
Definition products_post_images (c : Ctx) (payload : option JWTPayload) (id : Z)
    (files : option (list (option (string * string)))) (nextval : Z) (s : Store)
    : AdminAnswer * Store :=
  match payload with
  | None => (Refused (unauthorized c), s)
  | Some _ =>
      match requireRole [admin] payload with
      | Some r => (Refused r, s)
      | None =>
          match (product <- query (fun d => hd_error (filter (fun p => Product.id p =? id)
                                                         (products d))) ;;
                 match product with
                 | None => ret (Refused (json (Failure "Product not found") 404))
                 | Some _ =>
                     match files with
                     | None => ret (Refused (json (Failure "No images provided") 400))
                     | Some fileArray =>
                         let uploadedImages := upload_loop fileArray in
                         if Nat.eqb (List.length uploadedImages) 0
                         then ret (Refused (json (Failure "Failed to upload images") 500))
                         else
                           imageRecords <- insert_productImages nextval id uploadedImages ;;
                           ret (Uploaded imageRecords)
                     end
                 end) s with
          | Done a s' => (a, s')
          | Thrown e s' => (Refused (errorHandler (thrown c e)), s')
          end
      end
  end.

(** The primary images of a product. *)
Definition primary_images (p : Product.t) (d : DB) : list ProductImage.t :=
  filter (fun im => (ProductImage.productId im =? Product.id p) && ProductImage.isPrimary im)
         (productImages d).

(** The rows the cart view joins for one cart line and one product: one per
    primary image, or one without an image. *)
Definition rows_of (d : DB) (it : CartItem.t) (p : Product.t)
    : list (CartItem.t * Product.t * option string) :=
  match primary_images p d with
  | [] => [(it, p, None)]
  | im :: imgs => map (fun im => (it, p, Some (ProductImage.url im))) (im :: imgs)
  end.

(** The sum of [w line product] over joined rows. *)
Definition weigh (w : CartItem.t -> Product.t -> Z)
    (rows : list (CartItem.t * Product.t * option string)) : Z :=
  fold_right Z.add 0 (map (fun r => w (fst (fst r)) (snd (fst r))) rows).

(** An order line as the order detail shows it, without the columns of the
    live product. *)
Definition line_digest (v : OrderItemView) : Z * Z * Z :=
  (oiv_id v, oiv_quantity v, oiv_priceAtTime v).

(** A response without the live product columns of its order lines; a
    response that is not an order detail is kept whole. *)
Definition order_digest (r : Response)
    : Response + Z * (Z * string * OrderStatus * Z * option ShippingAddress
                      * list (Z * Z * Z) * list OrderStatusHistory.t * Z) :=
  match body r with
  | OrderBody v =>
      inr (status r,
           (ov_id v, ov_orderNumber v, ov_status v, ov_totalAmount v,
            ov_shippingAddress v, map line_digest (ov_items v), ov_statusHistory v,
            ov_createdAt v))
  | _ => inl r
  end.

(** * Registration ([auth.post('/register')] of [src/routes/auth.ts]) *)







Section Register.
(** [hashPassword] of [utils/password.js] and zod's e-mail check are not
    part of the sources. *)
Variable hashPassword : string -> string.
Variable is_email : string -> bool.


End Register.


(** * Sample stores and requests

    Small concrete stores on which the handlers are run. *)

Definition no_address : option ShippingAddress := None.

(** A text for each error of the driver. *)
Definition sample_message (e : DbError) : string :=
  match e with
  | UniqueViolation k =>
      String.append "duplicate key value violates unique constraint " k
  | CheckViolation k => String.append "new row violates check constraint " k
  | ForeignKeyViolation k =>
      String.append "insert or update violates foreign key constraint " k
  | OutOfRange t => String.append t " out of range"
  | ConnectionFailure => "Connection terminated unexpectedly"
  end.

(** A request environment; [who] is the subject of the bearer token and
    [cookie] the session cookie.  The random draw gives the four digits 1234. *)
Definition sample_ctx (who : option Z) (cookie : option string) : Ctx :=
  mkCtx who cookie "3f2b8c1e-uuid" None None 1700000000000
        "2024-01-15T10:30:00.000Z" 0.02606201171875%float "secret"
        "no authorization included in request" sample_message.

Definition sample_order : Order.t :=
  Order.mk 1 (Some 1) "ORD-20240115-1234" 3500 pending no_address 0 0.

(** One order, owned by user 1. *)
Definition db_one_order : DB :=
  mkDB [] [] [] [] [] [sample_order] [] [] 1 1 2 1 1.

Definition productA : Product.t := Product.mk 1 "productA" 1000 5.
Definition productB : Product.t := Product.mk 2 "productB" 700 0.
Definition productC : Product.t := Product.mk 3 "productC" 500 10.

Definition user1 : User.t :=
  User.mk 1 "ann@example.com" "hash-of-pw1" (Some "Ann") None customer.

(** The cart of user 1. *)
Definition cart1 : Cart.t := Cart.mk 1 (Some 1) None (Some 1700000000000) 1690000000000.

Definition sample_address : ShippingAddress :=
  mkAddress "123 Main St" "New York" "NY" "10001" "USA".

Definition sample_body : CheckoutBody := mkCheckoutBody sample_address "mock".

(** Cart 1 holds 2 of product A (stock 5) and 1 of product B (stock 0). *)
Definition db_short : DB :=
  mkDB [user1] [productA; productB; productC] [] [cart1]
       [CartItem.mk 1 1 1 2; CartItem.mk 2 1 2 1]
       [] [] [] 2 3 1 1 1.

(** Cart 1 holds 2 of product A (10.00 each) and 3 of product C (5.00 each). *)
Definition db_ready : DB :=
  mkDB [user1] [productA; productB; productC] [] [cart1]
       [CartItem.mk 1 1 1 2; CartItem.mk 2 1 3 3]
       [] [] [] 2 3 1 1 1.

(** [db_ready] with an order that already holds the number the sample
    request generates. *)
Definition db_taken : DB :=
  mkDB [user1] [productA; productB; productC] [] [cart1]
       [CartItem.mk 1 1 1 2; CartItem.mk 2 1 3 3]
       [sample_order] [] [] 2 3 2 1 1.

(** Stand-ins for the collaborators of login. *)
Definition sample_compare (password hash : string) : bool :=
  String.eqb (String.append "hash-of-" password) hash.

Definition sample_sign (p : JWTPayload) (secret : string) : string :=
  String.append (sub p) (String.append "." secret).

Definition sample_is_email (s : string) : bool := includes "@" s.

(** A login request carrying the guest session id in [x-session-id]. *)
Definition login_ctx : Ctx :=
  mkCtx None None "3f2b8c1e-uuid" (Some "guest-7") None 1700000000000
        "2024-01-15T10:30:00.000Z" 0.02606201171875%float "secret"
        "no authorization included in request" sample_message.

(** The guest cart of session "guest-7". *)
Definition guest_cart : Cart.t :=
  Cart.mk 2 None (Some "guest-7") (Some 1700000000000) 1690000000000.

(** User 1 holds 2 of product A; the guest cart holds 3 of product A. *)
Definition db_merge : DB :=
  mkDB [user1] [productA; productB; productC] [] [cart1; guest_cart]
       [CartItem.mk 1 1 1 2; CartItem.mk 2 2 1 3]
       [] [] [] 3 3 1 1 1.

(** [db_ready] after user 1 ordered 2 of product A. *)
Definition db_history : DB :=
  mkDB [user1] [productA; productB; productC] [] [cart1]
       [CartItem.mk 1 1 1 2; CartItem.mk 2 1 3 3]
       [sample_order] [OrderItem.mk 1 1 (Some 1) 2 1000 (Some "productA")] []
       2 3 2 2 1.

Definition admin_payload : JWTPayload := mkJWTPayload "9" "root@example.com" admin.



(** [db_ready] with a primary image for product A. *)
Definition db_pictured : DB :=
  mkDB [user1] [productA; productB; productC] [ProductImage.mk 1 1 "a.png" true] [cart1]
       [CartItem.mk 1 1 1 2; CartItem.mk 2 1 3 3]
       [] [] [] 2 3 1 1 1.

(** A request of user 1 whose [Math.random()] gives [r]. *)
Definition drawing (r : float) : Ctx :=
  mkCtx (Some 1) None "3f2b8c1e-uuid" None None 1700000000000
        "2024-01-15T10:30:00.000Z" r "secret"
        "no authorization included in request" sample_message.

(** * Properties *)

(** ** Running statements on a reliable store *)

Lemma stmt_reliable {A} (q : DB -> DbError * DB + A * DB) (d : DB) :
  stmt q (reliable d) =
  match q d with
  | inl (e, d') => Thrown e (reliable d')
  | inr (a, d') => Done a (reliable d')
  end.
Proof. unfold stmt. simpl. destruct (q d) as [[e d'] | [a d']]; reflexivity. Qed.

Lemma bind_query {A B} (q : DB -> A) (k : A -> M B) (d : DB) :
  bind (query q) k (reliable d) = k (q d) (reliable d).
Proof. reflexivity. Qed.

(** Whatever the text of a driver error, the global handler answers 500 with
    an error body. *)
Lemma errorHandler_internal (c : Ctx) (e : DbError) :
  status (errorHandler (thrown c e)) = 500
  /\ error_kind (errorHandler (thrown c e)) = Some Internal
  /\ exists msg, body (errorHandler (thrown c e)) = Failure msg.
Proof.
  unfold errorHandler, thrown. destruct (_ || _); simpl; repeat split; eauto.
Qed.

(** ** Order reads *)

Lemma firstn_1_hd {A} (l : list A) (x : A) :
  hd_error l = Some x -> exists rest, firstn 1 l = x :: rest.
Proof. destruct l; simpl; intros H; inversion H; subst; eauto. Qed.




(** ** Checkout: the stock check *)

Lemma find_exists {A} (f : A -> bool) (l : list A) :
  (exists x, In x l /\ f x = true) -> exists y, find f l = Some y.
Proof.
  induction l as [|a l IH]; intros [x [Hin Hf]].
  - destruct Hin.
  - simpl. destruct (f a) eqn:Ha; eauto.
    destruct Hin as [-> | Hin]; [congruence|]. apply IH; eauto.
Qed.

Lemma length_pos_not_zero {A} (l : list A) :
  l <> [] -> (Z.of_nat (List.length l) =? 0) = false.
Proof. destruct l; [congruence|]. intros _. apply Z.eqb_neq. simpl List.length. lia. Qed.

(** The handler up to the stock check, on a reliable store. *)
Lemma checkout_post_reaches_stock_check
    (c : Ctx) (b : CheckoutBody) (d : DB) (userId : Z) (cart : Cart.t) :
  bearer c = Some userId ->
  checkoutSchema b = true ->
  hd_error (filter (fun k => col_eqZ (Cart.userId k) (Some userId)) (carts d)) = Some cart ->
  cart_lines (Cart.id cart) d <> [] ->
  checkout_post c b (reliable d) =
  run c (match find short_of_stock (cart_lines (Cart.id cart) d) with
       | Some item => ret (json (Failure (insufficient_stock_message item)) 400)
       | None =>
           order <- place_order c userId b cart (cart_lines (Cart.id cart) d) ;;
           orderItemsResult <- query (fun d => filter (fun i => OrderItem.orderId i =? Order.id order)
                                                 (orderItems d)) ;;
           statusHistoryResult <- query (status_history (Order.id order)) ;;
           ret (json (OrderBody (checkout_view order b orderItemsResult
                                   statusHistoryResult)) 201)
       end) (reliable d).
Proof.
  intros Hb Hv Hcart Hne.
  destruct (firstn_1_hd _ _ Hcart) as [rest Hrest].
  unfold checkout_post. rewrite Hb, Hv. unfold run.
  rewrite bind_query, Hrest, bind_query, (length_pos_not_zero _ Hne).
  reflexivity.
Qed.

(** C1: when some line of the caller's cart asks for more than the product's
    stock, checkout answers 400 with the text "Insufficient stock for", the
    name of the product of the first such line, ". Available: ", that
    product's stock in decimal, ", Requested: " and the quantity of the line
    in decimal, and leaves the whole store as it was: no order, order line or
    status event is written, no stock is decremented, the cart keeps its
    lines. *)
Theorem checkout_insufficient_stock_aborts
    (c : Ctx) (b : CheckoutBody) (d : DB) (userId : Z) (cart : Cart.t) :
  bearer c = Some userId ->
  checkoutSchema b = true ->
  hd_error (filter (fun k => col_eqZ (Cart.userId k) (Some userId)) (carts d)) = Some cart ->
  (exists line, In line (cart_lines (Cart.id cart) d)
                /\ CartItem.quantity (fst line) > Product.stockQuantity (snd line)) ->
  exists item,
    find short_of_stock (cart_lines (Cart.id cart) d) = Some item
    /\ In item (cart_lines (Cart.id cart) d)
    /\ CartItem.quantity (fst item) > Product.stockQuantity (snd item)
    /\ checkout_post c b (reliable d)
       = (json (Failure
                  (String.append "Insufficient stock for "
                     (String.append (Product.name (snd item))
                        (String.append ". Available: "
                           (String.append (Z_to_string (Product.stockQuantity (snd item)))
                              (String.append ", Requested: "
                                 (Z_to_string (CartItem.quantity (fst item))))))))) 400,
          reliable d)
    /\ error_kind (fst (checkout_post c b (reliable d))) = Some BadRequest.
Proof.
  intros Hb Hv Hcart [line [Hin Hshort]].
  assert (Hne : cart_lines (Cart.id cart) d <> []).
  { intros E. rewrite E in Hin. destruct Hin. }
  destruct (@find_exists _ short_of_stock (cart_lines (Cart.id cart) d)) as [item Hitem].
  { exists line. split; [exact Hin|]. unfold short_of_stock. apply Z.ltb_lt. lia. }
  exists item.
  pose proof (find_some _ _ Hitem) as [Hin' Hs].
  unfold short_of_stock in Hs. apply Z.ltb_lt in Hs.
  assert (Hrun : checkout_post c b (reliable d)
                 = (json (Failure (insufficient_stock_message item)) 400, reliable d)).
  { rewrite (checkout_post_reaches_stock_check c b d userId cart Hb Hv Hcart Hne), Hitem. reflexivity. }
  repeat split; try assumption; try lia.
  rewrite Hrun. reflexivity.
Qed.

(** ** Checkout: the writes *)

Lemma existsb_same {A} (f g : A -> bool) (l : list A) :
  (forall x, f x = g x) -> existsb f l = existsb g l.
Proof. intros H. induction l as [|a l IH]; simpl; [reflexivity|]. rewrite H, IH. reflexivity. Qed.

Lemma stock_updates_run (lines : list (CartItem.t * Product.t)) :
  (forall line, In line lines ->
     CartItem.quantity (fst line) <= Product.stockQuantity (snd line)) ->
  forall d,
    for_each lines
      (fun item => update_product_stock (Product.id (snd item))
                     (Product.stockQuantity (snd item) - CartItem.quantity (fst item)))
      (reliable d)
    = Done tt (reliable (with_products
                           (fun t => map (fun p => fold_left (fun x l => sell l x) lines p) t) d)).
Proof.
  induction lines as [|l lines IH]; intros Hok d.
  - simpl. unfold ret, with_products. rewrite map_id. destruct d; reflexivity.
  - simpl for_each. unfold bind at 1.
    unfold update_product_stock. rewrite stmt_reliable.
    assert (Hge : (Product.stockQuantity (snd l) - CartItem.quantity (fst l) <? 0) = false).
    { apply Z.ltb_ge. specialize (Hok l (or_introl eq_refl)). lia. }
    rewrite Hge, andb_false_r.
    rewrite IH by (intros; apply Hok; right; assumption).
    f_equal. unfold with_products, reliable. simpl. f_equal. f_equal.
    rewrite map_map. reflexivity.
Qed.

Lemma set_stock_same (p : Product.t) : set_stock (Product.stockQuantity p) p = p.
Proof. destruct p; reflexivity. Qed.

(** Lines of other products leave [x] alone. *)
Lemma sell_others (lines : list (CartItem.t * Product.t)) (x : Product.t) :
  (forall l, In l lines -> Product.id (snd l) <> Product.id x) ->
  fold_left (fun x l => sell l x) lines x = x.
Proof.
  revert x. induction lines as [|l lines IH]; intros x H; simpl; [reflexivity|].
  unfold sell at 2.
  destruct (Product.id x =? Product.id (snd l)) eqn:E.
  - apply Z.eqb_eq in E. exfalso. apply (H l (or_introl eq_refl)). congruence.
  - apply IH. intros l' Hl'. apply H. right; assumption.
Qed.

(** With distinct product keys, a key selects at most the row itself. *)
Lemma filter_by_key (P : list Product.t) (p : Product.t) :
  distinct_by (fun a b => Product.id a =? Product.id b) P = true ->
  In p P ->
  filter (fun x => Product.id p =? Product.id x) P = [p].
Proof.
  induction P as [|a P IH]; intros Hd Hin; [destruct Hin|].
  simpl in Hd. apply andb_true_iff in Hd as [Hna HdP]. apply negb_true_iff in Hna.
  simpl. destruct Hin as [-> | Hin].
  - rewrite Z.eqb_refl. f_equal.
    clear IH HdP. induction P as [|b P IHP]; [reflexivity|].
    simpl in Hna. apply orb_false_iff in Hna as [Hb HP].
    simpl. rewrite Hb. apply IHP; assumption.
  - destruct (Product.id p =? Product.id a) eqn:E.
    + exfalso. apply Z.eqb_eq in E.
      assert (existsb (fun b => Product.id a =? Product.id b) P = true).
      { apply existsb_exists. exists p. split; [assumption|]. apply Z.eqb_eq. congruence. }
      congruence.
    + apply IH; assumption.
Qed.

Lemma cart_lines_flat_map (cartId : Z) (d : DB) :
  cart_lines cartId d
  = flat_map (line_rows (products d))
      (filter (fun it => CartItem.cartId it =? cartId) (cartItems d)).
Proof. reflexivity. Qed.

Lemma line_rows_key (P : list Product.t) (it : CartItem.t) l :
  In l (line_rows P it) ->
  fst l = it /\ In (snd l) P /\ Product.id (snd l) = CartItem.productId it.
Proof.
  unfold line_rows. intros H. apply in_map_iff in H as [p [<- Hp]].
  apply filter_In in Hp as [Hin E]. apply Z.eqb_eq in E. simpl. auto.
Qed.

Lemma quantity_of_absent (k : Z) (items : list CartItem.t) :
  existsb (fun it => CartItem.productId it =? k) items = false ->
  quantity_of k items = 0.
Proof.
  unfold quantity_of. induction items as [|a items IH]; simpl; [reflexivity|].
  intros H. apply orb_false_iff in H as [Ha Hr]. rewrite Ha. apply IH; assumption.
Qed.

Lemma sell_cart_lines (P : list Product.t) (p : Product.t) :
  distinct_by (fun a b => Product.id a =? Product.id b) P = true ->
  In p P ->
  forall (items : list CartItem.t) (x : Product.t),
    distinct_by (fun a b => CartItem.productId a =? CartItem.productId b) items = true ->
    Product.id x = Product.id p ->
    fold_left (fun x l => sell l x) (flat_map (line_rows P) items) x
    = if existsb (fun it => CartItem.productId it =? Product.id p) items
      then set_stock (Product.stockQuantity p - quantity_of (Product.id p) items) x
      else x.
Proof.
  intros HP Hin. induction items as [|it items IH]; intros x Hd Hx; [reflexivity|].
  simpl in Hd. apply andb_true_iff in Hd as [Hnew Hrest]. apply negb_true_iff in Hnew.
  simpl flat_map. rewrite fold_left_app. simpl existsb.
  destruct (CartItem.productId it =? Product.id p) eqn:E.
  - apply Z.eqb_eq in E.
    assert (Hrows : line_rows P it = [(it, p)]).
    { unfold line_rows. rewrite E, (filter_by_key P p HP Hin). reflexivity. }
    rewrite Hrows. simpl fold_left at 2. unfold sell at 2. simpl snd. simpl fst.
    rewrite Hx, Z.eqb_refl. simpl orb.
    assert (Habs : existsb (fun b => CartItem.productId b =? Product.id p) items = false).
    { rewrite <- Hnew. apply existsb_same. intros b. rewrite E. apply Z.eqb_sym. }
    rewrite IH by (try assumption; simpl; congruence).
    rewrite Habs. unfold quantity_of. simpl filter. rewrite (proj2 (Z.eqb_eq _ _) E).
    simpl. fold (quantity_of (Product.id p) items).
    rewrite (quantity_of_absent _ _ Habs). f_equal. lia.
  - simpl orb.
    rewrite (sell_others (line_rows P it) x).
    + rewrite IH by assumption.
      unfold quantity_of. simpl filter. rewrite E. reflexivity.
    + intros l Hl. apply line_rows_key in Hl as [_ [_ Hk]].
      apply Z.eqb_neq in E. congruence.
Qed.

Lemma purchased_quantity_of (cartId : Z) (d : DB) (p : Product.t) :
  purchased cartId d p
  = quantity_of (Product.id p) (filter (fun it => CartItem.cartId it =? cartId) (cartItems d)).
Proof.
  unfold purchased, quantity_of, same_line.
  induction (cartItems d) as [|a l IH]; [reflexivity|].
  simpl. destruct (CartItem.cartId a =? cartId); simpl;
    destruct (CartItem.productId a =? Product.id p); simpl; rewrite IH; reflexivity.
Qed.

(** [unique_cart_item] gives the lines of one cart distinct products. *)
Lemma cart_products_distinct (cartId : Z) (items : list CartItem.t) :
  distinct_by (fun a b => same_line (CartItem.cartId a) (CartItem.productId a) b) items = true ->
  distinct_by (fun a b => CartItem.productId a =? CartItem.productId b)
              (filter (fun it => CartItem.cartId it =? cartId) items) = true.
Proof.
  induction items as [|a l IH]; intros H; [reflexivity|].
  simpl in H. apply andb_true_iff in H as [Hnew Hrest]. apply negb_true_iff in Hnew.
  simpl. destruct (CartItem.cartId a =? cartId) eqn:E; [|apply IH; assumption].
  simpl. rewrite (IH Hrest), andb_true_r. apply negb_true_iff.
  destruct (existsb (fun b => CartItem.productId a =? CartItem.productId b)
                    (filter (fun it => CartItem.cartId it =? cartId) l)) eqn:Ex; [|reflexivity].
  apply existsb_exists in Ex as [b [Hb Hp]]. apply filter_In in Hb as [Hb Hc].
  assert (existsb (same_line (CartItem.cartId a) (CartItem.productId a)) l = true).
  { apply existsb_exists. exists b. split; [assumption|].
    unfold same_line. apply Z.eqb_eq in E, Hc, Hp.
    apply andb_true_iff. split; apply Z.eqb_eq; congruence. }
  exact (eq_trans (eq_sym H) Hnew).
Qed.

Lemma stock_after_checkout (cartId : Z) (d : DB) :
  products_pkey d = true ->
  unique_cart_item d = true ->
  map (fun p => fold_left (fun x l => sell l x) (cart_lines cartId d) p) (products d)
  = map (fun p => set_stock (Product.stockQuantity p - purchased cartId d p) p) (products d).
Proof.
  intros Hpk Hu. apply map_ext_in. intros p Hp.
  rewrite cart_lines_flat_map, purchased_quantity_of.
  rewrite (sell_cart_lines (products d) p Hpk Hp) by
    (try reflexivity; apply cart_products_distinct; exact Hu).
  destruct (existsb _ _) eqn:E; [reflexivity|].
  rewrite (quantity_of_absent _ _ E), Z.sub_0_r. symmetry. apply set_stock_same.
Qed.

Lemma order_total_sum (lines : list (CartItem.t * Product.t)) :
  order_total lines = sum_of_lines lines.
Proof.
  unfold order_total, sum_of_lines.
  assert (G : forall acc,
             fold_left (fun totalAmount item =>
                          totalAmount + Product.price (snd item) * CartItem.quantity (fst item))
                       lines acc
             = acc + fold_right Z.add 0
                       (map (fun l => Product.price (snd l) * CartItem.quantity (fst l)) lines)).
  { induction lines as [|l lines IH]; intros acc; simpl; [lia|]. rewrite IH. lia. }
  rewrite G. lia.
Qed.

(** With the product foreign key and distinct product keys, the join keeps
    every line of the cart, once, in order, next to its product row. *)
Lemma cart_lines_one_per_line (cartId : Z) (d : DB) :
  products_pkey d = true ->
  cartItems_product_fkey d = true ->
  map fst (cart_lines cartId d)
  = filter (fun it => CartItem.cartId it =? cartId) (cartItems d).
Proof.
  intros Hpk Hfk. rewrite cart_lines_flat_map.
  unfold cartItems_product_fkey in Hfk. rewrite forallb_forall in Hfk.
  assert (G : forall items, (forall it, In it items -> In it (cartItems d)) ->
                            map fst (flat_map (line_rows (products d)) items) = items).
  { induction items as [|it items IH]; intros Hsub; [reflexivity|].
    simpl. rewrite map_app, IH by (intros; apply Hsub; right; assumption).
    specialize (Hfk it (Hsub it (or_introl eq_refl))).
    apply existsb_exists in Hfk as [p [Hp Hk]]. apply Z.eqb_eq in Hk.
    unfold line_rows. rewrite <- Hk, (filter_by_key (products d) p Hpk Hp). reflexivity. }
  apply G. intros it Hit. apply filter_In in Hit. tauto.
Qed.

Lemma cart_lines_in (cartId : Z) (d : DB) l :
  In l (cart_lines cartId d) ->
  In (fst l) (cartItems d) /\ CartItem.cartId (fst l) = cartId
  /\ In (snd l) (products d) /\ Product.id (snd l) = CartItem.productId (fst l).
Proof.
  rewrite cart_lines_flat_map. intros H. apply in_flat_map in H as [it [Hit Hl]].
  apply filter_In in Hit as [Hit Hc]. apply Z.eqb_eq in Hc.
  apply line_rows_key in Hl as [-> [Hp Hk]]. auto.
Qed.

Lemma find_none_forall {A} (f : A -> bool) (l : list A) :
  (forall x, In x l -> f x = false) -> find f l = None.
Proof.
  induction l as [|a l IH]; intros H; [reflexivity|].
  simpl. rewrite (H a (or_introl eq_refl)). apply IH. intros; apply H; right; assumption.
Qed.

Lemma order_lines_positive (cartId : Z) (d : DB) :
  cart_quantity_check d = true ->
  forall orderId,
    existsb (fun r => new_quantity r <=? 0) (orderItemsData orderId (cart_lines cartId d)) = false.
Proof.
  intros Hq orderId.
  destruct (existsb _ _) eqn:E; [|reflexivity].
  apply existsb_exists in E as [r [Hr Hle]].
  unfold orderItemsData in Hr. apply in_map_iff in Hr as [l [<- Hl]].
  apply cart_lines_in in Hl as [Hit _].
  unfold cart_quantity_check in Hq. rewrite forallb_forall in Hq.
  specialize (Hq _ Hit). simpl in Hle.
  apply Z.ltb_lt in Hq. apply Z.leb_le in Hle. lia.
Qed.

Lemma snapshot_rows (seq orderId : Z) (lines : list (CartItem.t * Product.t)) :
  map (fun i => (OrderItem.orderId i, OrderItem.productId i, OrderItem.productName i,
                 OrderItem.quantity i, OrderItem.priceAtTime i))
      (number_rows seq (orderItemsData orderId lines))
  = map (fun l => (orderId, Some (Product.id (snd l)), Some (Product.name (snd l)),
                   CartItem.quantity (fst l), Product.price (snd l)))
        lines.
Proof.
  revert seq. induction lines as [|l lines IH]; intros seq; [reflexivity|].
  simpl. rewrite IH. reflexivity.
Qed.

Lemma place_order_run
    (c : Ctx) (b : CheckoutBody) (d : DB) (userId : Z) (cart : Cart.t) :
  (forall line, In line (cart_lines (Cart.id cart) d) ->
     CartItem.quantity (fst line) <= Product.stockQuantity (snd line)) ->
  existsb (fun o => String.eqb (Order.orderNumber o) (generateOrderNumber c)) (orders d) = false ->
  numeric_10_2 (order_total (cart_lines (Cart.id cart) d)) = true ->
  products_pkey d = true ->
  unique_cart_item d = true ->
  cart_quantity_check d = true ->
  place_order c userId b cart (cart_lines (Cart.id cart) d) (reliable d)
  = Done (new_order c userId b cart d) (reliable (after_checkout c userId b cart d)).
Proof.
  intros Hstock Hfresh Hfit Hpk Hu Hq.
  unfold place_order. cbv zeta.
  unfold bind at 1. unfold insert_order.
  rewrite stmt_reliable, Hfit, Hfresh. cbn [negb].
  unfold bind at 1. unfold insert_orderItems. rewrite stmt_reliable.
  simpl Order.id. rewrite (order_lines_positive (Cart.id cart) d Hq).
  unfold bind at 1.
  rewrite stock_updates_run by exact Hstock.
  unfold bind, insert_orderStatusHistory, delete_cartItems_of_cart, ret.
  rewrite !stmt_reliable.
  unfold with_cartItems, with_orderStatusHistory, with_products, with_orderItems, with_orders.
  simpl.
  unfold new_order, after_checkout, order_created, orderItemsData.
  rewrite order_total_sum, (stock_after_checkout (Cart.id cart) d Hpk Hu), length_map.
  reflexivity.
Qed.

(** C2: on a cart with at least one line, every line within stock, checkout
    answers 201 and leaves exactly [after_checkout]: one new order, pending,
    whose total is the sum of current price times quantity over the lines; one
    order line per cart line holding the product id, name, quantity and
    current unit price; each product's stock lowered by the quantity bought;
    no line left in the cart; one pending status event noted "Order created".
    The store starts with the schema's keys and checks in force, the
    generated order number is not taken and the total fits the
    [numeric(10,2)] column of the order (it is below 100 000 000.00). *)
Theorem checkout_places_order
    (c : Ctx) (b : CheckoutBody) (d : DB) (userId : Z) (cart : Cart.t) :
  bearer c = Some userId ->
  checkoutSchema b = true ->
  hd_error (filter (fun k => col_eqZ (Cart.userId k) (Some userId)) (carts d)) = Some cart ->
  filter (fun it => CartItem.cartId it =? Cart.id cart) (cartItems d) <> [] ->
  (forall line, In line (cart_lines (Cart.id cart) d) ->
     CartItem.quantity (fst line) <= Product.stockQuantity (snd line)) ->
  existsb (fun o => String.eqb (Order.orderNumber o) (generateOrderNumber c)) (orders d) = false ->
  numeric_10_2 (order_total (cart_lines (Cart.id cart) d)) = true ->
  products_pkey d = true ->
  unique_cart_item d = true ->
  cart_quantity_check d = true ->
  cartItems_product_fkey d = true ->
  let lines := cart_lines (Cart.id cart) d in
  let d' := after_checkout c userId b cart d in
  let order := new_order c userId b cart d in
  checkout_post c b (reliable d)
  = (json (OrderBody (checkout_view order b
                        (filter (fun i => OrderItem.orderId i =? Order.id order) (orderItems d'))
                        (status_history (Order.id order) d'))) 201,
     reliable d')
  /\ map fst lines = filter (fun it => CartItem.cartId it =? Cart.id cart) (cartItems d)
  /\ (forall l, In l lines ->
        In (snd l) (products d) /\ Product.id (snd l) = CartItem.productId (fst l))
  /\ map (fun i => (OrderItem.orderId i, OrderItem.productId i, OrderItem.productName i,
                    OrderItem.quantity i, OrderItem.priceAtTime i))
         (number_rows (orderItems_seq d) (orderItemsData (orders_seq d) lines))
     = map (fun l => (Order.id order, Some (Product.id (snd l)), Some (Product.name (snd l)),
                      CartItem.quantity (fst l), Product.price (snd l)))
           lines.
Proof.
  intros Hb Hv Hcart Hne Hstock Hfresh Hfit Hpk Hu Hq Hfk lines d' order.
  pose proof (cart_lines_one_per_line (Cart.id cart) d Hpk Hfk) as Hlines.
  assert (Hne' : cart_lines (Cart.id cart) d <> []).
  { intros E. rewrite E in Hlines. simpl in Hlines. congruence. }
  split; [|split; [exact Hlines|split]].
  - rewrite (checkout_post_reaches_stock_check c b d userId cart Hb Hv Hcart Hne').
    rewrite find_none_forall.
    2:{ intros l Hl. unfold short_of_stock. apply Z.ltb_ge. apply Hstock. exact Hl. }
    unfold run. unfold bind at 1.
    rewrite (place_order_run c b d userId cart Hstock Hfresh Hfit Hpk Hu Hq).
    reflexivity.
  - intros l Hl. apply cart_lines_in in Hl. tauto.
  - apply snapshot_rows.
Qed.

Lemma checkout_places_order_witness :
  snd (checkout_post (sample_ctx (Some 1) None) sample_body (reliable db_ready))
  = reliable (after_checkout (sample_ctx (Some 1) None) 1 sample_body cart1 db_ready)
  /\ status (fst (checkout_post (sample_ctx (Some 1) None) sample_body (reliable db_ready))) = 201
  /\ map Order.totalAmount
         (orders (after_checkout (sample_ctx (Some 1) None) 1 sample_body cart1 db_ready))
     = [3500]
  /\ map Product.stockQuantity
         (products (after_checkout (sample_ctx (Some 1) None) 1 sample_body cart1 db_ready))
     = [3; 0; 7]
  /\ map (fun i => (OrderItem.productId i, OrderItem.quantity i, OrderItem.priceAtTime i))
         (orderItems (after_checkout (sample_ctx (Some 1) None) 1 sample_body cart1 db_ready))
     = [(Some 1, 2, 1000); (Some 3, 3, 500)]
  /\ cartItems (after_checkout (sample_ctx (Some 1) None) 1 sample_body cart1 db_ready) = []
  /\ map (fun h => (OrderStatusHistory.status h, OrderStatusHistory.notes h))
         (orderStatusHistory
            (after_checkout (sample_ctx (Some 1) None) 1 sample_body cart1 db_ready))
     = [(pending, Some "Order created")].
Proof.
  assert (H : checkout_post (sample_ctx (Some 1) None) sample_body (reliable db_ready)
              = (json (OrderBody
                         (checkout_view
                            (new_order (sample_ctx (Some 1) None) 1 sample_body cart1 db_ready)
                            sample_body
                            (filter (fun i => OrderItem.orderId i
                                              =? Order.id (new_order (sample_ctx (Some 1) None) 1
                                                             sample_body cart1 db_ready))
                               (orderItems (after_checkout (sample_ctx (Some 1) None) 1
                                              sample_body cart1 db_ready)))
                            (status_history
                               (Order.id (new_order (sample_ctx (Some 1) None) 1
                                            sample_body cart1 db_ready))
                               (after_checkout (sample_ctx (Some 1) None) 1
                                  sample_body cart1 db_ready)))) 201,
                 reliable (after_checkout (sample_ctx (Some 1) None) 1 sample_body cart1 db_ready))).
  { apply (@checkout_places_order (sample_ctx (Some 1) None) sample_body db_ready 1 cart1);
      try reflexivity.
    - discriminate.
    - intros line Hin. vm_compute in Hin.
      destruct Hin as [<- | [<- | []]]; simpl; lia. }
  rewrite H. repeat split.
Defined.

(** A total beyond the column: two units at 99 999 999.99.  The order insert
    is refused, the global handler answers 500 and nothing is written. *)
Example checkout_total_out_of_range :
  let d := mkDB [user1] [Product.mk 1 "gem" 9999999999 5] [] [cart1]
                [CartItem.mk 1 1 1 2] [] [] [] 2 2 1 1 1 in
  let r := checkout_post (sample_ctx (Some 1) None) sample_body (reliable d) in
  status (fst r) = 500 /\ same_rows d (db (snd r)).
Proof. repeat split. Qed.

Lemma checkout_insufficient_stock_aborts_witness :
  checkout_post (sample_ctx (Some 1) None) sample_body (reliable db_short)
  = (json (Failure "Insufficient stock for productB. Available: 0, Requested: 1") 400,
     reliable db_short).
Proof.
  destruct (@checkout_insufficient_stock_aborts
              (sample_ctx (Some 1) None) sample_body db_short 1 cart1
              eq_refl eq_refl eq_refl) as [item [Hfind [_ [_ [Hrun _]]]]].
  - exists (CartItem.mk 2 1 2 1, productB). split; [right; left; reflexivity | simpl; lia].
  - vm_compute in Hfind. injection Hfind as <-. exact Hrun.
Defined.

(** The order number of the sample request. *)
Example generateOrderNumber_sample :
  generateOrderNumber (sample_ctx (Some 1) None) = "ORD-20240115-1234".
Proof. reflexivity. Qed.

(** C6, as amended: when the generated order number is already taken, the
    order insert, which is the first write of checkout, is rejected; the
    handler has no retry and no 409: the throw reaches the global error
    handler and the client gets 500 (Internal) with an error body, whatever
    the text of the driver's error.  No row of any table is written or
    changed, so no order, order line or status event exists for the attempt
    and neither stock nor cart changed (the rejected insert has drawn an id
    from the orders sequence, which is all that moved). *)
Theorem checkout_order_number_collision
    (c : Ctx) (b : CheckoutBody) (d : DB) (userId : Z) (cart : Cart.t) :
  bearer c = Some userId ->
  checkoutSchema b = true ->
  hd_error (filter (fun k => col_eqZ (Cart.userId k) (Some userId)) (carts d)) = Some cart ->
  cart_lines (Cart.id cart) d <> [] ->
  (forall line, In line (cart_lines (Cart.id cart) d) ->
     CartItem.quantity (fst line) <= Product.stockQuantity (snd line)) ->
  existsb (fun o => String.eqb (Order.orderNumber o) (generateOrderNumber c)) (orders d) = true ->
  let r := checkout_post c b (reliable d) in
  status (fst r) = 500
  /\ error_kind (fst r) = Some Internal
  /\ (exists msg, body (fst r) = Failure msg)
  /\ status (fst r) <> 409
  /\ status (fst r) <> 201
  /\ same_rows d (db (snd r)).
Proof.
  intros Hb Hv Hcart Hne Hstock Htaken r.
  assert (Hrun : exists e d', r = (errorHandler (thrown c e), reliable d') /\ same_rows d d').
  { unfold r.
    rewrite (checkout_post_reaches_stock_check c b d userId cart Hb Hv Hcart Hne).
    rewrite find_none_forall.
    2:{ intros l Hl. unfold short_of_stock. apply Z.ltb_ge. apply Hstock. exact Hl. }
    unfold run, place_order. cbv zeta.
    unfold bind at 1. unfold bind at 1. unfold insert_order.
    rewrite stmt_reliable, Htaken.
    destruct (numeric_10_2 (order_total (cart_lines (Cart.id cart) d))); cbn [negb];
      eexists; eexists; (split; [reflexivity | repeat split]). }
  destruct Hrun as [e [d' [Hr Hrows]]]. rewrite Hr. cbn [fst snd db].
  destruct (errorHandler_internal c e) as [H1 [H2 H3]].
  rewrite H1. repeat split; try assumption; try discriminate; apply Hrows.
Qed.

Lemma checkout_order_number_collision_witness :
  status (fst (checkout_post (sample_ctx (Some 1) None) sample_body (reliable db_taken))) = 500
  /\ orders (db (snd (checkout_post (sample_ctx (Some 1) None) sample_body
                        (reliable db_taken))))
     = [sample_order].
Proof.
  destruct (@checkout_order_number_collision
              (sample_ctx (Some 1) None) sample_body db_taken 1 cart1)
    as [Hstatus [_ [_ [_ [_ Hrows]]]]]; try reflexivity.
  - discriminate.
  - intros line Hin. vm_compute in Hin.
    destruct Hin as [<- | [<- | []]]; simpl; lia.
  - split; [exact Hstatus|].
    destruct Hrows as [_ [_ [_ [_ [_ [Horders _]]]]]]. rewrite Horders. reflexivity.
Defined.

(** C6 as stated fails: with the generated number taken, checkout answers
    500, which is neither a Conflict nor the 201 of a retried order, and the
    orders table holds no new row. *)
Lemma colliding_order_number_is_neither_retried_nor_conflict :
  existsb (fun o => String.eqb (Order.orderNumber o)
                      (generateOrderNumber (sample_ctx (Some 1) None)))
          (orders db_taken) = true
  /\ status (fst (checkout_post (sample_ctx (Some 1) None) sample_body (reliable db_taken)))
     = 500
  /\ error_kind (fst (checkout_post (sample_ctx (Some 1) None) sample_body (reliable db_taken)))
     <> Some Conflict
  /\ orders (db (snd (checkout_post (sample_ctx (Some 1) None) sample_body (reliable db_taken))))
     = orders db_taken.
Proof. repeat split; vm_compute; discriminate. Qed.

(** ** Resolving the caller's cart *)

Lemma find_cart_reliable (c : Ctx) (d : DB) :
  find_cart (getUserIdFromToken c) (session_of c) (reliable d)
  = Done (caller_cart c d) (reliable d).
Proof.
  unfold find_cart, caller_cart.
  destruct (truthy_num (getUserIdFromToken c)); [reflexivity|].
  destruct (truthy_str (session_of c)); reflexivity.
Qed.

Lemma getOrCreateCart_found (c : Ctx) (d : DB) (cart : Cart.t) :
  caller_cart c d = Some cart ->
  getOrCreateCart c (reliable d)
  = Done (Cart.id cart, Cart.userId cart) (reliable (touched c cart d)).
Proof.
  intros H. unfold getOrCreateCart.
  unfold bind at 1. rewrite find_cart_reliable, H. reflexivity.
Qed.

Lemma getOrCreateCart_new (c : Ctx) (d : DB) :
  caller_cart c d = None ->
  references_user (getUserIdFromToken c) d = true ->
  getOrCreateCart c (reliable d)
  = Done (carts_seq d, getUserIdFromToken c) (reliable (with_fresh_cart c d)).
Proof.
  intros H Hknown. unfold getOrCreateCart.
  unfold bind at 1. rewrite find_cart_reliable, H.
  unfold bind, insert_cart. rewrite stmt_reliable, Hknown. reflexivity.
Qed.

Lemma touched_identity (c : Ctx) (cart : Cart.t) (d : DB) :
  map identity (carts (touched c cart d)) = map identity (carts d)
  /\ cartItems (touched c cart d) = cartItems d
  /\ products (touched c cart d) = products d
  /\ orders (touched c cart d) = orders d.
Proof.
  repeat split. unfold touched, with_carts. simpl. rewrite map_map.
  apply map_ext. intros k. destruct (Cart.id k =? Cart.id cart); reflexivity.
Qed.

(** ** Adding to a line the cart already holds *)

Lemma cart_post_items_existing
    (c : Ctx) (productId quantity : Z) (d : DB)
    (product : Product.t) (cart : Cart.t) (line : CartItem.t) :
  addToCartSchema productId quantity = true ->
  hd_error (filter (fun p => Product.id p =? productId) (products d)) = Some product ->
  caller_cart c d = Some cart ->
  hd_error (filter (same_line (Cart.id cart) productId) (cartItems d)) = Some line ->
  0 < CartItem.quantity line ->
  Product.stockQuantity product <= 2147483647 ->
  cart_post_items c productId quantity (reliable d)
  = if Product.stockQuantity product <? quantity
    then (json (Failure "Insufficient stock") 400, reliable d)
    else if CartItem.quantity line + quantity >? Product.stockQuantity product
    then (json (Failure "Insufficient stock for updated quantity") 400,
          reliable (touched c cart d))
    else
      let d' :=
        with_cartItems
          (map (fun it => if CartItem.id it =? CartItem.id line
                          then set_quantity (CartItem.quantity line + quantity) it else it))
          (cartItems_seq d) (touched c cart d) in
      (json (CartBody (cart_view (Cart.id cart) (cart_rows (Cart.id cart) d'))) 200,
       reliable d').
Proof.
  intros Hschema Hprod Hcart Hline Hpos Hrange.
  unfold cart_post_items. rewrite Hschema. unfold try_catch.
  rewrite bind_query, Hprod.
  destruct (Product.stockQuantity product <? quantity) eqn:E1; [reflexivity|].
  unfold bind at 1. rewrite (getOrCreateCart_found c d cart Hcart).
  rewrite bind_query. cbn [fst].
  replace (cartItems (touched c cart d)) with (cartItems d) by reflexivity.
  rewrite Hline.
  destruct (CartItem.quantity line + quantity >? Product.stockQuantity product) eqn:E2;
    [reflexivity|].
  unfold bind at 1. unfold update_cartItem_quantity. rewrite stmt_reliable.
  assert (Hqty : 1 <= quantity).
  { unfold addToCartSchema in Hschema.
    apply andb_true_iff in Hschema as [_ Hq]. apply Z.leb_le in Hq. exact Hq. }
  assert (Hle : CartItem.quantity line + quantity <= Product.stockQuantity product).
  { destruct (Z.gtb_spec (CartItem.quantity line + quantity) (Product.stockQuantity product));
      [discriminate | lia]. }
  assert (Hfit : int4 (CartItem.quantity line + quantity) = true).
  { unfold int4. apply andb_true_iff. split; apply Z.leb_le; lia. }
  assert (Hq : (CartItem.quantity line + quantity <=? 0) = false) by (apply Z.leb_gt; lia).
  rewrite Hfit, Hq, andb_false_r.
  reflexivity.
Qed.

Lemma hd_error_filter_in {A} (f : A -> bool) (l : list A) (x : A) :
  hd_error (filter f l) = Some x -> In x l /\ f x = true.
Proof.
  intros H. apply filter_In. destruct (filter f l) as [|y rest]; [discriminate|].
  simpl in H. injection H as ->. left; reflexivity.
Qed.

(** C3: adding [quantity] of a product to the caller's cart, which already
    holds a line of [q1] for it, succeeds exactly when [q1 + quantity] is
    within the product's stock (a stock that fits its integer column).  On
    success the cart lines are the former ones, in their order, except that
    the line found holds [q1 + quantity]: its id, cart and product are kept,
    no line is added, and no cart identity or product changes.  Otherwise the
    answer is a 400 insufficient-stock error and no cart line, cart identity
    or product changes (the cart row may have had its expiry refreshed by the
    cart lookup). *)
Theorem add_to_existing_line
    (c : Ctx) (productId quantity : Z) (d : DB)
    (product : Product.t) (cart : Cart.t) (line : CartItem.t) :
  addToCartSchema productId quantity = true ->
  hd_error (filter (fun p => Product.id p =? productId) (products d)) = Some product ->
  caller_cart c d = Some cart ->
  hd_error (filter (same_line (Cart.id cart) productId) (cartItems d)) = Some line ->
  0 < CartItem.quantity line ->
  Product.stockQuantity product <= 2147483647 ->
  let total := CartItem.quantity line + quantity in
  let lines_ok :=
    map (fun it => if CartItem.id it =? CartItem.id line
                   then CartItem.mk (CartItem.id it) (CartItem.cartId it)
                                    (CartItem.productId it) total
                   else it)
        (cartItems d) in
  let r := cart_post_items c productId quantity (reliable d) in
  (status (fst r) = 200 <-> total <= Product.stockQuantity product)
  /\ (total <= Product.stockQuantity product ->
      fst r = json (CartBody (cart_view (Cart.id cart)
                                (cart_rows (Cart.id cart) (db (snd r))))) 200
      /\ cartItems (db (snd r)) = lines_ok
      /\ In (CartItem.mk (CartItem.id line) (Cart.id cart) productId total)
            (cartItems (db (snd r)))
      /\ List.length (cartItems (db (snd r))) = List.length (cartItems d)
      /\ map identity (carts (db (snd r))) = map identity (carts d)
      /\ products (db (snd r)) = products d)
  /\ (Product.stockQuantity product < total ->
      (fst r = json (Failure "Insufficient stock") 400
       \/ fst r = json (Failure "Insufficient stock for updated quantity") 400)
      /\ cartItems (db (snd r)) = cartItems d
      /\ map identity (carts (db (snd r))) = map identity (carts d)
      /\ products (db (snd r)) = products d).
Proof.
  intros Hschema Hprod Hcart Hline Hpos Hrange total lines_ok r.
  pose proof (cart_post_items_existing c productId quantity d product cart line
                Hschema Hprod Hcart Hline Hpos Hrange) as Hrun.
  fold total in Hrun. cbv zeta in Hrun. fold r in Hrun.
  assert (Hqty : 1 <= quantity).
  { unfold addToCartSchema in Hschema. apply andb_true_iff in Hschema as [_ Hq].
    apply Z.leb_le in Hq. exact Hq. }
  destruct (touched_identity c cart d) as [Hi _].
  destruct (Product.stockQuantity product <? quantity) eqn:E1.
  - apply Z.ltb_lt in E1.
    split; [|split].
    + rewrite Hrun. simpl. split; [discriminate | intros; unfold total in *; lia].
    + intros. unfold total in *. lia.
    + intros _. rewrite Hrun. simpl. repeat split. left; reflexivity.
  - apply Z.ltb_ge in E1.
    destruct (total >? Product.stockQuantity product) eqn:E2.
    + apply Z.gtb_lt in E2.
      split; [|split].
      * rewrite Hrun. simpl. split; [discriminate | intros; lia].
      * intros. lia.
      * intros _. rewrite Hrun. simpl.
        repeat split; [right; reflexivity | exact Hi].
    + assert (Hle : total <= Product.stockQuantity product).
      { destruct (Z.gtb_spec total (Product.stockQuantity product)); [discriminate | lia]. }
      split; [|split].
      * rewrite Hrun. simpl. split; [intros; exact Hle | reflexivity].
      * intros _. rewrite Hrun. cbn [fst snd db cartItems with_cartItems carts products].
        split; [reflexivity|]. split; [reflexivity|].
        apply hd_error_filter_in in Hline as [Hin Hsame].
        unfold same_line in Hsame. apply andb_true_iff in Hsame as [Hc Hp].
        apply Z.eqb_eq in Hc, Hp.
        split; [|split; [|split]].
        -- apply in_map_iff. exists line. rewrite Z.eqb_refl.
           unfold set_quantity. rewrite Hc, Hp. auto.
        -- apply length_map.
        -- exact Hi.
        -- reflexivity.
      * intros. lia.
Qed.

(** ** Clearing the cart *)

Lemma filter_twice {A} (f : A -> bool) (l : list A) : filter f (filter f l) = filter f l.
Proof.
  induction l as [|a l IH]; [reflexivity|].
  simpl. destruct (f a) eqn:E; simpl; rewrite ?E, IH; reflexivity.
Qed.

Lemma cart_delete_run (c : Ctx) (d : DB) :
  cart_delete c (reliable d)
  = (empty_cart_view,
     reliable (match caller_cart c d with Some cart => cleared cart d | None => d end)).
Proof.
  unfold cart_delete, try_catch.
  unfold bind at 1. rewrite find_cart_reliable.
  destruct (caller_cart c d) as [cart|]; [|reflexivity].
  unfold bind, delete_cartItems_of_cart, delete_cart, ret.
  rewrite !stmt_reliable.
  unfold cleared, with_cartItems, with_carts. simpl. rewrite filter_twice. reflexivity.
Qed.

(** Under a one-row-per-key constraint, the first match is the only match. *)
Lemma filter_single {A} (same : A -> A -> bool) (f : A -> bool) (l : list A) (x : A) :
  distinct_by same l = true ->
  (forall a b, f a = true -> f b = true -> same a b = true) ->
  hd_error (filter f l) = Some x ->
  filter f l = [x].
Proof.
  intros Hd Hsame. induction l as [|a l IH]; intros Hx; [discriminate|].
  simpl in Hd. apply andb_true_iff in Hd as [Hnew Hrest]. apply negb_true_iff in Hnew.
  simpl in *. destruct (f a) eqn:Ea.
  - simpl in Hx. injection Hx as ->. f_equal.
    destruct (filter f l) as [|b rest] eqn:Ef; [reflexivity|].
    assert (Hb : In b (filter f l)) by (rewrite Ef; left; reflexivity).
    apply filter_In in Hb as [Hin Hfb].
    assert (existsb (same x) l = true).
    { apply existsb_exists. exists b. split; [exact Hin | apply Hsame; assumption]. }
    congruence.
  - apply IH; assumption.
Qed.

Lemma filter_out_single {A} (f g : A -> bool) (l : list A) (x : A) :
  filter f l = [x] -> g x = false -> filter f (filter g l) = [].
Proof.
  intros Hf Hg.
  destruct (filter f (filter g l)) as [|y rest] eqn:E; [reflexivity|].
  assert (Hy : In y (filter f (filter g l))) by (rewrite E; left; reflexivity).
  apply filter_In in Hy as [Hy Hfy]. apply filter_In in Hy as [Hy Hgy].
  assert (Hin : In y (filter f l)) by (apply filter_In; auto).
  rewrite Hf in Hin. destruct Hin as [<- | []]. congruence.
Qed.

Lemma caller_cart_cleared (c : Ctx) (d : DB) (cart : Cart.t) :
  one_cart_per_user d = true ->
  one_cart_per_session d = true ->
  caller_cart c d = Some cart ->
  caller_cart c (cleared cart d) = None.
Proof.
  intros Hu Hs. unfold caller_cart. simpl carts.
  assert (Hg : negb (Cart.id cart =? Cart.id cart) = false)
    by (rewrite Z.eqb_refl; reflexivity).
  destruct (truthy_num (getUserIdFromToken c)).
  - intros H.
    assert (Hone : filter (fun k => col_eqZ (Cart.userId k) (getUserIdFromToken c)) (carts d)
                   = [cart]).
    { apply filter_single with (same := fun a b => col_eqZ (Cart.userId a) (Cart.userId b));
        [exact Hu | | exact H].
      intros a b Ha Hb.
      destruct (Cart.userId a) as [ua|], (Cart.userId b) as [ub|],
               (getUserIdFromToken c) as [u|]; simpl in *; try discriminate.
      apply Z.eqb_eq in Ha, Hb. apply Z.eqb_eq. congruence. }
    rewrite (filter_out_single _ (fun k => negb (Cart.id k =? Cart.id cart)) _ _ Hone Hg).
    reflexivity.
  - destruct (truthy_str (session_of c)); [|discriminate].
    intros H.
    assert (Hone : filter (fun k => col_eqS (Cart.sessionId k) (session_of c)) (carts d)
                   = [cart]).
    { apply filter_single with (same := fun a b => col_eqS (Cart.sessionId a) (Cart.sessionId b));
        [exact Hs | | exact H].
      intros a b Ha Hb.
      destruct (Cart.sessionId a) as [sa|], (Cart.sessionId b) as [sb|],
               (session_of c) as [u|]; simpl in *; try discriminate.
      apply String.eqb_eq in Ha, Hb. apply String.eqb_eq. congruence. }
    rewrite (filter_out_single _ (fun k => negb (Cart.id k =? Cart.id cart)) _ _ Hone Hg).
    reflexivity.
Qed.

Lemma filter_complement {A} (f : A -> bool) (l : list A) :
  filter f (filter (fun x => negb (f x)) l) = [].
Proof.
  induction l as [|a l IH]; [reflexivity|].
  simpl. destruct (f a) eqn:E; simpl; rewrite ?E; exact IH.
Qed.

Lemma repeat_request_fixed (h : Handler) (s : Store) :
  snd (h s) = s -> forall n, repeat_request n h s = s.
Proof. intros H n. induction n as [|n IH]; simpl; [reflexivity|]. rewrite H. exact IH. Qed.

(** C8: on a reliable store [DELETE /cart] never answers an error: it always
    answers the empty view (no items, item count 0, total 0).  Without a cart
    for the caller it changes nothing, however often it is repeated.  With
    one, it deletes the cart's lines and the cart row; as the caller then has
    no cart (carts being one per user and per session), any further clears
    change nothing more and answer the same. *)
Theorem clear_is_idempotent (c : Ctx) (d : DB) :
  fst (cart_delete c (reliable d)) = json (CartBody (mkCartResponse None [] 0 0%float)) 200
  /\ (caller_cart c d = None ->
      forall n, cart_delete c (repeat_request n (cart_delete c) (reliable d))
                = (empty_cart_view, reliable d))
  /\ (forall cart, caller_cart c d = Some cart ->
        snd (cart_delete c (reliable d)) = reliable (cleared cart d)
        /\ filter (fun it => CartItem.cartId it =? Cart.id cart) (cartItems (cleared cart d)) = []
        /\ filter (fun k => Cart.id k =? Cart.id cart) (carts (cleared cart d)) = [])
  /\ (one_cart_per_user d = true ->
      one_cart_per_session d = true ->
      forall n,
        cart_delete c (repeat_request n (cart_delete c) (snd (cart_delete c (reliable d))))
        = (empty_cart_view, snd (cart_delete c (reliable d)))).
Proof.
  split; [rewrite cart_delete_run; reflexivity|].
  split; [|split].
  - intros Hnone n.
    assert (H1 : cart_delete c (reliable d) = (empty_cart_view, reliable d))
      by (rewrite cart_delete_run, Hnone; reflexivity).
    rewrite repeat_request_fixed; [exact H1 | rewrite H1; reflexivity].
  - intros cart Hcart. rewrite cart_delete_run, Hcart. simpl.
    split; [reflexivity|]. split; apply filter_complement.
  - intros Hu Hs n. rewrite cart_delete_run.
    destruct (caller_cart c d) as [cart|] eqn:Hcart; simpl snd.
    + assert (H2 : cart_delete c (reliable (cleared cart d))
                   = (empty_cart_view, reliable (cleared cart d))).
      { rewrite cart_delete_run, (caller_cart_cleared c d cart Hu Hs Hcart). reflexivity. }
      rewrite repeat_request_fixed; [exact H2 | rewrite H2; reflexivity].
    + assert (H1 : cart_delete c (reliable d) = (empty_cart_view, reliable d))
        by (rewrite cart_delete_run, Hcart; reflexivity).
      rewrite repeat_request_fixed; [exact H1 | rewrite H1; reflexivity].
Qed.

Lemma clear_is_idempotent_witness :
  snd (cart_delete (sample_ctx (Some 1) None) (reliable db_ready))
  = reliable (cleared cart1 db_ready)
  /\ carts (cleared cart1 db_ready) = []
  /\ cartItems (cleared cart1 db_ready) = []
  /\ cart_delete (sample_ctx (Some 1) None)
       (repeat_request 3 (cart_delete (sample_ctx (Some 1) None))
          (snd (cart_delete (sample_ctx (Some 1) None) (reliable db_ready))))
     = (empty_cart_view, snd (cart_delete (sample_ctx (Some 1) None) (reliable db_ready))).
Proof.
  destruct (clear_is_idempotent (sample_ctx (Some 1) None) db_ready)
    as [_ [_ [Hdel Hagain]]].
  split; [exact (proj1 (Hdel cart1 eq_refl))|].
  split; [reflexivity|]. split; [reflexivity|].
  exact (Hagain eq_refl eq_refl 3%nat).
Defined.

(** ** Update and remove without a cart *)

Lemma filter_none {A} (f : A -> bool) (l : list A) :
  (forall x, In x l -> f x = false) -> filter f l = [].
Proof.
  induction l as [|a l IH]; intros H; [reflexivity|].
  simpl. rewrite (H a (or_introl eq_refl)). apply IH. intros; apply H; right; assumption.
Qed.




(** A token whose user has no row (a deleted account, say) gets no cart: the
    insert breaks the cart's foreign key, the handler's catch answers 500 and
    the carts table is as before. *)
Example line_lookup_for_unknown_user :
  fst (cart_put_item (sample_ctx (Some 7) None) (Some 1) 4 (reliable db_ready))
  = json (Failure "Failed to update cart item") 500
  /\ carts (db (snd (cart_put_item (sample_ctx (Some 7) None) (Some 1) 4 (reliable db_ready))))
     = carts db_ready.
Proof. split; reflexivity. Qed.

(** ** Cart identities *)

Lemma one_identity_by_identity (a b : Cart.t) :
  identity a = identity b -> one_identity a = one_identity b.
Proof. unfold identity, one_identity. intros H. injection H as _ -> ->. reflexivity. Qed.

Lemma carts_kept_refl (d : DB) : carts_kept d d.
Proof. split; [lia|]. intros k Hk. left. exists k. auto. Qed.

Lemma carts_kept_trans (d1 d2 d3 : DB) :
  carts_kept d1 d2 -> carts_kept d2 d3 -> carts_kept d1 d3.
Proof.
  intros [S12 H12] [S23 H23]. split; [lia|]. intros k3 Hk3.
  destruct (H23 k3 Hk3) as [[k2 [Hk2 E23]] | [Hone Hid]]; [|right; split; [exact Hone | lia]].
  destruct (H12 k2 Hk2) as [[k1 [Hk1 E12]] | [Hone Hid]].
  - left. exists k1. split; [exact Hk1 | congruence].
  - right. rewrite <- (one_identity_by_identity _ _ E23). split; [exact Hone|].
    assert (Eid : Cart.id k2 = Cart.id k3) by (unfold identity in E23; congruence).
    lia.
Qed.

Lemma carts_kept_same (d d' : DB) :
  carts d' = carts d -> carts_seq d <= carts_seq d' -> carts_kept d d'.
Proof. intros E Hseq. split; [exact Hseq|]. intros k Hk. left. exists k. rewrite E in Hk. auto. Qed.

Lemma keeps_ret {A} (a : A) : keeps (ret a).
Proof. intros s. apply carts_kept_refl. Qed.

Lemma keeps_bind {A B} (m : M A) (k : A -> M B) :
  keeps m -> (forall a, keeps (k a)) -> keeps (bind m k).
Proof.
  intros Hm Hk s. unfold bind. specialize (Hm s).
  destruct (m s) as [a s' | e s']; simpl in *; [|exact Hm].
  eapply carts_kept_trans; [exact Hm | apply Hk].
Qed.

(** A statement keeps the carts when the tables it gives do, whether it is
    accepted or rejected. *)
Lemma keeps_stmt {A} (q : DB -> DbError * DB + A * DB) :
  (forall d, carts_kept d (match q d with inl (_, d') => d' | inr (_, d') => d' end)) ->
  keeps (stmt q).
Proof.
  intros H s. unfold stmt.
  destruct (budget s) as [[|n]|]; simpl; try apply carts_kept_refl;
    specialize (H (db s)); destruct (q (db s)) as [[e d'] | [a d']]; simpl; exact H.
Qed.

(** Statements on other tables: whatever they decide, the carts and their
    sequence are as before. *)
Ltac other_table :=
  apply keeps_stmt; intros d;
  repeat match goal with
         | |- context [if ?b then _ else _] => destruct b
         end;
  (apply carts_kept_same; [reflexivity | simpl; lia]).

Lemma keeps_query {A} (q : DB -> A) : keeps (query q).
Proof. apply keeps_stmt. intros d. apply carts_kept_refl. Qed.

Lemma keeps_for_each {A} (xs : list A) (f : A -> M unit) :
  (forall x, keeps (f x)) -> keeps (for_each xs f).
Proof.
  intros H. induction xs as [|x xs IH]; simpl; [apply keeps_ret|].
  apply keeps_bind; [apply H | intros _; exact IH].
Qed.

Lemma keeps_touch_cart (id expiresAt now : Z) : keeps (touch_cart id expiresAt now).
Proof.
  apply keeps_stmt. intros d. split; [simpl; lia|]. intros k' Hk'. simpl in Hk'.
  apply in_map_iff in Hk' as [k [<- Hk]]. left. exists k. split; [exact Hk|].
  destruct (Cart.id k =? id); reflexivity.
Qed.

Lemma keeps_delete_cart (id : Z) : keeps (delete_cart id).
Proof.
  apply keeps_stmt. intros d. split; [simpl; lia|]. intros k' Hk'. simpl in Hk'.
  apply filter_In in Hk' as [Hk' _]. left. exists k'. auto.
Qed.

Lemma keeps_insert_cart (userId : option Z) (sessionId : option string)
    (expiresAt : option Z) (now : Z) :
  one_identity (Cart.mk 0 userId sessionId expiresAt now) = true ->
  keeps (insert_cart userId sessionId expiresAt now).
Proof.
  intros Hone. apply keeps_stmt. intros d.
  destruct (references_user userId d).
  - split; [simpl; lia|]. intros k' Hk'. simpl in Hk'.
    apply in_app_iff in Hk' as [Hk' | [<- | []]].
    + left. exists k'. auto.
    + right. split; [exact Hone | simpl; lia].
  - apply carts_kept_same; [reflexivity | simpl; lia].
Qed.

Lemma keeps_insert_cartItem (cartId productId quantity : Z) :
  keeps (insert_cartItem cartId productId quantity).
Proof. other_table. Qed.

Lemma keeps_update_cartItem_quantity (id quantity : Z) :
  keeps (update_cartItem_quantity id quantity).
Proof. other_table. Qed.

Lemma keeps_delete_cartItems_of_cart (cartId : Z) : keeps (delete_cartItems_of_cart cartId).
Proof. other_table. Qed.

Lemma keeps_delete_cartItem (id : Z) : keeps (delete_cartItem id).
Proof. other_table. Qed.

Lemma keeps_update_product_stock (id stockQuantity : Z) :
  keeps (update_product_stock id stockQuantity).
Proof. other_table. Qed.

Lemma keeps_insert_order userId orderNumber totalAmount st shippingAddress now :
  keeps (insert_order userId orderNumber totalAmount st shippingAddress now).
Proof. other_table. Qed.

Lemma keeps_insert_orderItems (rows : list NewOrderItem) : keeps (insert_orderItems rows).
Proof. other_table. Qed.

Lemma keeps_insert_orderStatusHistory orderId st notes now :
  keeps (insert_orderStatusHistory orderId st notes now).
Proof. other_table. Qed.

Create HintDb keeps.

#[local] Hint Resolve keeps_ret keeps_query keeps_touch_cart keeps_delete_cart
  keeps_insert_cartItem keeps_update_cartItem_quantity keeps_delete_cartItems_of_cart
  keeps_delete_cartItem keeps_update_product_stock keeps_insert_order
  keeps_insert_orderItems keeps_insert_orderStatusHistory : keeps.

Ltac keeps_step :=
  first
    [ solve [auto 2 with keeps]
    | apply keeps_bind; [|intros ?]
    | apply keeps_for_each; intros ?
    | match goal with
      | |- keeps (match ?x with _ => _ end) => destruct x
      end ].

Ltac keeps_auto := cbv zeta; repeat keeps_step.

Lemma keeps_find_cart (userId : option Z) (sessionId : option string) :
  keeps (find_cart userId sessionId).
Proof. unfold find_cart. keeps_auto. Qed.

#[local] Hint Resolve keeps_find_cart : keeps.

Lemma caller_has_one_identity (c : Ctx) (id : Z) (expiresAt : option Z) (t : Z) :
  bearer c <> Some 0 ->
  one_identity (Cart.mk id (getUserIdFromToken c) (session_of c) expiresAt t) = true.
Proof.
  intros H. unfold one_identity, session_of, getUserIdFromToken, truthy_num. simpl.
  destruct (bearer c) as [u|]; [|reflexivity].
  destruct (u =? 0) eqn:E; [|reflexivity].
  apply Z.eqb_eq in E. subst u. congruence.
Qed.

Lemma keeps_getOrCreateCart (c : Ctx) : bearer c <> Some 0 -> keeps (getOrCreateCart c).
Proof.
  intros H. unfold getOrCreateCart.
  pose proof (keeps_insert_cart (getUserIdFromToken c) (session_of c)
                (Some (getExpirationDate c)) (now c)
                (caller_has_one_identity c 0 _ _ H)).
  keeps_auto.
Qed.

Lemma keeps_buildCartResponse (cartId : Z) : keeps (buildCartResponse cartId).
Proof. unfold buildCartResponse. keeps_auto. Qed.

#[local] Hint Resolve keeps_buildCartResponse : keeps.

Lemma keeps_merge_item (userCartId : Z) (item : CartItem.t) :
  keeps (merge_item userCartId item).
Proof. unfold merge_item. keeps_auto. Qed.

#[local] Hint Resolve keeps_merge_item : keeps.

Lemma keeps_migrate_guest_cart (c : Ctx) (user : User.t) : keeps (migrate_guest_cart c user).
Proof.
  unfold migrate_guest_cart.
  pose proof (keeps_insert_cart (Some (User.id user)) None (Some (now c + week_ms)) (now c)
                eq_refl).
  keeps_auto.
Qed.

#[local] Hint Resolve keeps_migrate_guest_cart : keeps.

Lemma keeps_place_order c userId b cart lines : keeps (place_order c userId b cart lines).
Proof. unfold place_order. keeps_auto. Qed.

#[local] Hint Resolve keeps_place_order : keeps.

Lemma run_store (c : Ctx) (m : M Response) (s : Store) : snd (run c m s) = store_of (m s).
Proof. unfold run. destruct (m s); reflexivity. Qed.

Lemma try_catch_store (m : M Response) (msg : string) (s : Store) :
  snd (try_catch m msg s) = store_of (m s).
Proof. unfold try_catch. destruct (m s); reflexivity. Qed.

Lemma keeps_run (c : Ctx) (m : M Response) (s : Store) :
  keeps m -> carts_kept (db s) (db (snd (run c m s))).
Proof. intros H. rewrite run_store. apply H. Qed.

Lemma keeps_try_catch (m : M Response) (msg : string) (s : Store) :
  keeps m -> carts_kept (db s) (db (snd (try_catch m msg s))).
Proof. intros H. rewrite try_catch_store. apply H. Qed.

Lemma same_key_same_row {A} (key : A -> Z) (l : list A) (a b : A) :
  distinct_by (fun x y => key x =? key y) l = true ->
  In a l -> In b l -> key a = key b -> a = b.
Proof.
  induction l as [|x l IH]; intros Hd Ha Hb E; [destruct Ha|].
  simpl in Hd. apply andb_true_iff in Hd as [Hx Hl]. apply negb_true_iff in Hx.
  assert (Hnot : forall y, In y l -> key x <> key y).
  { intros y Hy Exy.
    assert (existsb (fun y => key x =? key y) l = true).
    { apply existsb_exists. exists y. split; [exact Hy | apply Z.eqb_eq; exact Exy]. }
    congruence. }
  destruct Ha as [<- | Ha], Hb as [<- | Hb].
  - reflexivity.
  - exfalso. exact (Hnot b Hb E).
  - exfalso. apply (Hnot a Ha). symmetry. exact E.
  - apply IH; assumption.
Qed.

(** C9: whatever the request and whether or not the store fails under it, a
    core operation leaves every cart row either as a row that was there with
    the same id, user id and session id, or as a row inserted under an id
    newly drawn from the carts sequence with exactly one identity (a user id
    and no session id, or a session id and no user id).  Hence (1) every cart
    row created, that is every row whose id no former row has, has exactly
    one identity; (2) no operation changes a cart's identity fields: a cart
    id present before and after carries the same user id and session id, so
    a cart that is gone, such as the guest cart merged at login, was deleted
    and not given to another owner; (3) from carts that each have one
    identity only such carts are reached, so none with neither identity is
    ever constructed.  The subject of a bearer token is a user key, hence
    not 0. *)
Theorem cart_identity_invariant
    (comparePassword : string -> string -> bool)
    (signJWT : JWTPayload -> string -> string)
    (is_email : string -> bool)
    (c : Ctx) (r : Request) (s : Store) :
  bearer c <> Some 0 ->
  carts_kept (db s) (db (snd (handle comparePassword signJWT is_email c r s)))
  /\ (forall k', In k' (carts (db (snd (handle comparePassword signJWT is_email c r s)))) ->
        (forall k, In k (carts (db s)) -> Cart.id k <> Cart.id k') ->
        one_identity k' = true)
  /\ (carts_pkey (db s) = true ->
      carts_seq_ahead (db s) = true ->
      forall k k',
        In k (carts (db s)) ->
        In k' (carts (db (snd (handle comparePassword signJWT is_email c r s)))) ->
        Cart.id k' = Cart.id k ->
        Cart.userId k' = Cart.userId k /\ Cart.sessionId k' = Cart.sessionId k)
  /\ (forallb one_identity (carts (db s)) = true ->
      forallb one_identity (carts (db (snd (handle comparePassword signJWT is_email c r s))))
      = true).
Proof.
  intros Hb.
  assert (Hkept : carts_kept (db s)
                    (db (snd (handle comparePassword signJWT is_email c r s)))).
  { pose proof (@keeps_getOrCreateCart c Hb) as Hcart.
    destruct r; simpl handle.
    - unfold cart_get. apply keeps_try_catch. keeps_auto.
    - unfold cart_post_items.
      destruct (addToCartSchema productId quantity); [|apply carts_kept_refl].
      apply keeps_try_catch. keeps_auto.
    - unfold cart_put_item.
      destruct (updateCartItemSchema quantity); [|apply carts_kept_refl].
      apply keeps_try_catch. keeps_auto.
    - unfold cart_delete_item. apply keeps_try_catch. keeps_auto.
    - unfold cart_delete. apply keeps_try_catch. keeps_auto.
    - unfold auth_login.
      destruct (loginSchema is_email email password); [|apply carts_kept_refl].
      apply keeps_run. keeps_auto.
    - unfold checkout_post.
      destruct (bearer c); [|apply carts_kept_refl].
      destruct (checkoutSchema b); [|apply carts_kept_refl].
      apply keeps_run. keeps_auto.
    - unfold orders_get_id.
      destruct (bearer c); [|apply carts_kept_refl].
      destruct (orderIdParamsSchema id); [|apply carts_kept_refl].
      apply keeps_run. keeps_auto.
    - unfold orders_get_id_status.
      destruct (bearer c); [|apply carts_kept_refl].
      destruct (orderIdParamsSchema id); [|apply carts_kept_refl].
      apply keeps_run. keeps_auto. }
  split; [exact Hkept|].
  destruct Hkept as [Hseq Hkept].
  split; [|split].
  - intros k' Hk' Hnew.
    destruct (Hkept k' Hk') as [[k [Hk E]] | [Hone _]]; [|exact Hone].
    exfalso. apply (Hnew k Hk). unfold identity in E. congruence.
  - intros Hpkey Hahead k k' Hk Hk' Eid.
    destruct (Hkept k' Hk') as [[k0 [Hk0 E]] | [_ Hid]].
    + assert (E0 : k0 = k).
      { apply (same_key_same_row Cart.id (carts (db s))); try assumption.
        unfold identity in E. congruence. }
      subst k0. unfold identity in E. split; congruence.
    + unfold carts_seq_ahead in Hahead. rewrite forallb_forall in Hahead.
      specialize (Hahead k Hk). apply Z.ltb_lt in Hahead. lia.
  - intros Hall. rewrite forallb_forall in *. intros k' Hk'.
    destruct (Hkept k' Hk') as [[k [Hk E]] | [Hone _]]; [|exact Hone].
    rewrite <- (one_identity_by_identity _ _ E). apply Hall. exact Hk.
Qed.

(** ** Merging a guest cart at login *)

Lemma existsb_over_map {A B} (f : B -> bool) (g : A -> B) (l : list A) :
  existsb f (map g l) = existsb (fun x => f (g x)) l.
Proof. induction l as [|a l IH]; simpl; [reflexivity|]. rewrite IH. reflexivity. Qed.

Lemma distinct_by_map {A} (same : A -> A -> bool) (f : A -> A) (l : list A) :
  (forall a b, same (f a) (f b) = same a b) ->
  distinct_by same (map f l) = distinct_by same l.
Proof.
  intros H. induction l as [|a l IH]; [reflexivity|].
  simpl. rewrite IH. f_equal. f_equal.
  rewrite existsb_over_map. apply existsb_same. intros b. apply H.
Qed.

Lemma distinct_by_snoc {A} (same : A -> A -> bool) (l : list A) (x : A) :
  distinct_by same l = true ->
  existsb (fun a => same a x) l = false ->
  distinct_by same (l ++ [x]) = true.
Proof.
  induction l as [|a l IH]; intros Hd Hx; [reflexivity|].
  simpl in *. apply andb_true_iff in Hd as [Ha Hl].
  apply orb_false_iff in Hx as [Hax Hlx].
  rewrite (IH Hl Hlx), andb_true_r.
  rewrite existsb_app. simpl. rewrite Hax.
  apply negb_true_iff in Ha. rewrite Ha. reflexivity.
Qed.

Lemma bump_keys (e : CartItem.t) (q : Z) (it : CartItem.t) :
  CartItem.id (bump e q it) = CartItem.id it
  /\ CartItem.cartId (bump e q it) = CartItem.cartId it
  /\ CartItem.productId (bump e q it) = CartItem.productId it.
Proof. unfold bump. destruct (CartItem.id it =? CartItem.id e); auto. Qed.

Lemma same_line_bump (cartId pid : Z) (e : CartItem.t) (q : Z) (it : CartItem.t) :
  same_line cartId pid (bump e q it) = same_line cartId pid it.
Proof.
  unfold same_line. destruct (bump_keys e q it) as [_ [-> ->]]. reflexivity.
Qed.

Lemma filter_map_commute {A} (f : A -> bool) (g : A -> A) (l : list A) :
  (forall x, f (g x) = f x) -> filter f (map g l) = map g (filter f l).
Proof.
  intros H. induction l as [|a l IH]; [reflexivity|].
  simpl. rewrite H. destruct (f a); simpl; rewrite IH; reflexivity.
Qed.

Lemma merge_step_ok (userCartId : Z) (st : list CartItem.t * Z) (g : CartItem.t) :
  table_ok st -> 0 < CartItem.quantity g -> table_ok (merge_step userCartId st g).
Proof.
  intros [Hid [Hline [Hpos Hseq]]] Hg. unfold merge_step.
  destruct (hd_error (filter (same_line userCartId (CartItem.productId g)) (fst st)))
    as [e|] eqn:Hfind; unfold table_ok; simpl fst; simpl snd.
  - apply hd_error_filter_in in Hfind as [He _].
    rewrite forallb_forall in Hpos, Hseq.
    repeat split.
    + rewrite distinct_by_map; [exact Hid|].
      intros a b. destruct (bump_keys e (CartItem.quantity e + CartItem.quantity g) a) as [-> _].
      destruct (bump_keys e (CartItem.quantity e + CartItem.quantity g) b) as [-> _].
      reflexivity.
    + rewrite distinct_by_map; [exact Hline|].
      intros a b. rewrite same_line_bump.
      destruct (bump_keys e (CartItem.quantity e + CartItem.quantity g) a) as [_ [-> ->]].
      reflexivity.
    + apply forallb_forall. intros x Hx. apply in_map_iff in Hx as [y [<- Hy]].
      unfold bump. destruct (CartItem.id y =? CartItem.id e); [|apply Hpos; exact Hy].
      simpl. apply Z.ltb_lt. specialize (Hpos e He). apply Z.ltb_lt in Hpos. lia.
    + apply forallb_forall. intros x Hx. apply in_map_iff in Hx as [y [<- Hy]].
      destruct (bump_keys e (CartItem.quantity e + CartItem.quantity g) y) as [-> _].
      apply Hseq. exact Hy.
  - assert (Hnone : filter (same_line userCartId (CartItem.productId g)) (fst st) = []).
    { destruct (filter _ _); [reflexivity | discriminate]. }
    rewrite forallb_forall in Hseq.
    repeat split.
    + apply distinct_by_snoc; [exact Hid|]. simpl.
      destruct (existsb _ _) eqn:E; [|reflexivity].
      apply existsb_exists in E as [a [Ha Eid]]. apply Z.eqb_eq in Eid.
      specialize (Hseq a Ha). apply Z.ltb_lt in Hseq. lia.
    + apply distinct_by_snoc; [exact Hline|]. simpl.
      destruct (existsb _ _) eqn:E; [|reflexivity].
      apply existsb_exists in E as [a [Ha Esame]].
      assert (Hin : In a (filter (same_line userCartId (CartItem.productId g)) (fst st))).
      { apply filter_In. split; [exact Ha|].
        unfold same_line in *. simpl in Esame.
        apply andb_true_iff in Esame as [E1 E2].
        apply Z.eqb_eq in E1, E2. apply andb_true_iff. split; apply Z.eqb_eq; congruence. }
      rewrite Hnone in Hin. destruct Hin.
    + rewrite forallb_app, Hpos. simpl. rewrite (proj2 (Z.ltb_lt _ _) Hg). reflexivity.
    + rewrite forallb_app. apply andb_true_iff. split.
      * apply forallb_forall. intros x Hx. specialize (Hseq x Hx).
        apply Z.ltb_lt in Hseq. apply Z.ltb_lt. lia.
      * simpl. rewrite (proj2 (Z.ltb_lt _ _)) by lia. reflexivity.
Qed.

Lemma int4_between (z : Z) : 0 < z -> z <= 2147483647 -> int4 z = true.
Proof. intros. unfold int4. apply andb_true_iff. split; apply Z.leb_le; lia. Qed.

Lemma merge_item_run (userCartId : Z) (g : CartItem.t) (d : DB) :
  table_ok (cartItems d, cartItems_seq d) ->
  0 < CartItem.quantity g ->
  sums_fit userCartId [g] (cartItems d) ->
  merge_item userCartId g (reliable d)
  = Done tt (reliable
               (with_cartItems
                  (fun _ => fst (merge_step userCartId (cartItems d, cartItems_seq d) g))
                  (snd (merge_step userCartId (cartItems d, cartItems_seq d) g)) d)).
Proof.
  intros [Hid [Hline [Hpos Hseq]]] Hg Hfit. simpl fst in *. simpl snd in *.
  destruct (Hfit g (or_introl eq_refl)) as [Hmax Hsum].
  unfold merge_item, merge_step. rewrite bind_query. simpl fst. simpl snd.
  destruct (hd_error (filter (same_line userCartId (CartItem.productId g)) (cartItems d)))
    as [e|] eqn:Hfind.
  - unfold update_cartItem_quantity. rewrite stmt_reliable.
    apply hd_error_filter_in in Hfind as [He Hsame].
    rewrite forallb_forall in Hpos. specialize (Hpos e He). apply Z.ltb_lt in Hpos.
    specialize (Hsum e He Hsame).
    rewrite int4_between by lia. cbn [negb].
    rewrite (proj2 (Z.leb_gt _ _)) by lia. rewrite andb_false_r. reflexivity.
  - unfold bind, insert_cartItem, ret. rewrite stmt_reliable.
    rewrite int4_between by lia. cbn [negb].
    rewrite (proj2 (Z.leb_gt _ _)) by lia.
    assert (Hnone : existsb (same_line userCartId (CartItem.productId g)) (cartItems d) = false).
    { destruct (existsb _ _) eqn:E; [|reflexivity].
      apply existsb_exists in E as [a [Ha Ea]].
      assert (Hin : In a (filter (same_line userCartId (CartItem.productId g)) (cartItems d)))
        by (apply filter_In; auto).
      destruct (filter _ _); [destruct Hin | discriminate]. }
    rewrite Hnone. reflexivity.
Qed.

(** After the turn for [g], the sums of the guest lines still to come, which
    are for other products, are as before. *)
Lemma sums_fit_step (userCartId : Z) (g : CartItem.t) (G : list CartItem.t)
    (st : list CartItem.t * Z) :
  table_ok st ->
  distinct_by (fun a b => CartItem.productId a =? CartItem.productId b) (g :: G) = true ->
  sums_fit userCartId (g :: G) (fst st) ->
  sums_fit userCartId G (fst (merge_step userCartId st g)).
Proof.
  intros [Hid _] Hd Hfit g' Hg'.
  simpl in Hd. apply andb_true_iff in Hd as [Hnew _]. apply negb_true_iff in Hnew.
  assert (Hother : CartItem.productId g <> CartItem.productId g').
  { intros E.
    assert (existsb (fun b => CartItem.productId g =? CartItem.productId b) G = true).
    { apply existsb_exists. exists g'. split; [exact Hg' | apply Z.eqb_eq; exact E]. }
    congruence. }
  destruct (Hfit g' (or_intror Hg')) as [Hmax Hsum].
  split; [exact Hmax|].
  intros e' He' Hsame'. unfold merge_step in He'.
  destruct (hd_error (filter (same_line userCartId (CartItem.productId g)) (fst st)))
    as [e|] eqn:Hfind; simpl fst in He'.
  - apply in_map_iff in He' as [y [<- Hy]].
    rewrite same_line_bump in Hsame'.
    unfold bump. destruct (CartItem.id y =? CartItem.id e) eqn:Eid.
    + exfalso. apply Z.eqb_eq in Eid.
      apply hd_error_filter_in in Hfind as [He Hsame].
      assert (y = e) by (apply (same_key_same_row CartItem.id (fst st)); assumption).
      subst y. unfold same_line in Hsame, Hsame'.
      apply andb_true_iff in Hsame as [_ P1]. apply andb_true_iff in Hsame' as [_ P2].
      apply Z.eqb_eq in P1, P2. congruence.
    + apply Hsum; assumption.
  - apply in_app_iff in He' as [He' | [<- | []]]; [apply Hsum; assumption|].
    exfalso. unfold same_line in Hsame'. simpl in Hsame'.
    apply andb_true_iff in Hsame' as [_ P]. apply Z.eqb_eq in P. congruence.
Qed.

Lemma with_cartItems_const (d : DB) :
  with_cartItems (fun _ => cartItems d) (cartItems_seq d) d = d.
Proof. destruct d; reflexivity. Qed.

Lemma merge_loop_run (userCartId : Z) (G : list CartItem.t) :
  (forall g, In g G -> 0 < CartItem.quantity g) ->
  distinct_by (fun a b => CartItem.productId a =? CartItem.productId b) G = true ->
  forall d,
    table_ok (cartItems d, cartItems_seq d) ->
    sums_fit userCartId G (cartItems d) ->
    for_each G (merge_item userCartId) (reliable d)
    = Done tt (reliable
                 (with_cartItems
                    (fun _ => fst (fold_left (merge_step userCartId) G
                                     (cartItems d, cartItems_seq d)))
                    (snd (fold_left (merge_step userCartId) G
                            (cartItems d, cartItems_seq d))) d))
    /\ table_ok (fold_left (merge_step userCartId) G (cartItems d, cartItems_seq d)).
Proof.
  induction G as [|g G IH]; intros Hpos Hd d Hok Hfit.
  - simpl. rewrite with_cartItems_const. split; [reflexivity | exact Hok].
  - simpl for_each. simpl fold_left.
    assert (Hg : 0 < CartItem.quantity g) by (apply Hpos; left; reflexivity).
    assert (Hfit_g : sums_fit userCartId [g] (cartItems d)).
    { intros x [<- | []]. apply Hfit. left; reflexivity. }
    pose proof (merge_step_ok userCartId _ g Hok Hg) as Hok1.
    pose proof (sums_fit_step userCartId g G _ Hok Hd Hfit) as Hfit1.
    assert (HdG : distinct_by (fun a b => CartItem.productId a =? CartItem.productId b) G = true).
    { simpl in Hd. apply andb_true_iff in Hd as [_ HdG]. exact HdG. }
    set (st1 := merge_step userCartId (cartItems d, cartItems_seq d) g) in *.
    specialize (IH (fun x Hx => Hpos x (or_intror Hx)) HdG
                   (with_cartItems (fun _ => fst st1) (snd st1) d)).
    simpl cartItems in IH. simpl cartItems_seq in IH.
    rewrite <- surjective_pairing in IH.
    destruct (IH Hok1 Hfit1) as [Hrun Hok2].
    split; [|exact Hok2].
    unfold bind. rewrite (merge_item_run userCartId g d Hok Hg Hfit_g). fold st1.
    rewrite Hrun. reflexivity.
Qed.

Lemma map_bump_others (e : CartItem.t) (q : Z) (l : list CartItem.t) :
  (forall it, In it l -> CartItem.id it <> CartItem.id e) ->
  map (bump e q) l = l.
Proof.
  intros H. induction l as [|a l IH]; [reflexivity|].
  simpl. rewrite IH by (intros; apply H; right; assumption).
  unfold bump. rewrite (proj2 (Z.eqb_neq _ _) (H a (or_introl eq_refl))). reflexivity.
Qed.

Lemma lines_of_product_single (cartId pid : Z) (l : list CartItem.t) (e : CartItem.t) :
  distinct_by (fun a b => same_line (CartItem.cartId a) (CartItem.productId a) b) l = true ->
  hd_error (filter (same_line cartId pid) l) = Some e ->
  filter (same_line cartId pid) l = [e].
Proof.
  intros Hd H.
  apply filter_single
    with (same := fun a b => same_line (CartItem.cartId a) (CartItem.productId a) b);
    [exact Hd | | exact H].
  intros a b Ha Hb. unfold same_line in *.
  apply andb_true_iff in Ha as [A1 A2]. apply andb_true_iff in Hb as [B1 B2].
  apply Z.eqb_eq in A1, A2, B1, B2.
  apply andb_true_iff. split; apply Z.eqb_eq; congruence.
Qed.

(** One turn of the loop adds the guest quantity to what the user's cart
    holds for that product, and leaves its other products alone. *)
Lemma held_step (userCartId pid : Z) (st : list CartItem.t * Z) (g : CartItem.t) :
  table_ok st ->
  held userCartId pid (fst (merge_step userCartId st g))
  = if CartItem.productId g =? pid
    then fold_in [CartItem.quantity g] (held userCartId pid (fst st))
    else held userCartId pid (fst st).
Proof.
  intros [Hid [Hline _]]. unfold merge_step, held.
  destruct (hd_error (filter (same_line userCartId (CartItem.productId g)) (fst st)))
    as [e|] eqn:Hfind; simpl fst.
  - rewrite filter_map_commute by (intros; apply same_line_bump).
    pose proof (lines_of_product_single _ _ _ _ Hline Hfind) as Hone.
    destruct (CartItem.productId g =? pid) eqn:E.
    + apply Z.eqb_eq in E. subst pid. rewrite Hone. simpl.
      unfold bump. rewrite Z.eqb_refl. reflexivity.
    + rewrite map_bump_others; [reflexivity|].
      intros it Hit Eid. apply filter_In in Hit as [Hit Hsame].
      apply hd_error_filter_in in Hfind as [He Hsame_e].
      assert (it = e) by (apply (same_key_same_row CartItem.id (fst st) it e); assumption).
      subst it. unfold same_line in Hsame, Hsame_e.
      apply andb_true_iff in Hsame as [_ P1]. apply andb_true_iff in Hsame_e as [_ P2].
      apply Z.eqb_eq in P1, P2. apply Z.eqb_neq in E. congruence.
  - rewrite filter_app, map_app. simpl filter. unfold same_line at 2. simpl.
    rewrite Z.eqb_refl. simpl.
    destruct (CartItem.productId g =? pid) eqn:E.
    + apply Z.eqb_eq in E. subst pid.
      destruct (filter (same_line userCartId (CartItem.productId g)) (fst st));
        [reflexivity | discriminate].
    + simpl. apply app_nil_r.
Qed.

Lemma held_loop (userCartId pid : Z) (G : list CartItem.t) :
  distinct_by (fun a b => CartItem.productId a =? CartItem.productId b) G = true ->
  (forall g, In g G -> 0 < CartItem.quantity g) ->
  forall st,
    table_ok st ->
    held userCartId pid (fst (fold_left (merge_step userCartId) G st))
    = fold_in (map CartItem.quantity (filter (fun g => CartItem.productId g =? pid) G))
              (held userCartId pid (fst st)).
Proof.
  induction G as [|g G IH]; intros Hd Hpos st Hok; [reflexivity|].
  simpl in Hd. apply andb_true_iff in Hd as [Hg HG]. apply negb_true_iff in Hg.
  simpl fold_left.
  rewrite IH; [| exact HG | intros; apply Hpos; right; assumption
               | apply merge_step_ok; [exact Hok | apply Hpos; left; reflexivity] ].
  rewrite (held_step userCartId pid st g Hok). simpl filter.
  destruct (CartItem.productId g =? pid) eqn:E; [|reflexivity].
  apply Z.eqb_eq in E.
  rewrite filter_none; [reflexivity|].
  intros x Hx. destruct (CartItem.productId x =? pid) eqn:Ex; [|reflexivity].
  apply Z.eqb_eq in Ex.
  assert (existsb (fun b => CartItem.productId g =? CartItem.productId b) G = true).
  { apply existsb_exists. exists x. split; [exact Hx | apply Z.eqb_eq; congruence]. }
  congruence.
Qed.

Lemma table_ok_of_store (d : DB) :
  cartItems_pkey d = true ->
  unique_cart_item d = true ->
  cart_quantity_check d = true ->
  cartItems_seq_ahead d = true ->
  table_ok (cartItems d, cartItems_seq d).
Proof. intros; repeat split; assumption. Qed.

Lemma references_user_in (user : User.t) (d : DB) :
  In user (users d) -> references_user (Some (User.id user)) d = true.
Proof.
  intros H. unfold references_user. apply existsb_exists.
  exists user. split; [exact H | apply Z.eqb_refl].
Qed.

Lemma migrate_guest_cart_run (c : Ctx) (user : User.t) (guest : Cart.t) (d : DB) :
  In user (users d) ->
  truthy_str (login_sessionId c) = true ->
  hd_error (filter (is_guest_cart (login_sessionId c)) (carts d)) = Some guest ->
  lines_of (Cart.id guest) d <> [] ->
  table_ok (cartItems d, cartItems_seq d) ->
  sums_fit (Cart.id (merge_target c user d)) (lines_of (Cart.id guest) d) (cartItems d) ->
  migrate_guest_cart c user (reliable d) = Done tt (reliable (after_merge c user guest d)).
Proof.
  intros Huser Hsid Hguest Hlines Hok Hfit.
  assert (Hpos : forall g, In g (lines_of (Cart.id guest) d) -> 0 < CartItem.quantity g).
  { intros g Hg. apply filter_In in Hg as [Hg _].
    destruct Hok as [_ [_ [Hq _]]]. simpl in Hq. rewrite forallb_forall in Hq.
    apply Z.ltb_lt. apply Hq. exact Hg. }
  assert (Hd : distinct_by (fun a b => CartItem.productId a =? CartItem.productId b)
                 (lines_of (Cart.id guest) d) = true).
  { apply cart_products_distinct. apply Hok. }
  unfold migrate_guest_cart. cbv zeta. rewrite Hsid.
  rewrite bind_query. fold (is_guest_cart (login_sessionId c)). rewrite Hguest.
  rewrite bind_query. fold (lines_of (Cart.id guest) d).
  assert (Hlen : (0 <? Z.of_nat (List.length (lines_of (Cart.id guest) d))) = true).
  { apply Z.ltb_lt. destruct (lines_of (Cart.id guest) d); [congruence | simpl List.length; lia]. }
  rewrite Hlen. rewrite bind_query. fold (is_cart_of user).
  unfold after_merge, with_merge_target.
  unfold merge_target in *.
  destruct (hd_error (filter (is_cart_of user) (carts d))) as [userCart|].
  - unfold bind at 1. unfold ret at 1. unfold bind at 1.
    destruct (merge_loop_run (Cart.id userCart) (lines_of (Cart.id guest) d) Hpos Hd d Hok Hfit)
      as [Hrun _].
    rewrite Hrun.
    unfold bind, delete_cartItems_of_cart, delete_cart. rewrite !stmt_reliable.
    unfold with_cartItems, with_carts. simpl. rewrite filter_twice. reflexivity.
  - unfold bind at 1. unfold insert_cart.
    rewrite stmt_reliable, (references_user_in user d Huser).
    unfold bind at 1.
    destruct (merge_loop_run (carts_seq d) (lines_of (Cart.id guest) d) Hpos Hd
                (with_carts (fun t => t ++ [Cart.mk (carts_seq d) (Some (User.id user)) None
                                              (Some (now c + week_ms)) (now c)])
                            (carts_seq d + 1) d) Hok Hfit)
      as [Hrun _].
    simpl Cart.id. rewrite Hrun.
    unfold bind, delete_cartItems_of_cart, delete_cart. rewrite !stmt_reliable.
    unfold with_cartItems, with_carts. simpl. rewrite filter_twice. reflexivity.
Qed.

Lemma held_without_other_cart (cartId other pid : Z) (items : list CartItem.t) :
  cartId <> other ->
  held cartId pid (filter (fun it => negb (CartItem.cartId it =? other)) items)
  = held cartId pid items.
Proof.
  intros Hne. unfold held. induction items as [|a l IH]; [reflexivity|].
  simpl. destruct (CartItem.cartId a =? other) eqn:E; simpl.
  - apply Z.eqb_eq in E. unfold same_line at 2.
    rewrite (proj2 (Z.eqb_neq _ _)) by congruence. simpl. exact IH.
  - destruct (same_line cartId pid a); simpl; rewrite IH; reflexivity.
Qed.

Lemma held_by_lines (cartId pid : Z) (d : DB) :
  map CartItem.quantity (filter (fun g => CartItem.productId g =? pid) (lines_of cartId d))
  = held cartId pid (cartItems d).
Proof.
  unfold held, lines_of, same_line. induction (cartItems d) as [|a l IH]; [reflexivity|].
  simpl. destruct (CartItem.cartId a =? cartId); simpl;
    destruct (CartItem.productId a =? pid); simpl; rewrite ?IH; reflexivity.
Qed.

Lemma merge_target_in (c : Ctx) (user : User.t) (d : DB) :
  In (merge_target c user d) (carts (with_merge_target c user d))
  /\ Cart.userId (merge_target c user d) = Some (User.id user).
Proof.
  unfold with_merge_target, merge_target.
  destruct (hd_error (filter (is_cart_of user) (carts d))) as [u|] eqn:E.
  - apply hd_error_filter_in in E as [Hin Hu]. split; [exact Hin|].
    unfold is_cart_of in Hu. destruct (Cart.userId u) as [x|]; simpl in Hu; [|discriminate].
    apply Z.eqb_eq in Hu. congruence.
  - split; [|reflexivity]. simpl. apply in_or_app. right. left. reflexivity.
Qed.

Lemma merge_target_not_guest (c : Ctx) (user : User.t) (guest : Cart.t) (d : DB) sessionId :
  carts_pkey d = true ->
  carts_seq_ahead d = true ->
  hd_error (filter (is_guest_cart sessionId) (carts d)) = Some guest ->
  Cart.id (merge_target c user d) <> Cart.id guest.
Proof.
  intros Hpk Hseq Hguest.
  apply hd_error_filter_in in Hguest as [Hg Hgp].
  unfold is_guest_cart in Hgp. apply andb_true_iff in Hgp as [_ Hnull].
  unfold merge_target.
  destruct (hd_error (filter (is_cart_of user) (carts d))) as [u|] eqn:E.
  - apply hd_error_filter_in in E as [Hu Hup]. intros Eid.
    assert (u = guest) by (apply (same_key_same_row Cart.id (carts d)); assumption).
    subst u. unfold is_cart_of in Hup.
    destruct (Cart.userId guest); simpl in *; discriminate.
  - simpl. unfold carts_seq_ahead in Hseq. rewrite forallb_forall in Hseq.
    specialize (Hseq guest Hg). apply Z.ltb_lt in Hseq. lia.
Qed.

(** C4: a login with valid credentials and a session id naming a guest cart
    (no user id) that has lines answers 200 with the token and leaves
    [after_merge]: for every product, what the user's cart holds is what it
    held with the guest's quantity folded in, that is the sum in a single line
    where both had one, the guest's quantity in a new line where only the
    guest had one, and no change otherwise; no line of the guest cart and no
    guest cart row is left.  The store starts with the keys, the
    (cart, product) uniqueness and the quantity check of the schema in force,
    and every quantity the merge writes, a guest quantity or its sum with the
    user's for the product, fits the integer column of the cart lines. *)
Theorem login_merges_guest_cart
    (comparePassword : string -> string -> bool)
    (signJWT : JWTPayload -> string -> string)
    (is_email : string -> bool)
    (c : Ctx) (email password : string) (d : DB) (user : User.t) (guest : Cart.t) :
  loginSchema is_email email password = true ->
  hd_error (filter (fun u => String.eqb (User.email u) email) (users d)) = Some user ->
  comparePassword password (User.passwordHash user) = true ->
  truthy_str (login_sessionId c) = true ->
  hd_error (filter (is_guest_cart (login_sessionId c)) (carts d)) = Some guest ->
  lines_of (Cart.id guest) d <> [] ->
  cartItems_pkey d = true ->
  unique_cart_item d = true ->
  cart_quantity_check d = true ->
  cartItems_seq_ahead d = true ->
  carts_pkey d = true ->
  carts_seq_ahead d = true ->
  sums_fit (Cart.id (merge_target c user d)) (lines_of (Cart.id guest) d) (cartItems d) ->
  let mine := merge_target c user d in
  let d' := after_merge c user guest d in
  auth_login comparePassword signJWT is_email c email password (reliable d)
  = (json (LoginBody
             (signJWT (mkJWTPayload (Z_to_string (User.id user)) (User.email user)
                                    (User.role user)) (JWT_SECRET c))
             user) 200,
     reliable d')
  /\ (forall pid,
        held (Cart.id mine) pid (cartItems d')
        = fold_in (held (Cart.id guest) pid (cartItems d))
                  (held (Cart.id mine) pid (cartItems d)))
  /\ lines_of (Cart.id guest) d' = []
  /\ filter (fun k => Cart.id k =? Cart.id guest) (carts d') = []
  /\ In mine (carts d')
  /\ Cart.userId mine = Some (User.id user).
Proof.
  intros Hschema Huser Hpw Hsid Hguest Hlines Hipk Huniq Hqty Hiseq Hcpk Hcseq Hfit mine d'.
  pose proof (table_ok_of_store d Hipk Huniq Hqty Hiseq) as Hok.
  pose proof (merge_target_not_guest c user guest d _ Hcpk Hcseq Hguest) as Hne.
  destruct (merge_target_in c user d) as [Hin Hmine].
  assert (Hrow : In user (users d)) by (apply hd_error_filter_in in Huser; apply Huser).
  split; [|split; [|split; [|split; [|split]]]].
  - unfold auth_login. rewrite Hschema. unfold run.
    rewrite bind_query, Huser, Hpw. cbn [negb hd_error].
    unfold bind at 1.
    rewrite (migrate_guest_cart_run c user guest d Hrow Hsid Hguest Hlines Hok Hfit).
    reflexivity.
  - intros pid. unfold d', after_merge. simpl cartItems.
    rewrite held_without_other_cart by exact Hne.
    rewrite held_loop.
    + rewrite held_by_lines. reflexivity.
    + apply cart_products_distinct. exact Huniq.
    + intros g Hg. apply filter_In in Hg as [Hg _].
      unfold cart_quantity_check in Hqty. rewrite forallb_forall in Hqty.
      apply Z.ltb_lt. apply Hqty. exact Hg.
    + exact Hok.
  - unfold lines_of, d', after_merge. simpl cartItems. apply filter_complement.
  - unfold d', after_merge. simpl carts. apply filter_complement.
  - unfold d', after_merge. simpl carts. apply filter_In. split; [exact Hin|].
    apply negb_true_iff. apply Z.eqb_neq. exact Hne.
  - exact Hmine.
Qed.

Lemma login_merges_guest_cart_witness :
  snd (auth_login sample_compare sample_sign sample_is_email login_ctx
         "ann@example.com" "pw1" (reliable db_merge))
  = reliable (after_merge login_ctx user1 guest_cart db_merge)
  /\ held 1 1 (cartItems (after_merge login_ctx user1 guest_cart db_merge)) = [2 + 3]
  /\ cartItems (after_merge login_ctx user1 guest_cart db_merge) = [CartItem.mk 1 1 1 5]
  /\ carts (after_merge login_ctx user1 guest_cart db_merge) = [cart1].
Proof.
  assert (Hfit : sums_fit (Cart.id (merge_target login_ctx user1 db_merge))
                   (lines_of (Cart.id guest_cart) db_merge) (cartItems db_merge)).
  { intros g [<- | []]. split; [simpl; lia|].
    intros e [<- | [<- | []]] Hsame; simpl in *; try discriminate; lia. }
  destruct (@login_merges_guest_cart sample_compare sample_sign sample_is_email login_ctx
              "ann@example.com" "pw1" db_merge user1 guest_cart
              eq_refl eq_refl eq_refl eq_refl eq_refl)
    as [Hrun [Hheld _]]; try reflexivity; try exact Hfit.
  - discriminate.
  - split; [rewrite Hrun; reflexivity|].
    split; [exact (Hheld 1)|]. split; reflexivity.
Defined.

(** A sum beyond the integer column: the user holds 1 and the guest
    2147483647 of product A.  The update is refused, nothing catches it, the
    login answers 500 and both carts are as they were. *)
Example login_merge_out_of_range :
  let d := mkDB [user1] [productA] [] [cart1; guest_cart]
                [CartItem.mk 1 1 1 1; CartItem.mk 2 2 1 2147483647]
                [] [] [] 3 3 1 1 1 in
  let r := auth_login sample_compare sample_sign sample_is_email login_ctx
             "ann@example.com" "pw1" (reliable d) in
  status (fst r) = 500 /\ db (snd r) = d.
Proof. split; reflexivity. Qed.

(** ** Errors during the merge *)

(** C5, as amended: with valid credentials, once the user row is read the
    login answers as the merge step ends.  If the merge returns, the answer
    is 200 with the token.  If the merge throws, nothing catches it: the
    login answers 500 (Internal) with an error body and no token, and the
    store keeps whatever the merge had written before the throw. *)
Theorem login_outcome_follows_merge
    (comparePassword : string -> string -> bool)
    (signJWT : JWTPayload -> string -> string)
    (is_email : string -> bool)
    (c : Ctx) (email password : string) (s : Store) (user : User.t) :
  loginSchema is_email email password = true ->
  budget s <> Some O ->
  hd_error (filter (fun u => String.eqb (User.email u) email) (users (db s))) = Some user ->
  comparePassword password (User.passwordHash user) = true ->
  let s1 := mkStore (db s) (option_map Nat.pred (budget s)) in
  let ok := json (LoginBody
                    (signJWT (mkJWTPayload (Z_to_string (User.id user)) (User.email user)
                                           (User.role user)) (JWT_SECRET c))
                    user) 200 in
  auth_login comparePassword signJWT is_email c email password s
  = match migrate_guest_cart c user s1 with
    | Done _ s2 => (ok, s2)
    | Thrown e s2 => (errorHandler (thrown c e), s2)
    end
  /\ (forall e s2, migrate_guest_cart c user s1 = Thrown e s2 ->
        status (fst (auth_login comparePassword signJWT is_email c email password s)) = 500
        /\ error_kind (fst (auth_login comparePassword signJWT is_email c email password s))
           = Some Internal
        /\ (exists msg,
              body (fst (auth_login comparePassword signJWT is_email c email password s))
              = Failure msg)
        /\ snd (auth_login comparePassword signJWT is_email c email password s) = s2)
  /\ (forall u s2, migrate_guest_cart c user s1 = Done u s2 ->
        auth_login comparePassword signJWT is_email c email password s = (ok, s2)).
Proof.
  intros Hschema Hbudget Huser Hpw s1 ok.
  assert (Hrun : auth_login comparePassword signJWT is_email c email password s
                 = match migrate_guest_cart c user s1 with
                   | Done _ s2 => (ok, s2)
                   | Thrown e s2 => (errorHandler (thrown c e), s2)
                   end).
  { unfold auth_login. rewrite Hschema. unfold run.
    unfold bind at 1. unfold query, stmt.
    destruct (budget s) as [[|n]|] eqn:Eb; [congruence | |];
      rewrite Huser, Hpw; cbn [negb hd_error]; unfold bind at 1;
      subst s1; rewrite ?Eb; simpl option_map;
      destruct (migrate_guest_cart c user _); reflexivity. }
  split; [exact Hrun|]. split.
  - intros e s2 Hthrow. rewrite Hrun, Hthrow. simpl.
    destruct (errorHandler_internal c e) as [H1 [H2 H3]]. auto.
  - intros u s2 Hdone. rewrite Hrun, Hdone. reflexivity.
Qed.

Lemma login_outcome_follows_merge_witness :
  status (fst (auth_login sample_compare sample_sign sample_is_email login_ctx
                 "ann@example.com" "pw1" (mkStore db_merge (Some 5%nat)))) = 500.
Proof.
  destruct (@login_outcome_follows_merge sample_compare sample_sign sample_is_email login_ctx
              "ann@example.com" "pw1" (mkStore db_merge (Some 5%nat)) user1
              eq_refl ltac:(discriminate) eq_refl eq_refl)
    as [_ [Hthrow _]].
  exact (proj1 (Hthrow ConnectionFailure (mkStore db_merge (Some 0%nat)) eq_refl)).
Defined.

(** C5 as stated fails: valid credentials and a guest cart to merge, on a
    store that fails at the merge loop's update (its sixth statement): the
    login answers 500 with an error body, not 200 with a token, although the
    same request on a reliable store is answered 200. *)
Lemma merge_failure_aborts_login :
  status (fst (auth_login sample_compare sample_sign sample_is_email login_ctx
                 "ann@example.com" "pw1" (mkStore db_merge (Some 5%nat)))) = 500
  /\ body (fst (auth_login sample_compare sample_sign sample_is_email login_ctx
                  "ann@example.com" "pw1" (mkStore db_merge (Some 5%nat))))
     = Failure "Internal server error"
  /\ status (fst (auth_login sample_compare sample_sign sample_is_email login_ctx
                    "ann@example.com" "pw1" (mkStore db_merge (Some 5%nat)))) <> 200
  /\ status (fst (auth_login sample_compare sample_sign sample_is_email login_ctx
                    "ann@example.com" "pw1" (reliable db_merge))) = 200.
Proof. repeat split; vm_compute; discriminate. Qed.

(** ** Runs on the sample stores *)

Lemma add_to_existing_line_witness :
  cartItems (db (snd (cart_post_items (sample_ctx (Some 1) None) 1 3 (reliable db_ready))))
  = [CartItem.mk 1 1 1 5; CartItem.mk 2 1 3 3]
  /\ (status (fst (cart_post_items (sample_ctx (Some 1) None) 1 4 (reliable db_ready))) = 200
      <-> 2 + 4 <= 5)
  /\ cartItems (db (snd (cart_post_items (sample_ctx (Some 1) None) 1 4 (reliable db_ready))))
     = [CartItem.mk 1 1 1 2; CartItem.mk 2 1 3 3].
Proof.
  assert (Hrange : Product.stockQuantity productA <= 2147483647) by (simpl; lia).
  split; [|split].
  - destruct (@add_to_existing_line (sample_ctx (Some 1) None) 1 3 db_ready
                productA cart1 (CartItem.mk 1 1 1 2)
                eq_refl eq_refl eq_refl eq_refl eq_refl Hrange) as [_ [Hok _]].
    destruct Hok as [_ [Hlines _]]; [simpl; lia|].
    rewrite Hlines. reflexivity.
  - exact (proj1 (@add_to_existing_line (sample_ctx (Some 1) None) 1 4 db_ready
                    productA cart1 (CartItem.mk 1 1 1 2)
                    eq_refl eq_refl eq_refl eq_refl eq_refl Hrange)).
  - destruct (@add_to_existing_line (sample_ctx (Some 1) None) 1 4 db_ready
                productA cart1 (CartItem.mk 1 1 1 2)
                eq_refl eq_refl eq_refl eq_refl eq_refl Hrange) as [_ [_ Hshort]].
    destruct Hshort as [_ [Hlines _]]; [simpl; lia|].
    rewrite Hlines. reflexivity.
Defined.

Lemma cart_identity_invariant_witness :
  Forall (fun k' => Cart.id k' = Cart.id cart1 ->
                    Cart.userId k' = Some 1 /\ Cart.sessionId k' = None)
         (carts (db (snd (handle sample_compare sample_sign sample_is_email login_ctx
                            (Login "ann@example.com" "pw1") (reliable db_merge))))).
Proof.
  destruct (@cart_identity_invariant sample_compare sample_sign sample_is_email login_ctx
              (Login "ann@example.com" "pw1") (reliable db_merge) ltac:(discriminate))
    as [_ [_ [Hsame _]]].
  apply Forall_forall. intros k' Hk' Hid.
  apply (Hsame eq_refl eq_refl cart1 k'); [left; reflexivity | exact Hk' | exact Hid].
Defined.

(** The login that merges the guest cart of session "guest-7" leaves the
    user's cart alone and no row for the guest cart: the guest cart is
    deleted, not handed over. *)
Example merged_guest_cart_is_deleted :
  map identity
      (carts (db (snd (handle sample_compare sample_sign sample_is_email login_ctx
                         (Login "ann@example.com" "pw1") (reliable db_merge)))))
  = [(1, Some 1, None)].
Proof. reflexivity. Qed.

(** Adding on top of a line: 2 + 3 fits the stock of 5, 2 + 4 does not and
    leaves the line at 2. *)
Example add_to_existing_line_sample :
  map CartItem.quantity
      (cartItems (db (snd (cart_post_items (sample_ctx (Some 1) None) 1 3 (reliable db_ready)))))
  = [5; 3]
  /\ fst (cart_post_items (sample_ctx (Some 1) None) 1 4 (reliable db_ready))
     = json (Failure "Insufficient stock for updated quantity") 400
  /\ map CartItem.quantity
         (cartItems (db (snd (cart_post_items (sample_ctx (Some 1) None) 1 4 (reliable db_ready)))))
     = [2; 3].
Proof. repeat split. Qed.

(** A guest adding to a store without a cart for the session gets a cart row
    with the session id and no user id. *)
Example guest_cart_sample :
  map identity
      (carts (db (snd (handle sample_compare sample_sign sample_is_email
                         (sample_ctx None (Some "guest-9")) (AddItem 1 1)
                         (reliable db_merge)))))
  = [(1, Some 1, None); (2, None, Some "guest-7"); (3, None, Some "guest-9")].
Proof. reflexivity. Qed.

(** A store failing one statement later, at the deletion of the guest lines:
    the login is answered 500 while the user's line already holds 5 and the
    guest cart still holds its 3. *)
Example partial_merge_stays :
  status (fst (auth_login sample_compare sample_sign sample_is_email login_ctx
                 "ann@example.com" "pw1" (mkStore db_merge (Some 6%nat)))) = 500
  /\ cartItems (db (snd (auth_login sample_compare sample_sign sample_is_email login_ctx
                           "ann@example.com" "pw1" (mkStore db_merge (Some 6%nat)))))
     = [CartItem.mk 1 1 1 5; CartItem.mk 2 2 1 3]
  /\ carts (db (snd (auth_login sample_compare sample_sign sample_is_email login_ctx
                       "ann@example.com" "pw1" (mkStore db_merge (Some 6%nat)))))
     = [cart1; guest_cart].
Proof. repeat split. Qed.

(** * Further properties *)

(** ** What the handlers leave alone *)

Lemma respects_ret {A} (R : DB -> DB -> Prop) (a : A) :
  (forall d, R d d) -> respects R (ret a).
Proof. intros Hrefl s. apply Hrefl. Qed.

Lemma respects_bind {A B} (R : DB -> DB -> Prop) (m : M A) (k : A -> M B) :
  (forall d1 d2 d3, R d1 d2 -> R d2 d3 -> R d1 d3) ->
  respects R m -> (forall a, respects R (k a)) -> respects R (bind m k).
Proof.
  intros Htrans Hm Hk s. unfold bind. specialize (Hm s).
  destruct (m s) as [a s' | e s']; simpl in *; [|exact Hm].
  eapply Htrans; [exact Hm | apply Hk].
Qed.

Lemma respects_stmt {A} (R : DB -> DB -> Prop) (q : DB -> DbError * DB + A * DB) :
  (forall d, R d d) ->
  (forall d, match q d with inl (_, d') => R d d' | inr (_, d') => R d d' end) ->
  respects R (stmt q).
Proof.
  intros Hrefl H s. unfold stmt.
  destruct (budget s) as [[|n]|]; simpl; try apply Hrefl;
    specialize (H (db s)); destruct (q (db s)) as [[e d'] | [a d']]; simpl; exact H.
Qed.

Lemma respects_for_each {A} (R : DB -> DB -> Prop) (xs : list A) (f : A -> M unit) :
  (forall d, R d d) ->
  (forall d1 d2 d3, R d1 d2 -> R d2 d3 -> R d1 d3) ->
  (forall x, respects R (f x)) -> respects R (for_each xs f).
Proof.
  intros Hrefl Htrans H. induction xs as [|x xs IH]; simpl.
  - apply respects_ret. exact Hrefl.
  - apply respects_bind; [exact Htrans | apply H | intros _; exact IH].
Qed.

Lemma respects_run (R : DB -> DB -> Prop) (c : Ctx) (m : M Response) (s : Store) :
  respects R m -> R (db s) (db (snd (run c m s))).
Proof. intros H. rewrite run_store. apply H. Qed.

Lemma respects_try_catch (R : DB -> DB -> Prop) (m : M Response) (msg : string) (s : Store) :
  respects R m -> R (db s) (db (snd (try_catch m msg s))).
Proof. intros H. rewrite try_catch_store. apply H. Qed.

Lemma same_catalog_and_orders_refl (d : DB) : same_catalog_and_orders d d.
Proof. repeat split. Qed.

Lemma same_catalog_and_orders_trans (d1 d2 d3 : DB) :
  same_catalog_and_orders d1 d2 -> same_catalog_and_orders d2 d3 ->
  same_catalog_and_orders d1 d3.
Proof.
  unfold same_catalog_and_orders. intros H12 H23.
  repeat match goal with H : _ /\ _ |- _ => destruct H end.
  repeat split; congruence.
Qed.

Lemma same_users_and_carts_refl (d : DB) : same_users_and_carts d d.
Proof. repeat split. Qed.

Lemma same_users_and_carts_trans (d1 d2 d3 : DB) :
  same_users_and_carts d1 d2 -> same_users_and_carts d2 d3 -> same_users_and_carts d1 d3.
Proof.
  unfold same_users_and_carts. intros [A1 [A2 A3]] [B1 [B2 B3]]. repeat split; congruence.
Qed.

(** Breaks a computation into its statements; [leaf] settles one statement. *)
Ltac respects_with refl trans leaf :=
  repeat first
    [ apply respects_ret; exact refl
    | apply respects_bind; [exact trans | | intros ?]
    | apply respects_for_each; [exact refl | exact trans | intros ?]
    | apply respects_stmt; [exact refl | intros ?; leaf]
    | match goal with
      | |- respects _ (match ?x with _ => _ end) => destruct x
      end ].

Ltac unfold_statements :=
  unfold getOrCreateCart, find_cart, buildCartResponse, migrate_guest_cart, merge_item,
    place_order, query, insert_cart, touch_cart, delete_cart, insert_cartItem,
    update_cartItem_quantity, delete_cartItems_of_cart, delete_cartItem,
    update_product_stock, insert_order, insert_orderItems, insert_orderStatusHistory;
  cbv zeta.

Ltac leaf_by_cases :=
  repeat match goal with
         | |- context [if ?b then _ else _] => destruct b
         end;
  try exact I; repeat split.

(** X1: only checkout writes to the catalogue and the order tables.  Every
    other core request (the cart routes, login with its merge, the order
    reads) leaves users, products and their stock, product images, orders,
    order lines and status history exactly as they were, on any store,
    failing or not. *)
Theorem only_checkout_touches_stock_and_orders
    (comparePassword : string -> string -> bool)
    (signJWT : JWTPayload -> string -> string)
    (is_email : string -> bool)
    (c : Ctx) (r : Request) (s : Store) :
  is_checkout r = false ->
  same_catalog_and_orders (db s) (db (snd (handle comparePassword signJWT is_email c r s))).
Proof.
  intros Hr.
  pose proof same_catalog_and_orders_refl as Hrefl.
  pose proof same_catalog_and_orders_trans as Htrans.
  destruct r; try discriminate Hr; simpl handle.
  - unfold cart_get. apply respects_try_catch. unfold_statements.
    respects_with Hrefl Htrans leaf_by_cases.
  - unfold cart_post_items.
    destruct (addToCartSchema productId quantity); [|apply Hrefl].
    apply respects_try_catch. unfold_statements.
    respects_with Hrefl Htrans leaf_by_cases.
  - unfold cart_put_item.
    destruct (updateCartItemSchema quantity); [|apply Hrefl].
    apply respects_try_catch. unfold_statements.
    respects_with Hrefl Htrans leaf_by_cases.
  - unfold cart_delete_item. apply respects_try_catch. unfold_statements.
    respects_with Hrefl Htrans leaf_by_cases.
  - unfold cart_delete. apply respects_try_catch. unfold_statements.
    respects_with Hrefl Htrans leaf_by_cases.
  - unfold auth_login.
    destruct (loginSchema is_email email password); [|apply Hrefl].
    apply respects_run. unfold_statements.
    respects_with Hrefl Htrans leaf_by_cases.
  - unfold orders_get_id.
    destruct (bearer c); [|apply Hrefl].
    destruct (orderIdParamsSchema id); [|apply Hrefl].
    apply respects_run. unfold_statements.
    respects_with Hrefl Htrans leaf_by_cases.
  - unfold orders_get_id_status.
    destruct (bearer c); [|apply Hrefl].
    destruct (orderIdParamsSchema id); [|apply Hrefl].
    apply respects_run. unfold_statements.
    respects_with Hrefl Htrans leaf_by_cases.
Qed.

Lemma only_checkout_touches_stock_and_orders_witness :
  same_catalog_and_orders db_merge
    (db (snd (handle sample_compare sample_sign sample_is_email login_ctx
                (Login "ann@example.com" "pw1") (mkStore db_merge (Some 6%nat))))).
Proof.
  apply (only_checkout_touches_stock_and_orders sample_compare sample_sign sample_is_email
           login_ctx (Login "ann@example.com" "pw1") (mkStore db_merge (Some 6%nat))).
  reflexivity.
Defined.

(** X2: the two order read routes never write: whatever the caller, the id
    and the state of the store, the tables after the request are the tables
    before it. *)
Theorem order_reads_never_write
    (comparePassword : string -> string -> bool)
    (signJWT : JWTPayload -> string -> string)
    (is_email : string -> bool)
    (c : Ctx) (r : Request) (s : Store) :
  is_order_read r = true ->
  db (snd (handle comparePassword signJWT is_email c r s)) = db s.
Proof.
  intros Hr.
  assert (Hrefl : forall d : DB, (fun d1 d2 => d2 = d1) d d) by reflexivity.
  assert (Htrans : forall d1 d2 d3 : DB,
            (fun a b => b = a) d1 d2 -> (fun a b => b = a) d2 d3 -> (fun a b => b = a) d1 d3)
    by (simpl; intros; congruence).
  destruct r; try discriminate Hr; simpl handle.
  - unfold orders_get_id.
    destruct (bearer c); [|reflexivity].
    destruct (orderIdParamsSchema id); [|reflexivity].
    apply (respects_run (fun d1 d2 => d2 = d1)). unfold_statements.
    respects_with Hrefl Htrans leaf_by_cases.
  - unfold orders_get_id_status.
    destruct (bearer c); [|reflexivity].
    destruct (orderIdParamsSchema id); [|reflexivity].
    apply (respects_run (fun d1 d2 => d2 = d1)). unfold_statements.
    respects_with Hrefl Htrans leaf_by_cases.
Qed.

Lemma order_reads_never_write_witness :
  db (snd (handle sample_compare sample_sign sample_is_email (sample_ctx (Some 2) None)
             (GetOrder 1) (mkStore db_one_order (Some 1%nat))))
  = db_one_order.
Proof.
  apply (order_reads_never_write sample_compare sample_sign sample_is_email
           (sample_ctx (Some 2) None) (GetOrder 1) (mkStore db_one_order (Some 1%nat))).
  reflexivity.
Defined.

(** X3: checkout never touches the users or the carts table: on any store,
    failing or not, the caller's cart row is still there afterwards with the
    same columns (checkout empties the cart's lines, it does not delete the
    cart nor refresh its expiry), and the carts sequence has not moved. *)
Theorem checkout_leaves_cart_rows (c : Ctx) (b : CheckoutBody) (s : Store) :
  same_users_and_carts (db s) (db (snd (checkout_post c b s))).
Proof.
  pose proof same_users_and_carts_refl as Hrefl.
  pose proof same_users_and_carts_trans as Htrans.
  unfold checkout_post.
  destruct (bearer c); [|apply Hrefl].
  destruct (checkoutSchema b); [|apply Hrefl].
  apply respects_run. unfold_statements.
  respects_with Hrefl Htrans leaf_by_cases.
Qed.

(** ** Updating and removing a line *)

Lemma hd_error_map {A B} (f : A -> B) (l : list A) :
  hd_error (map f l) = option_map f (hd_error l).
Proof. destruct l; reflexivity. Qed.

Lemma caller_cart_touched (c : Ctx) (cart : Cart.t) (d : DB) :
  caller_cart c d = Some cart ->
  caller_cart c (touched c cart d) = Some (touch (getExpirationDate c) (now c) cart).
Proof.
  unfold caller_cart. simpl carts.
  destruct (truthy_num (getUserIdFromToken c)).
  - intros H. rewrite filter_map_commute.
    + rewrite hd_error_map, H. simpl. rewrite Z.eqb_refl. reflexivity.
    + intros k. destruct (Cart.id k =? Cart.id cart); reflexivity.
  - destruct (truthy_str (session_of c)); [|discriminate].
    intros H. rewrite filter_map_commute.
    + rewrite hd_error_map, H. simpl. rewrite Z.eqb_refl. reflexivity.
    + intros k. destruct (Cart.id k =? Cart.id cart); reflexivity.
Qed.

(** The table after [PUT /cart/items/:id] set line [itemId] to [quantity]. *)
Lemma cart_put_item_run (c : Ctx) (itemId quantity : Z) (d : DB) (cart : Cart.t) :
  1 <= quantity ->
  caller_cart c d = Some cart ->
  cart_put_item c (Some itemId) quantity (reliable d)
  = match hd_error (filter (owned_line itemId (Cart.id cart)) (cartItems d)) with
    | None => (json (Failure "Cart item not found") 404, reliable (touched c cart d))
    | Some cartItem =>
        match hd_error (filter (fun p => Product.id p =? CartItem.productId cartItem)
                               (products d)) with
        | None => (json (Failure "Product not found") 404, reliable (touched c cart d))
        | Some product =>
            if quantity >? Product.stockQuantity product
            then (json (Failure "Insufficient stock") 400, reliable (touched c cart d))
            else if int4 quantity
            then
              (json (CartBody
                       (cart_view (Cart.id cart)
                          (cart_rows (Cart.id cart)
                             (with_cartItems
                                (map (fun it => if CartItem.id it =? itemId
                                                then set_quantity quantity it else it))
                                (cartItems_seq d) (touched c cart d))))) 200,
               reliable (with_cartItems
                           (map (fun it => if CartItem.id it =? itemId
                                           then set_quantity quantity it else it))
                           (cartItems_seq d) (touched c cart d)))
            else (json (Failure "Failed to update cart item") 500,
                  reliable (touched c cart d))
        end
    end.
Proof.
  intros Hq Hcart.
  assert (Hv : updateCartItemSchema quantity = true) by (apply Z.leb_le; exact Hq).
  unfold cart_put_item. rewrite Hv. unfold try_catch.
  unfold bind at 1. rewrite (getOrCreateCart_found c d cart Hcart).
  rewrite bind_query. cbn [fst].
  replace (cartItems (touched c cart d)) with (cartItems d) by reflexivity.
  destruct (hd_error (filter (owned_line itemId (Cart.id cart)) (cartItems d)))
    as [cartItem|]; [|reflexivity].
  rewrite bind_query.
  replace (products (touched c cart d)) with (products d) by reflexivity.
  destruct (hd_error (filter (fun p => Product.id p =? CartItem.productId cartItem)
                             (products d))) as [product|]; [|reflexivity].
  destruct (quantity >? Product.stockQuantity product); [reflexivity|].
  unfold bind at 1. unfold update_cartItem_quantity. rewrite stmt_reliable.
  destruct (int4 quantity); [|reflexivity]. cbn [negb].
  rewrite (proj2 (Z.leb_gt _ _)) by lia. rewrite andb_false_r. reflexivity.
Qed.

Lemma cart_delete_item_run (c : Ctx) (itemId : Z) (d : DB) (cart : Cart.t) :
  caller_cart c d = Some cart ->
  cart_delete_item c (Some itemId) (reliable d)
  = match hd_error (filter (owned_line itemId (Cart.id cart)) (cartItems d)) with
    | None => (json (Failure "Cart item not found") 404, reliable (touched c cart d))
    | Some _ =>
        (json (CartBody
                 (cart_view (Cart.id cart)
                    (cart_rows (Cart.id cart)
                       (with_cartItems
                          (filter (fun it => negb (CartItem.id it =? itemId)))
                          (cartItems_seq d) (touched c cart d))))) 200,
         reliable (with_cartItems
                     (filter (fun it => negb (CartItem.id it =? itemId)))
                     (cartItems_seq d) (touched c cart d)))
    end.
Proof.
  intros Hcart. unfold cart_delete_item, try_catch.
  unfold bind at 1. rewrite (getOrCreateCart_found c d cart Hcart).
  rewrite bind_query. cbn [fst].
  replace (cartItems (touched c cart d)) with (cartItems d) by reflexivity.
  destruct (hd_error (filter (owned_line itemId (Cart.id cart)) (cartItems d)));
    reflexivity.
Qed.

(** X4: a line that exists but belongs to another cart cannot be updated or
    removed through the caller's cart: both requests answer 404 "Cart item
    not found", as for a line that does not exist, and the cart-items table
    is unchanged, so the other cart keeps its line and its quantity. *)
Theorem foreign_line_is_out_of_reach
    (c : Ctx) (itemId quantity : Z) (d : DB) (cart : Cart.t) (line : CartItem.t) :
  1 <= quantity ->
  caller_cart c d = Some cart ->
  cartItems_pkey d = true ->
  In line (cartItems d) ->
  CartItem.id line = itemId ->
  CartItem.cartId line <> Cart.id cart ->
  fst (cart_put_item c (Some itemId) quantity (reliable d))
  = json (Failure "Cart item not found") 404
  /\ fst (cart_delete_item c (Some itemId) (reliable d))
     = json (Failure "Cart item not found") 404
  /\ cartItems (db (snd (cart_put_item c (Some itemId) quantity (reliable d)))) = cartItems d
  /\ cartItems (db (snd (cart_delete_item c (Some itemId) (reliable d)))) = cartItems d
  /\ In line (cartItems (db (snd (cart_delete_item c (Some itemId) (reliable d))))).
Proof.
  intros Hq Hcart Hpk Hin Hid Hother.
  assert (Hnone : filter (owned_line itemId (Cart.id cart)) (cartItems d) = []).
  { apply filter_none. intros x Hx. unfold owned_line.
    destruct (CartItem.id x =? itemId) eqn:E; [|reflexivity].
    apply Z.eqb_eq in E.
    assert (x = line)
      by (apply (same_key_same_row CartItem.id (cartItems d)); try assumption; congruence).
    subst x. simpl. apply Z.eqb_neq. exact Hother. }
  rewrite (cart_put_item_run c itemId quantity d cart Hq Hcart).
  rewrite (cart_delete_item_run c itemId d cart Hcart).
  rewrite Hnone. simpl. repeat split. exact Hin.
Qed.

Lemma foreign_line_is_out_of_reach_witness :
  fst (cart_put_item (sample_ctx (Some 1) None) (Some 2) 1 (reliable db_merge))
  = json (Failure "Cart item not found") 404
  /\ In (CartItem.mk 2 2 1 3)
        (cartItems (db (snd (cart_delete_item (sample_ctx (Some 1) None) (Some 2)
                               (reliable db_merge))))).
Proof.
  destruct (foreign_line_is_out_of_reach (sample_ctx (Some 1) None) 2 1 db_merge cart1
              (CartItem.mk 2 2 1 3))
    as [H1 [_ [_ [_ H5]]]];
    [ lia | reflexivity | reflexivity | right; left; reflexivity | reflexivity
    | discriminate | ].
  split; [exact H1 | exact H5].
Defined.

(** X5: [PUT /cart/items/:id] on a line of the caller's cart succeeds exactly
    when the requested quantity is within the product's stock and within the
    range of the integer column that holds it (as any quantity within a
    stored stock is), whatever the line held before.  On success the line
    holds the requested quantity (it replaces, it does not add) and the other
    lines are as they were; sending the same update again changes nothing
    more.  Beyond the stock the answer is 400 "Insufficient stock" and no
    line changes; within a stock but beyond the column the update is refused,
    the answer is 500 and no line changes. *)
Theorem update_replaces_quantity
    (c : Ctx) (itemId quantity : Z) (d : DB)
    (cart : Cart.t) (line : CartItem.t) (product : Product.t) :
  1 <= quantity ->
  caller_cart c d = Some cart ->
  hd_error (filter (owned_line itemId (Cart.id cart)) (cartItems d)) = Some line ->
  hd_error (filter (fun p => Product.id p =? CartItem.productId line) (products d))
  = Some product ->
  let r := cart_put_item c (Some itemId) quantity (reliable d) in
  let set := fun it => if CartItem.id it =? itemId then set_quantity quantity it else it in
  (status (fst r) = 200
   <-> quantity <= Product.stockQuantity product /\ quantity <= 2147483647)
  /\ (quantity <= Product.stockQuantity product ->
      quantity <= 2147483647 ->
      cartItems (db (snd r)) = map set (cartItems d)
      /\ In (set_quantity quantity line) (cartItems (db (snd r)))
      /\ status (fst (cart_put_item c (Some itemId) quantity (snd r))) = 200
      /\ cartItems (db (snd (cart_put_item c (Some itemId) quantity (snd r))))
         = cartItems (db (snd r)))
  /\ (Product.stockQuantity product < quantity ->
      fst r = json (Failure "Insufficient stock") 400
      /\ cartItems (db (snd r)) = cartItems d)
  /\ (quantity <= Product.stockQuantity product ->
      2147483647 < quantity ->
      fst r = json (Failure "Failed to update cart item") 500
      /\ cartItems (db (snd r)) = cartItems d).
Proof.
  intros Hq Hcart Hline Hprod r set.
  pose proof (cart_put_item_run c itemId quantity d cart Hq Hcart) as Hrun.
  rewrite Hline, Hprod in Hrun. fold r in Hrun.
  destruct (hd_error_filter_in _ _ _ Hline) as [Hin Hown].
  unfold owned_line in Hown. apply andb_true_iff in Hown as [Hid Hcid].
  destruct (quantity >? Product.stockQuantity product) eqn:E.
  - apply Z.gtb_lt in E. rewrite Hrun. simpl.
    split; [split; [discriminate | lia]|]. split; [lia|]. split; [auto | lia].
  - assert (Hle : quantity <= Product.stockQuantity product).
    { destruct (Z.gtb_spec quantity (Product.stockQuantity product)); [discriminate | lia]. }
    destruct (Z_le_gt_dec quantity 2147483647) as [Hmax | Hmax].
    2:{ (* within stock, beyond the column *)
      assert (Hfit : int4 quantity = false).
      { unfold int4. apply andb_false_iff. right. apply Z.leb_gt. lia. }
      rewrite Hfit in Hrun. rewrite Hrun. simpl.
      split; [split; [discriminate | lia]|]. split; [lia|]. split; [lia | auto]. }
    assert (Hfit : int4 quantity = true) by (apply int4_between; lia).
    rewrite Hfit in Hrun.
    split; [rewrite Hrun; simpl; tauto|]. split; [|split; lia].
    intros _ _.
    assert (Hitems : cartItems (db (snd r)) = map set (cartItems d))
      by (rewrite Hrun; reflexivity).
    split; [exact Hitems|]. split.
    { rewrite Hitems. apply in_map_iff. exists line. unfold set. rewrite Hid. auto. }
    (* the same update once more *)
    set (d1 := with_cartItems (map set) (cartItems_seq d) (touched c cart d)).
    assert (Hr : snd r = reliable d1) by (rewrite Hrun; reflexivity).
    assert (Hcart1 : caller_cart c d1
                     = Some (touch (getExpirationDate c) (now c) cart))
      by (apply (caller_cart_touched c cart d Hcart)).
    pose proof (cart_put_item_run c itemId quantity d1 _ Hq Hcart1) as Hrun1.
    simpl Cart.id in Hrun1.
    assert (Hline1 : hd_error (filter (owned_line itemId (Cart.id cart)) (cartItems d1))
                     = Some (set_quantity quantity line)).
    { unfold d1. simpl cartItems. rewrite filter_map_commute.
      - rewrite hd_error_map, Hline. simpl. unfold set. rewrite Hid. reflexivity.
      - intros x. unfold set. destruct (CartItem.id x =? itemId); reflexivity. }
    rewrite Hline1 in Hrun1. simpl CartItem.productId in Hrun1.
    replace (products d1) with (products d) in Hrun1 by reflexivity.
    rewrite Hprod, E, Hfit in Hrun1.
    rewrite Hr, Hrun1. simpl. split; [reflexivity|].
    rewrite map_map. apply map_ext. intros x. unfold set.
    destruct (CartItem.id x =? itemId) eqn:Ex; simpl; rewrite Ex; reflexivity.
Qed.

Lemma update_replaces_quantity_witness :
  cartItems (db (snd (cart_put_item (sample_ctx (Some 1) None) (Some 1) 5 (reliable db_ready))))
  = [CartItem.mk 1 1 1 5; CartItem.mk 2 1 3 3].
Proof.
  destruct (update_replaces_quantity (sample_ctx (Some 1) None) 1 5 db_ready cart1
              (CartItem.mk 1 1 1 2) productA)
    as [_ [Hok _]]; [ lia | reflexivity | reflexivity | reflexivity | ].
  exact (proj1 (Hok ltac:(simpl; lia) ltac:(lia))).
Defined.

(** X6: [DELETE /cart/items/:id] on a line of the caller's cart answers 200
    and removes that line and no other; asking again for the same line
    answers 404 "Cart item not found". *)
Theorem remove_deletes_the_line
    (c : Ctx) (itemId : Z) (d : DB) (cart : Cart.t) (line : CartItem.t) :
  caller_cart c d = Some cart ->
  hd_error (filter (owned_line itemId (Cart.id cart)) (cartItems d)) = Some line ->
  let r := cart_delete_item c (Some itemId) (reliable d) in
  status (fst r) = 200
  /\ cartItems (db (snd r)) = filter (fun it => negb (CartItem.id it =? itemId)) (cartItems d)
  /\ ~ In line (cartItems (db (snd r)))
  /\ (forall it, In it (cartItems d) -> CartItem.id it <> itemId ->
        In it (cartItems (db (snd r))))
  /\ fst (cart_delete_item c (Some itemId) (snd r))
     = json (Failure "Cart item not found") 404.
Proof.
  intros Hcart Hline r.
  pose proof (cart_delete_item_run c itemId d cart Hcart) as Hrun.
  rewrite Hline in Hrun. fold r in Hrun.
  destruct (hd_error_filter_in _ _ _ Hline) as [Hin Hown].
  unfold owned_line in Hown. apply andb_true_iff in Hown as [Hid _].
  assert (Hitems : cartItems (db (snd r))
                   = filter (fun it => negb (CartItem.id it =? itemId)) (cartItems d))
    by (rewrite Hrun; reflexivity).
  split; [rewrite Hrun; reflexivity|]. split; [exact Hitems|]. split; [|split].
  - rewrite Hitems. intros H. apply filter_In in H as [_ H]. rewrite Hid in H. discriminate.
  - intros it Hit Hne. rewrite Hitems. apply filter_In. split; [exact Hit|].
    apply negb_true_iff. apply Z.eqb_neq. exact Hne.
  - set (d1 := with_cartItems (filter (fun it => negb (CartItem.id it =? itemId)))
                 (cartItems_seq d) (touched c cart d)).
    assert (Hr : snd r = reliable d1) by (rewrite Hrun; reflexivity).
    assert (Hcart1 : caller_cart c d1 = Some (touch (getExpirationDate c) (now c) cart))
      by (apply (caller_cart_touched c cart d Hcart)).
    rewrite Hr, (cart_delete_item_run c itemId d1 _ Hcart1).
    rewrite filter_none; [reflexivity|].
    intros x Hx. unfold d1 in Hx. simpl in Hx. apply filter_In in Hx as [_ Hx].
    unfold owned_line. apply negb_true_iff in Hx. rewrite Hx. reflexivity.
Qed.

Lemma remove_deletes_the_line_witness :
  cartItems (db (snd (cart_delete_item (sample_ctx (Some 1) None) (Some 1) (reliable db_ready))))
  = [CartItem.mk 2 1 3 3].
Proof.
  exact (proj1 (proj2 (remove_deletes_the_line (sample_ctx (Some 1) None) 1 db_ready cart1
                         (CartItem.mk 1 1 1 2) eq_refl eq_refl))).
Defined.

(** ** Adding a first line *)






(** ** Checkout: rejections *)



(** ** Checkout: what it leaves behind *)

Lemma checkout_post_run
    (c : Ctx) (b : CheckoutBody) (d : DB) (userId : Z) (cart : Cart.t) :
  bearer c = Some userId ->
  checkoutSchema b = true ->
  hd_error (filter (fun k => col_eqZ (Cart.userId k) (Some userId)) (carts d)) = Some cart ->
  cart_lines (Cart.id cart) d <> [] ->
  (forall line, In line (cart_lines (Cart.id cart) d) ->
     CartItem.quantity (fst line) <= Product.stockQuantity (snd line)) ->
  numeric_10_2 (order_total (cart_lines (Cart.id cart) d)) = true ->
  existsb (fun o => String.eqb (Order.orderNumber o) (generateOrderNumber c)) (orders d) = false ->
  products_pkey d = true ->
  unique_cart_item d = true ->
  cart_quantity_check d = true ->
  status (fst (checkout_post c b (reliable d))) = 201
  /\ snd (checkout_post c b (reliable d)) = reliable (after_checkout c userId b cart d).
Proof.
  intros Hb Hv Hcart Hne Hstock Hfit Hfresh Hpk Hu Hq.
  rewrite (checkout_post_reaches_stock_check c b d userId cart Hb Hv Hcart Hne).
  rewrite find_none_forall.
  2:{ intros l Hl. unfold short_of_stock. apply Z.ltb_ge. apply Hstock. exact Hl. }
  unfold run, bind.
  rewrite (place_order_run c b d userId cart Hstock Hfresh Hfit Hpk Hu Hq).
  split; reflexivity.
Qed.

Lemma distinct_by_filter {A} (same : A -> A -> bool) (f : A -> bool) (l : list A) :
  distinct_by same l = true -> distinct_by same (filter f l) = true.
Proof.
  induction l as [|a l IH]; intros H; [reflexivity|].
  simpl in H. apply andb_true_iff in H as [Ha Hl]. apply negb_true_iff in Ha.
  simpl. destruct (f a); [|apply IH; exact Hl].
  simpl. rewrite (IH Hl), andb_true_r. apply negb_true_iff.
  destruct (existsb (same a) (filter f l)) eqn:E; [|reflexivity].
  apply existsb_exists in E as [x [Hx Hs]]. apply filter_In in Hx as [Hx _].
  assert (existsb (same a) l = true) by (apply existsb_exists; eauto).
  congruence.
Qed.

Lemma quantity_of_single (k : Z) (items : list CartItem.t) (it : CartItem.t) :
  distinct_by (fun a b => CartItem.productId a =? CartItem.productId b) items = true ->
  In it items ->
  CartItem.productId it = k ->
  quantity_of k items = CartItem.quantity it.
Proof.
  induction items as [|a l IH]; intros Hd Hin Hk; [destruct Hin|].
  simpl in Hd. apply andb_true_iff in Hd as [Ha Hl]. apply negb_true_iff in Ha.
  unfold quantity_of. simpl filter.
  destruct Hin as [-> | Hin].
  - rewrite (proj2 (Z.eqb_eq _ _) Hk). simpl.
    fold (quantity_of k l). rewrite quantity_of_absent; [lia|].
    rewrite <- Ha. apply existsb_same. intros b. rewrite Hk. apply Z.eqb_sym.
  - destruct (CartItem.productId a =? k) eqn:E.
    + exfalso. apply Z.eqb_eq in E.
      assert (existsb (fun b => CartItem.productId a =? CartItem.productId b) l = true).
      { apply existsb_exists. exists it. split; [exact Hin | apply Z.eqb_eq; congruence]. }
      congruence.
    + apply IH; assumption.
Qed.

(** What a cart holds of a product never exceeds what the stock check let
    through. *)
Lemma purchased_within_stock (cartId : Z) (d : DB) (p : Product.t) :
  unique_cart_item d = true ->
  (forall line, In line (cart_lines cartId d) ->
     CartItem.quantity (fst line) <= Product.stockQuantity (snd line)) ->
  In p (products d) ->
  0 <= Product.stockQuantity p ->
  0 <= Product.stockQuantity p - purchased cartId d p.
Proof.
  intros Hu Hstock Hp Hnonneg.
  rewrite purchased_quantity_of.
  destruct (existsb (fun it => CartItem.productId it =? Product.id p)
                    (filter (fun it => CartItem.cartId it =? cartId) (cartItems d))) eqn:E.
  - apply existsb_exists in E as [it [Hit Hk]]. apply Z.eqb_eq in Hk.
    rewrite (quantity_of_single (Product.id p) _ it
               (cart_products_distinct cartId (cartItems d) Hu) Hit Hk).
    assert (Hline : In (it, p) (cart_lines cartId d)).
    { rewrite cart_lines_flat_map. apply in_flat_map. exists it. split; [exact Hit|].
      unfold line_rows. apply in_map. apply filter_In. split; [exact Hp|].
      apply Z.eqb_eq. exact Hk. }
    specialize (Hstock _ Hline). simpl in Hstock. lia.
  - rewrite (quantity_of_absent _ _ E). lia.
Qed.

(** X9: a successful checkout leaves the store consistent again: no stock is
    negative (each product's stock is lowered by at most what it had), the
    product keys, the (cart, product) uniqueness, the quantity check and the
    product foreign key of the remaining cart lines all still hold. *)
Theorem checkout_keeps_the_store_consistent
    (c : Ctx) (b : CheckoutBody) (d : DB) (userId : Z) (cart : Cart.t) :
  bearer c = Some userId ->
  checkoutSchema b = true ->
  hd_error (filter (fun k => col_eqZ (Cart.userId k) (Some userId)) (carts d)) = Some cart ->
  cart_lines (Cart.id cart) d <> [] ->
  (forall line, In line (cart_lines (Cart.id cart) d) ->
     CartItem.quantity (fst line) <= Product.stockQuantity (snd line)) ->
  existsb (fun o => String.eqb (Order.orderNumber o) (generateOrderNumber c)) (orders d) = false ->
  products_pkey d = true ->
  unique_cart_item d = true ->
  cart_quantity_check d = true ->
  cartItems_product_fkey d = true ->
  stock_quantity_check d = true ->
  let d' := db (snd (checkout_post c b (reliable d))) in
  stock_quantity_check d' = true
  /\ products_pkey d' = true
  /\ unique_cart_item d' = true
  /\ cart_quantity_check d' = true
  /\ cartItems_product_fkey d' = true.
Proof.
  intros Hb Hv Hcart Hne Hstock Hfresh Hpk Hu Hq Hfk Hs d'.
  destruct (numeric_10_2 (order_total (cart_lines (Cart.id cart) d))) eqn:Hfit.
  2:{ (* the total does not fit its column: the order insert is refused *)
    assert (Hrun : snd (checkout_post c b (reliable d)) = reliable d).
    { rewrite (checkout_post_reaches_stock_check c b d userId cart Hb Hv Hcart Hne).
      rewrite find_none_forall.
      2:{ intros l Hl. unfold short_of_stock. apply Z.ltb_ge. apply Hstock. exact Hl. }
      unfold run, place_order. cbv zeta.
      unfold bind at 1. unfold bind at 1. unfold insert_order.
      rewrite stmt_reliable, Hfit. reflexivity. }
    unfold d'. rewrite Hrun. simpl db. auto. }
  destruct (checkout_post_run c b d userId cart Hb Hv Hcart Hne Hstock Hfit Hfresh Hpk Hu Hq)
    as [_ Hrun].
  unfold d'. rewrite Hrun. simpl db.
  unfold stock_quantity_check, products_pkey, unique_cart_item, cart_quantity_check,
    cartItems_product_fkey, after_checkout in *. simpl.
  rewrite forallb_forall in Hs, Hq, Hfk.
  repeat split.
  - apply forallb_forall. intros x Hx. apply in_map_iff in Hx as [p [<- Hp]].
    simpl. apply Z.leb_le.
    apply purchased_within_stock; [exact Hu | exact Hstock | exact Hp |].
    apply Z.leb_le. apply Hs. exact Hp.
  - rewrite distinct_by_map; [exact Hpk | reflexivity].
  - apply distinct_by_filter. exact Hu.
  - apply forallb_forall. intros x Hx. apply filter_In in Hx as [Hx _]. apply Hq. exact Hx.
  - apply forallb_forall. intros x Hx. apply filter_In in Hx as [Hx _].
    rewrite existsb_over_map. simpl. apply Hfk. exact Hx.
Qed.

Lemma checkout_keeps_the_store_consistent_witness :
  stock_quantity_check
    (db (snd (checkout_post (sample_ctx (Some 1) None) sample_body (reliable db_ready))))
  = true.
Proof.
  apply (checkout_keeps_the_store_consistent
           (sample_ctx (Some 1) None) sample_body db_ready 1 cart1);
    try reflexivity.
  - discriminate.
  - intros line Hin. vm_compute in Hin.
    destruct Hin as [<- | [<- | []]]; simpl; lia.
Defined.

(** X10: a successful checkout (stock sufficient, a total that fits the
    numeric(10,2) column of the order, a fresh order number) cannot be
    replayed: the same user checking out again, with any valid body and at
    any later moment, is answered 400 "Cart is empty" and nothing is written,
    so exactly one order came out of the cart. *)
Theorem checkout_twice_orders_once
    (c c2 : Ctx) (b b2 : CheckoutBody) (d : DB) (userId : Z) (cart : Cart.t) :
  bearer c = Some userId ->
  checkoutSchema b = true ->
  hd_error (filter (fun k => col_eqZ (Cart.userId k) (Some userId)) (carts d)) = Some cart ->
  cart_lines (Cart.id cart) d <> [] ->
  (forall line, In line (cart_lines (Cart.id cart) d) ->
     CartItem.quantity (fst line) <= Product.stockQuantity (snd line)) ->
  numeric_10_2 (order_total (cart_lines (Cart.id cart) d)) = true ->
  existsb (fun o => String.eqb (Order.orderNumber o) (generateOrderNumber c)) (orders d) = false ->
  products_pkey d = true ->
  unique_cart_item d = true ->
  cart_quantity_check d = true ->
  bearer c2 = Some userId ->
  checkoutSchema b2 = true ->
  let s1 := snd (checkout_post c b (reliable d)) in
  checkout_post c2 b2 s1 = (json (Failure "Cart is empty") 400, s1)
  /\ List.length (orders (db s1)) = S (List.length (orders d)).
Proof.
  intros Hb Hv Hcart Hne Hstock Hfit Hfresh Hpk Hu Hq Hb2 Hv2 s1.
  destruct (checkout_post_run c b d userId cart Hb Hv Hcart Hne Hstock Hfit Hfresh Hpk Hu Hq)
    as [_ Hrun].
  unfold s1. rewrite Hrun.
  split.
  - destruct (firstn_1_hd _ _ Hcart) as [rest Hrest].
    unfold checkout_post. rewrite Hb2, Hv2. unfold run.
    rewrite bind_query.
    replace (carts (after_checkout c userId b cart d)) with (carts d) by reflexivity.
    rewrite Hrest, bind_query.
    assert (Hempty : cart_lines (Cart.id cart) (after_checkout c userId b cart d) = []).
    { unfold cart_lines, after_checkout. simpl cartItems.
      rewrite filter_complement. reflexivity. }
    rewrite Hempty. reflexivity.
  - unfold after_checkout. simpl. rewrite length_app. simpl. lia.
Qed.

Lemma checkout_twice_orders_once_witness :
  checkout_post (sample_ctx (Some 1) None) sample_body
    (snd (checkout_post (sample_ctx (Some 1) None) sample_body (reliable db_ready)))
  = (json (Failure "Cart is empty") 400,
     snd (checkout_post (sample_ctx (Some 1) None) sample_body (reliable db_ready))).
Proof.
  apply (checkout_twice_orders_once
           (sample_ctx (Some 1) None) (sample_ctx (Some 1) None)
           sample_body sample_body db_ready 1 cart1);
    try reflexivity.
  - discriminate.
  - intros line Hin. vm_compute in Hin.
    destruct Hin as [<- | [<- | []]]; simpl; lia.
Defined.

(** ** Login: rejections and logins without a merge *)

(** X11: a login with an unknown e-mail and a login with a wrong password are
    answered alike, 401 "Invalid email or password", and neither touches the
    store: the guest cart named by the session id, if any, is not merged. *)
Theorem login_rejection_leaves_no_trace
    (comparePassword : string -> string -> bool)
    (signJWT : JWTPayload -> string -> string)
    (is_email : string -> bool)
    (c : Ctx) (email password : string) (d : DB) :
  loginSchema is_email email password = true ->
  (filter (fun u => String.eqb (User.email u) email) (users d) = []
   \/ exists user,
        hd_error (filter (fun u => String.eqb (User.email u) email) (users d)) = Some user
        /\ comparePassword password (User.passwordHash user) = false) ->
  auth_login comparePassword signJWT is_email c email password (reliable d)
  = (json (Failure "Invalid email or password") 401, reliable d).
Proof.
  intros Hschema Hwho. unfold auth_login. rewrite Hschema. unfold run.
  rewrite bind_query.
  destruct Hwho as [Hnone | [user [Huser Hpw]]].
  - rewrite Hnone. reflexivity.
  - rewrite Huser, Hpw. reflexivity.
Qed.

Lemma login_rejection_leaves_no_trace_witness :
  auth_login sample_compare sample_sign sample_is_email login_ctx
    "ann@example.com" "not-the-password" (reliable db_merge)
  = (json (Failure "Invalid email or password") 401, reliable db_merge).
Proof.
  apply (login_rejection_leaves_no_trace sample_compare sample_sign sample_is_email
           login_ctx "ann@example.com" "not-the-password" db_merge eq_refl).
  right. exists user1. split; reflexivity.
Defined.

(** X12: with valid credentials, the login is answered 200 with the token
    and leaves the store untouched whenever there is nothing to merge: no
    session id was sent, or no cart without a user carries it, or that guest
    cart has no lines.  In the last case the empty guest cart row is not
    deleted. *)
Theorem login_without_merge
    (comparePassword : string -> string -> bool)
    (signJWT : JWTPayload -> string -> string)
    (is_email : string -> bool)
    (c : Ctx) (email password : string) (d : DB) (user : User.t) :
  loginSchema is_email email password = true ->
  hd_error (filter (fun u => String.eqb (User.email u) email) (users d)) = Some user ->
  comparePassword password (User.passwordHash user) = true ->
  (truthy_str (login_sessionId c) = false
   \/ filter (is_guest_cart (login_sessionId c)) (carts d) = []
   \/ exists guest,
        hd_error (filter (is_guest_cart (login_sessionId c)) (carts d)) = Some guest
        /\ lines_of (Cart.id guest) d = []) ->
  auth_login comparePassword signJWT is_email c email password (reliable d)
  = (json (LoginBody
             (signJWT (mkJWTPayload (Z_to_string (User.id user)) (User.email user)
                                    (User.role user)) (JWT_SECRET c))
             user) 200,
     reliable d).
Proof.
  intros Hschema Huser Hpw Hskip.
  assert (Hmerge : migrate_guest_cart c user (reliable d) = Done tt (reliable d)).
  { unfold migrate_guest_cart. cbv zeta.
    destruct Hskip as [Hsid | [Hnone | [guest [Hguest Hlines]]]].
    - rewrite Hsid. reflexivity.
    - destruct (truthy_str (login_sessionId c)); [|reflexivity].
      rewrite bind_query. fold (is_guest_cart (login_sessionId c)). rewrite Hnone.
      reflexivity.
    - destruct (truthy_str (login_sessionId c)); [|reflexivity].
      rewrite bind_query. fold (is_guest_cart (login_sessionId c)). rewrite Hguest.
      rewrite bind_query. fold (lines_of (Cart.id guest) d). rewrite Hlines.
      reflexivity. }
  unfold auth_login. rewrite Hschema. unfold run.
  rewrite bind_query, Huser, Hpw. cbn [negb hd_error].
  unfold bind at 1. rewrite Hmerge. reflexivity.
Qed.

Lemma login_without_merge_witness :
  snd (auth_login sample_compare sample_sign sample_is_email (sample_ctx None None)
         "ann@example.com" "pw1" (reliable db_merge))
  = reliable db_merge.
Proof.
  rewrite (login_without_merge sample_compare sample_sign sample_is_email
             (sample_ctx None None) "ann@example.com" "pw1" db_merge user1
             eq_refl eq_refl eq_refl (or_introl eq_refl)).
  reflexivity.
Defined.

(** ** The cart view *)

Lemma fold_left_sum {A} (f : A -> Z) (l : list A) (a : Z) :
  fold_left (fun sum x => sum + f x) l a = a + fold_right Z.add 0 (map f l).
Proof.
  revert a. induction l as [|x l IH]; intros a; simpl; [lia|]. rewrite IH. lia.
Qed.

Lemma buildCartResponse_run (cartId : Z) (d : DB) :
  buildCartResponse cartId (reliable d)
  = Done (cart_view cartId (cart_rows cartId d)) (reliable d).
Proof. reflexivity. Qed.

(** With at most one primary image per product, the image join keeps each
    joined (line, product) pair once. *)
Lemma cart_rows_lines (cartId : Z) (d : DB) :
  one_primary_image d = true ->
  map fst (cart_rows cartId d) = cart_lines cartId d.
Proof.
  intros Himg. unfold one_primary_image in Himg. rewrite forallb_forall in Himg.
  unfold cart_rows, cart_lines.
  set (images := fun p : Product.t =>
                   filter (fun im => (ProductImage.productId im =? Product.id p)
                                     && ProductImage.isPrimary im) (productImages d)).
  set (rows := fun (it : CartItem.t) (p : Product.t) =>
                 match images p with
                 | [] => [(it, p, None)]
                 | imgs => map (fun im => (it, p, Some (ProductImage.url im))) imgs
                 end).
  assert (Hrow : forall it p, In p (products d) -> map fst (rows it p) = [(it, p)]).
  { intros it p Hp. specialize (Himg p Hp). unfold rows. fold (images p) in Himg.
    destruct (images p) as [|im [|im2 rest]]; simpl in *;
      [reflexivity | reflexivity | discriminate]. }
  assert (G : forall it ps, (forall p, In p ps -> In p (products d)) ->
                            map fst (flat_map (rows it) ps) = map (fun p => (it, p)) ps).
  { intros it. induction ps as [|p ps IHps]; intros Hsub; [reflexivity|].
    cbn [flat_map]. rewrite map_app, IHps by (intros; apply Hsub; right; assumption).
    rewrite Hrow by (apply Hsub; left; reflexivity). reflexivity. }
  change (map fst
            (flat_map (fun it => flat_map (rows it)
                                   (filter (fun p => CartItem.productId it =? Product.id p)
                                           (products d)))
                      (filter (fun it => CartItem.cartId it =? cartId) (cartItems d)))
          = flat_map (fun it => map (fun p => (it, p))
                                  (filter (fun p => CartItem.productId it =? Product.id p)
                                          (products d)))
                     (filter (fun it => CartItem.cartId it =? cartId) (cartItems d))).
  induction (filter (fun it => CartItem.cartId it =? cartId) (cartItems d)) as [|it items IH];
    [reflexivity|].
  cbn [flat_map]. rewrite map_app, IH. f_equal.
  apply G. intros p Hp. apply filter_In in Hp. tauto.
Qed.

(** X13: what [GET /cart] and every cart mutation show.  With product keys,
    the product foreign key and at most one primary image per product in
    force, the view of a cart lists each of its lines exactly once, with the
    live product price, the quantity and, as subtotal, the double product of
    the price as a number and the quantity; the item count is the sum of the
    line quantities and the total is the sum of the subtotals added up as
    doubles from 0 in the order of the lines, unrounded. *)
Theorem cart_view_matches_the_lines (cartId : Z) (d : DB) :
  products_pkey d = true ->
  cartItems_product_fkey d = true ->
  one_primary_image d = true ->
  let v := cart_view cartId (cart_rows cartId d) in
  buildCartResponse cartId (reliable d) = Done v (reliable d)
  /\ cr_id v = Some cartId
  /\ map ciw_id (cr_items v) = map CartItem.id (lines_of cartId d)
  /\ map (fun x => (ciw_id x, ciw_product_id x, ciw_product_price x, ciw_quantity x,
                    ciw_subtotal x)) (cr_items v)
     = map (fun l => (CartItem.id (fst l), Product.id (snd l), Product.price (snd l),
                      CartItem.quantity (fst l),
                      (number_of_cents (Product.price (snd l))
                       * float_of_Z (CartItem.quantity (fst l)))%float))
           (cart_lines cartId d)
  /\ cr_itemCount v = fold_right Z.add 0 (map CartItem.quantity (lines_of cartId d))
  /\ cr_total v
     = fold_left (fun sum l => (sum + number_of_cents (Product.price (snd l))
                                    * float_of_Z (CartItem.quantity (fst l)))%float)
                 (cart_lines cartId d) 0%float.
Proof.
  intros Hpk Hfk Himg v.
  pose proof (cart_rows_lines cartId d Himg) as Hrows.
  pose proof (cart_lines_one_per_line cartId d Hpk Hfk) as Hlines.
  fold (lines_of cartId d) in Hlines.
  split; [reflexivity|]. split; [reflexivity|]. split; [|split; [|split]].
  - rewrite <- Hlines, <- Hrows. unfold v, cart_view. simpl cr_items. rewrite !map_map.
    apply map_ext. intros [[it p] img]. reflexivity.
  - unfold v, cart_view. simpl cr_items. rewrite <- Hrows, !map_map.
    apply map_ext. intros [[it p] img]. reflexivity.
  - unfold v, cart_view. simpl cr_itemCount. rewrite fold_left_sum, Z.add_0_l.
    rewrite <- Hlines, <- Hrows, !map_map. f_equal.
    apply map_ext. intros [[it p] img]. reflexivity.
  - unfold v, cart_view. simpl cr_total. rewrite <- Hrows.
    clear. generalize 0%float.
    induction (cart_rows cartId d) as [|[[it p] img] rows IH]; intros acc; [reflexivity|].
    simpl. apply IH.
Qed.

Lemma cart_view_matches_the_lines_witness :
  cr_itemCount (cart_view 1 (cart_rows 1 db_ready)) = 2 + 3
  /\ map (fun x => (ciw_id x, ciw_product_id x, ciw_product_price x, ciw_quantity x,
                    ciw_subtotal x))
         (cr_items (cart_view 1 (cart_rows 1 db_ready)))
     = [(1, 1, 1000, 2, 20%float); (2, 3, 500, 3, 15%float)].
Proof.
  destruct (cart_view_matches_the_lines 1 db_ready eq_refl eq_refl eq_refl)
    as [_ [_ [_ [Hitems [Hcount _]]]]].
  split; [rewrite Hcount | rewrite Hitems]; reflexivity.
Defined.

(** The total of the view is a sum of doubles: three at 0.10 show
    0.30000000000000004, where a checkout of the same cart charges 0.30. *)
Example cart_total_is_a_double :
  let d := mkDB [] [Product.mk 1 "pin" 10 9] [] [guest_cart]
                [CartItem.mk 1 2 1 3] [] [] [] 3 2 1 1 1 in
  cr_total (cart_view 2 (cart_rows 2 d)) = 0x1.3333333333334p-2%float
  /\ cr_total (cart_view 2 (cart_rows 2 d)) <> number_of_cents 30
  /\ order_total (cart_lines 2 d) = 30.
Proof.
  split; [reflexivity|]. split; [|reflexivity].
  intros H. apply (f_equal Prim2SF) in H. vm_compute in H. discriminate H.
Qed.

(** ** Reading the cart *)

Lemma same_cart_contents_refl (d : DB) : same_cart_contents d d.
Proof. repeat split. Qed.

Lemma same_cart_contents_trans (d1 d2 d3 : DB) :
  same_cart_contents d1 d2 -> same_cart_contents d2 d3 -> same_cart_contents d1 d3.
Proof.
  unfold same_cart_contents. intros [A1 [A2 [A3 A4]]] [B1 [B2 [B3 B4]]].
  repeat split; congruence.
Qed.

Lemma touch_keeps_identity (id expiresAt now : Z) (l : list Cart.t) :
  map identity (map (fun k => if Cart.id k =? id then touch expiresAt now k else k) l)
  = map identity l.
Proof.
  rewrite map_map. apply map_ext. intros k. destruct (Cart.id k =? id); reflexivity.
Qed.

(** X14: [GET /cart] never creates a cart and never changes a line.  On any
    store, failing or not, the cart rows keep their identity columns and the
    lines and both sequences are as before (only the expiry of the caller's
    cart may move).  A caller without a cart is answered the empty view with
    a null id and the store is untouched; a caller with a cart is answered
    the view of that cart and only its expiry is refreshed. *)
Theorem get_cart_creates_nothing (c : Ctx) (d : DB) (s : Store) :
  same_cart_contents (db s) (db (snd (cart_get c s)))
  /\ (caller_cart c d = None ->
      cart_get c (reliable d) = (empty_cart_view, reliable d))
  /\ (forall cart, caller_cart c d = Some cart ->
      cart_get c (reliable d)
      = (json (CartBody (cart_view (Cart.id cart) (cart_rows (Cart.id cart) d))) 200,
         reliable (touched c cart d))).
Proof.
  split; [|split].
  - pose proof same_cart_contents_refl as Hrefl.
    pose proof same_cart_contents_trans as Htrans.
    unfold cart_get. apply respects_try_catch. unfold_statements.
    respects_with Hrefl Htrans
      ltac:(leaf_by_cases; simpl; try reflexivity; apply touch_keeps_identity).
  - intros Hnone. unfold cart_get, try_catch. cbv zeta. unfold bind.
    rewrite find_cart_reliable, Hnone. reflexivity.
  - intros cart Hcart. unfold cart_get, try_catch. cbv zeta. unfold bind.
    rewrite find_cart_reliable, Hcart. reflexivity.
Qed.

Lemma get_cart_creates_nothing_witness :
  cart_get (sample_ctx None (Some "nobody")) (reliable db_ready)
  = (empty_cart_view, reliable db_ready).
Proof.
  destruct (get_cart_creates_nothing (sample_ctx None (Some "nobody")) db_ready
              (reliable db_ready)) as [_ [Hnone _]].
  apply Hnone. reflexivity.
Defined.

Lemma caller_cart_in (c : Ctx) (d : DB) (cart : Cart.t) :
  caller_cart c d = Some cart -> In cart (carts d).
Proof.
  unfold caller_cart. intros H.
  destruct (truthy_num (getUserIdFromToken c));
    [|destruct (truthy_str (session_of c)); [|discriminate]];
    apply hd_error_filter_in in H; tauto.
Qed.

(** X15: after [DELETE /cart] the caller has no cart at all.  With at most
    one cart per user and per session, a [GET /cart] that follows is
    answered the empty view with a null id and writes nothing, and the next
    request that needs a cart, from a guest or from a token whose user is in
    the users table, creates a new row under the next id of the sequence,
    which is not the id of the cart that was cleared. *)
Theorem cleared_cart_is_gone (c : Ctx) (d : DB) (cart : Cart.t) :
  one_cart_per_user d = true ->
  one_cart_per_session d = true ->
  carts_seq_ahead d = true ->
  caller_cart c d = Some cart ->
  let s' := snd (cart_delete c (reliable d)) in
  s' = reliable (cleared cart d)
  /\ cart_get c s' = (empty_cart_view, s')
  /\ (references_user (getUserIdFromToken c) d = true ->
      getOrCreateCart c s'
      = Done (carts_seq d, getUserIdFromToken c)
             (reliable (with_fresh_cart c (cleared cart d))))
  /\ carts_seq d <> Cart.id cart.
Proof.
  intros Hu Hs Hseq Hcart s'.
  assert (Hs' : s' = reliable (cleared cart d)).
  { unfold s'. rewrite cart_delete_run, Hcart. reflexivity. }
  pose proof (caller_cart_cleared c d cart Hu Hs Hcart) as Hgone.
  split; [exact Hs'|]. rewrite Hs'. split; [|split].
  - unfold cart_get, try_catch. cbv zeta. unfold bind.
    rewrite find_cart_reliable, Hgone. reflexivity.
  - intros Hknown. rewrite (getOrCreateCart_new c (cleared cart d) Hgone Hknown). reflexivity.
  - unfold carts_seq_ahead in Hseq. rewrite forallb_forall in Hseq.
    specialize (Hseq cart (caller_cart_in c d cart Hcart)). lia.
Qed.

Lemma cleared_cart_is_gone_witness :
  cart_get (sample_ctx (Some 1) None)
           (snd (cart_delete (sample_ctx (Some 1) None) (reliable db_ready)))
  = (empty_cart_view, snd (cart_delete (sample_ctx (Some 1) None) (reliable db_ready))).
Proof.
  apply (cleared_cart_is_gone (sample_ctx (Some 1) None) db_ready cart1
           eq_refl eq_refl eq_refl eq_refl).
Defined.

(** ** Resolving the cart twice *)

Lemma session_is_set (c : Ctx) :
  uuidv4 c <> "" ->
  truthy_num (getUserIdFromToken c) = false ->
  truthy_str (session_of c) = true.
Proof.
  intros Huuid Hnum. unfold session_of. rewrite Hnum. unfold getOrCreateSessionId.
  assert (Hu : negb (String.eqb (uuidv4 c) "") = true).
  { destruct (String.eqb_spec (uuidv4 c) ""); [contradiction | reflexivity]. }
  destruct (cookie_session_id c) as [k|]; simpl; [|exact Hu].
  destruct (String.eqb k "") eqn:Ek; [exact Hu | rewrite Ek; reflexivity].
Qed.





(** ** Order numbers *)

Lemma Z_to_string_inj (x y : Z) : Z_to_string x = Z_to_string y -> x = y.
Proof.
  unfold Z_to_string. intros H.
  assert (Hnil : forall z, Z.to_int z <> Decimal.Pos Decimal.Nil
                           /\ Z.to_int z <> Decimal.Neg Decimal.Nil).
  { intros [|p|p]; simpl; split; try discriminate; intros [= Hp];
      exact (DecimalPos.Unsigned.to_uint_nonnil p Hp). }
  apply (f_equal NilZero.int_of_string) in H.
  rewrite !NilZero.isi in H by apply Hnil.
  injection H as H. apply DecimalZ.to_int_inj. exact H.
Qed.

Lemma remove_dashes_clean (s : string) : has_dash (remove_dashes s) = false.
Proof.
  induction s as [|ch s IH]; [reflexivity|]. simpl.
  destruct (Ascii.eqb ch "-"%char) eqn:E; [exact IH|]. simpl. rewrite E. exact IH.
Qed.

(** Two strings without a dash that agree up to and after a dash are equal. *)
Lemma split_at_dash (a b x y : string) :
  has_dash a = false -> has_dash b = false ->
  String.append a (String "-"%char x) = String.append b (String "-"%char y) ->
  a = b /\ x = y.
Proof.
  revert b. induction a as [|ch a IH]; intros [|ch' b] Ha Hb H; simpl in *.
  - injection H as H. split; [reflexivity | exact H].
  - injection H as Hch _. subst ch'. discriminate Hb.
  - injection H as Hch _. subst ch. discriminate Ha.
  - injection H as Hch H. subst ch'.
    apply orb_false_iff in Ha. apply orb_false_iff in Hb.
    destruct (IH b (proj2 Ha) (proj2 Hb) H) as [Hab Hxy]. subst. split; reflexivity.
Qed.

(** X17: two generated order numbers are equal exactly when they were drawn
    on the same UTC day and their draws floor to the same four-digit part,
    the floor of 1000 plus the draw times 9000 in doubles: the date part and
    the four-digit part are the only inputs, the number is injective in
    both, and nothing else of the request (the user, the cart, the time of
    day) tells two orders apart. *)
Theorem order_numbers_collide_iff (c1 c2 : Ctx) :
  generateOrderNumber c1 = generateOrderNumber c2
  <-> remove_dashes (substring 0 10 (nowISO c1)) = remove_dashes (substring 0 10 (nowISO c2))
      /\ four_digits c1 = four_digits c2.
Proof.
  unfold generateOrderNumber. cbv zeta. split.
  - intros H.
    remember (four_digits c1) as n1 eqn:E1.
    remember (four_digits c2) as n2 eqn:E2.
    cbn [String.append] in H. injection H as H.
    apply split_at_dash in H; try apply remove_dashes_clean.
    destruct H as [Hd Hn]. split; [exact Hd|].
    apply Z_to_string_inj in Hn. exact Hn.
  - intros [Hd Hn]. rewrite Hd, Hn. reflexivity.
Qed.

(** Draws run from 0 to just under 1, four-digit parts from 1000 to 9999;
    two different draws can floor to the same part, and then the order
    numbers of the day collide. *)
Example four_digits_samples :
  four_digits (drawing 0) = 1000
  /\ four_digits (drawing 0x1.fffffffffffffp-1) = 9999
  /\ four_digits (drawing 0.0029296875) = 1026
  /\ four_digits (drawing 0.00299072265625) = 1026
  /\ generateOrderNumber (drawing 0.0029296875)
     = generateOrderNumber (drawing 0.00299072265625).
Proof. repeat split. Qed.

(** ** One cart per user and per session *)

Lemma keeps_one_cart_refl (d : DB) : keeps_one_cart d d.
Proof. intros H. exact H. Qed.

Lemma keeps_one_cart_trans (d1 d2 d3 : DB) :
  keeps_one_cart d1 d2 -> keeps_one_cart d2 d3 -> keeps_one_cart d1 d3.
Proof. unfold keeps_one_cart. auto. Qed.

Lemma one_cart_same_carts (d d' : DB) : carts d' = carts d -> keeps_one_cart d d'.
Proof.
  unfold keeps_one_cart, one_cart_per_identity, one_cart_per_user, one_cart_per_session.
  intros ->. auto.
Qed.

Lemma one_cart_touch (id expiresAt now seq : Z) (d : DB) :
  keeps_one_cart d
    (with_carts (map (fun c => if Cart.id c =? id then touch expiresAt now c else c)) seq d).
Proof.
  unfold keeps_one_cart, one_cart_per_identity, one_cart_per_user, one_cart_per_session.
  simpl carts. intros [Hu Hs]. split.
  - rewrite distinct_by_map; [exact Hu|].
    intros a b. destruct (Cart.id a =? id), (Cart.id b =? id); reflexivity.
  - rewrite distinct_by_map; [exact Hs|].
    intros a b. destruct (Cart.id a =? id), (Cart.id b =? id); reflexivity.
Qed.

Lemma one_cart_delete (f : Cart.t -> bool) (g : CartItem.t -> bool) (seq seq' : Z) (d : DB) :
  keeps_one_cart d (with_cartItems (filter g) seq' (with_carts (filter f) seq d)).
Proof.
  unfold keeps_one_cart, one_cart_per_identity, one_cart_per_user, one_cart_per_session.
  simpl carts. intros [Hu Hs]. split; apply distinct_by_filter; assumption.
Qed.

Lemma existsb_no_hit {A} (f : A -> bool) (l : list A) :
  hd_error (filter f l) = None -> existsb f l = false.
Proof.
  induction l as [|x l IH]; simpl; [reflexivity|].
  destruct (f x); simpl; [discriminate | exact IH].
Qed.

Lemma existsb_never {A} (f : A -> bool) (l : list A) :
  (forall x, f x = false) -> existsb f l = false.
Proof. intros H. induction l as [|x l IH]; simpl; [reflexivity|]. rewrite H. exact IH. Qed.

(** A new cart row whose user and session are held by no other row. *)
Lemma one_cart_insert (row : Cart.t) (seq : Z) (d : DB) :
  existsb (fun k => col_eqZ (Cart.userId k) (Cart.userId row)) (carts d) = false ->
  existsb (fun k => col_eqS (Cart.sessionId k) (Cart.sessionId row)) (carts d) = false ->
  keeps_one_cart d (with_carts (fun t => t ++ [row]) seq d).
Proof.
  unfold keeps_one_cart, one_cart_per_identity, one_cart_per_user, one_cart_per_session.
  simpl carts. intros Hnu Hns [Hu Hs]. split; apply distinct_by_snoc; assumption.
Qed.

Lemma one_cart_fresh (c : Ctx) (d : DB) :
  bearer c <> Some 0 ->
  uuidv4 c <> "" ->
  caller_cart c d = None ->
  keeps_one_cart d (with_fresh_cart c d).
Proof.
  intros Hzero Huuid Hnone. unfold with_fresh_cart. apply one_cart_insert; simpl.
  - unfold caller_cart in Hnone. unfold getUserIdFromToken in *.
    destruct (bearer c) as [u|] eqn:Hb;
      [|apply existsb_never; intros k; destruct (Cart.userId k); reflexivity].
    assert (Hu : truthy_num (Some u) = true).
    { simpl. destruct (Z.eqb_spec u 0); [subst; contradiction | reflexivity]. }
    rewrite Hu in Hnone. apply existsb_no_hit. exact Hnone.
  - unfold caller_cart in Hnone.
    destruct (truthy_num (getUserIdFromToken c)) eqn:Hnum.
    + unfold session_of. rewrite Hnum.
      apply existsb_never. intros k. destruct (Cart.sessionId k); reflexivity.
    + rewrite (session_is_set c Huuid Hnum) in Hnone. apply existsb_no_hit. exact Hnone.
Qed.

(** On any store, [find_cart] leaves the tables alone and, when it returns,
    returns the caller's cart. *)
Lemma find_cart_any (c : Ctx) (s : Store) :
  match find_cart (getUserIdFromToken c) (session_of c) s with
  | Done r s' => r = caller_cart c (db s) /\ db s' = db s
  | Thrown _ s' => db s' = db s
  end.
Proof.
  unfold find_cart, caller_cart.
  destruct (truthy_num (getUserIdFromToken c));
    [|destruct (truthy_str (session_of c))];
    unfold bind, query, stmt, ret; destruct (budget s) as [[|n]|]; simpl; auto.
Qed.

(** [getOrCreateCart] inserts a cart only when the lookup found none. *)
Lemma respects_getOrCreateCart (c : Ctx) :
  bearer c <> Some 0 ->
  uuidv4 c <> "" ->
  respects keeps_one_cart (getOrCreateCart c).
Proof.
  intros Hzero Huuid s. unfold getOrCreateCart. cbv zeta. unfold bind at 1.
  pose proof (find_cart_any c s) as Hfind.
  destruct (find_cart (getUserIdFromToken c) (session_of c) s) as [r s1 | e s1].
  - destruct Hfind as [-> Hdb]. rewrite <- Hdb.
    destruct (caller_cart c (db s1)) as [cart|] eqn:Hcart.
    + unfold bind, touch_cart, stmt, ret.
      destruct (budget s1) as [[|n]|]; cbn [store_of db];
        first [apply keeps_one_cart_refl | apply one_cart_touch].
    + unfold bind, insert_cart, stmt, ret.
      pose proof (one_cart_fresh c (db s1) Hzero Huuid Hcart) as Hfresh.
      destruct (budget s1) as [[|n]|]; cbn [store_of db]; try apply keeps_one_cart_refl;
        (destruct (references_user (getUserIdFromToken c) (db s1)); cbn [store_of db];
         [exact Hfresh | apply one_cart_same_carts; reflexivity]).
  - simpl. rewrite Hfind. apply keeps_one_cart_refl.
Qed.

(** The merge at login inserts a cart for the user only when the user has
    none. *)
Lemma respects_user_cart {B} (userId expiresAt now : Z) (K : Cart.t -> M B) :
  (forall u, respects keeps_one_cart (K u)) ->
  respects keeps_one_cart
    (mine <- query (fun d => filter (fun u => col_eqZ (Cart.userId u) (Some userId))
                               (carts d)) ;;
     userCart <- match hd_error mine with
                 | Some userCart => ret userCart
                 | None => insert_cart (Some userId) None (Some expiresAt) now
                 end ;;
     K userCart).
Proof.
  intros HK s. unfold bind at 1. unfold query, stmt.
  assert (Hrun : forall b,
            keeps_one_cart (db s)
              (db (store_of
                 ((userCart <- match hd_error (filter (fun u => col_eqZ (Cart.userId u)
                                                                   (Some userId))
                                                      (carts (db s))) with
                               | Some userCart => ret userCart
                               | None => insert_cart (Some userId) None (Some expiresAt) now
                               end ;;
                   K userCart) (mkStore (db s) b))))).
  { intros b.
    destruct (hd_error (filter (fun u => col_eqZ (Cart.userId u) (Some userId))
                               (carts (db s)))) as [uc|] eqn:Hmine.
    - exact (HK uc (mkStore (db s) b)).
    - unfold bind, insert_cart, stmt. simpl budget. simpl db.
      assert (Hins : keeps_one_cart (db s)
                       (with_carts
                          (fun t => t ++ [Cart.mk (carts_seq (db s)) (Some userId) None
                                            (Some expiresAt) now])
                          (carts_seq (db s) + 1) (db s))).
      { apply one_cart_insert; simpl.
        - apply existsb_no_hit. exact Hmine.
        - apply existsb_never. intros k. destruct (Cart.sessionId k); reflexivity. }
      destruct b as [[|n]|]; simpl; try apply keeps_one_cart_refl;
        match goal with |- context [if ?known then _ else _] => destruct known end;
        simpl;
        first [ eapply keeps_one_cart_trans; [exact Hins | apply (HK _ (mkStore _ _))]
              | apply one_cart_same_carts; reflexivity ]. }
  destruct (budget s) as [[|n]|]; simpl;
    first [apply keeps_one_cart_refl | apply Hrun].
Qed.

(** As [respects_with], with [special] tried first on each computation. *)
Ltac respects_upto special refl trans leaf :=
  repeat first
    [ special
    | apply respects_ret; exact refl
    | apply respects_bind; [exact trans | | intros ?]
    | apply respects_for_each; [exact refl | exact trans | intros ?]
    | apply respects_stmt; [exact refl | intros ?; leaf]
    | match goal with
      | |- respects _ (match ?x with _ => _ end) => destruct x
      end ].

Ltac unfold_leaves :=
  unfold find_cart, buildCartResponse, merge_item, place_order, query, insert_cart,
    touch_cart, delete_cart, insert_cartItem, update_cartItem_quantity,
    delete_cartItems_of_cart, delete_cartItem, update_product_stock, insert_order,
    insert_orderItems, insert_orderStatusHistory;
  cbv zeta.

Ltac one_cart_leaf :=
  repeat match goal with
         | |- context [if ?b then _ else _] => destruct b
         end;
  cbv beta iota; try exact I;
  first [ apply one_cart_touch
        | apply one_cart_delete
        | apply one_cart_same_carts; reflexivity ].

Lemma respects_migrate_guest_cart (c : Ctx) (user : User.t) :
  respects keeps_one_cart (migrate_guest_cart c user).
Proof.
  pose proof keeps_one_cart_refl as Hrefl.
  pose proof keeps_one_cart_trans as Htrans.
  unfold migrate_guest_cart. cbv zeta.
  respects_upto ltac:(apply respects_user_cart; intros ?) Hrefl Htrans
    ltac:(unfold_leaves; one_cart_leaf).
  all: unfold_leaves;
    respects_upto ltac:(fail) Hrefl Htrans ltac:(one_cart_leaf).
Qed.

(** X18: at most one cart per user and per session is an invariant of the
    core requests.  When the token subject is not 0 and the generated
    session id is not the empty string, a store that holds at most one cart
    per user and at most one per session still does after any core request
    (the cart routes, login with its merge, checkout, the order reads), on
    any store, failing or not: a cart is inserted only after a lookup by the
    same identity found none. *)
Theorem one_cart_per_identity_is_kept
    (comparePassword : string -> string -> bool)
    (signJWT : JWTPayload -> string -> string)
    (is_email : string -> bool)
    (c : Ctx) (r : Request) (s : Store) :
  bearer c <> Some 0 ->
  uuidv4 c <> "" ->
  one_cart_per_user (db s) = true ->
  one_cart_per_session (db s) = true ->
  one_cart_per_user (db (snd (handle comparePassword signJWT is_email c r s))) = true
  /\ one_cart_per_session (db (snd (handle comparePassword signJWT is_email c r s))) = true.
Proof.
  intros Hzero Huuid Hu Hs.
  pose proof keeps_one_cart_refl as Hrefl.
  pose proof keeps_one_cart_trans as Htrans.
  pose proof (respects_getOrCreateCart c Hzero Huuid) as Hcart.
  pose proof (respects_migrate_guest_cart c) as Hmerge.
  assert (H : keeps_one_cart (db s)
                (db (snd (handle comparePassword signJWT is_email c r s))));
    [|exact (H (conj Hu Hs))].
  clear Hu Hs.
  destruct r; simpl handle.
  - unfold cart_get. apply respects_try_catch. unfold_leaves.
    respects_upto ltac:(fail) Hrefl Htrans one_cart_leaf.
  - unfold cart_post_items.
    destruct (addToCartSchema productId quantity); [|apply Hrefl].
    apply respects_try_catch. unfold_leaves.
    respects_upto ltac:(exact Hcart) Hrefl Htrans one_cart_leaf.
  - unfold cart_put_item.
    destruct (updateCartItemSchema quantity); [|apply Hrefl].
    apply respects_try_catch. unfold_leaves.
    respects_upto ltac:(exact Hcart) Hrefl Htrans one_cart_leaf.
  - unfold cart_delete_item. apply respects_try_catch. unfold_leaves.
    respects_upto ltac:(exact Hcart) Hrefl Htrans one_cart_leaf.
  - unfold cart_delete. apply respects_try_catch. unfold_leaves.
    respects_upto ltac:(fail) Hrefl Htrans one_cart_leaf.
  - unfold auth_login.
    destruct (loginSchema is_email email password); [|apply Hrefl].
    apply respects_run. unfold_leaves.
    respects_upto ltac:(apply Hmerge) Hrefl Htrans one_cart_leaf.
  - unfold checkout_post.
    destruct (bearer c); [|apply Hrefl].
    destruct (checkoutSchema b); [|apply Hrefl].
    apply respects_run. unfold_leaves.
    respects_upto ltac:(fail) Hrefl Htrans one_cart_leaf.
  - unfold orders_get_id.
    destruct (bearer c); [|apply Hrefl].
    destruct (orderIdParamsSchema id); [|apply Hrefl].
    apply respects_run. unfold_leaves.
    respects_upto ltac:(fail) Hrefl Htrans one_cart_leaf.
  - unfold orders_get_id_status.
    destruct (bearer c); [|apply Hrefl].
    destruct (orderIdParamsSchema id); [|apply Hrefl].
    apply respects_run. unfold_leaves.
    respects_upto ltac:(fail) Hrefl Htrans one_cart_leaf.
Qed.

Lemma one_cart_per_identity_is_kept_witness :
  one_cart_per_user
    (db (snd (handle sample_compare sample_sign sample_is_email (sample_ctx None None)
                (AddItem 1 1) (reliable db_ready)))) = true
  /\ one_cart_per_session
       (db (snd (handle sample_compare sample_sign sample_is_email (sample_ctx None None)
                   (AddItem 1 1) (reliable db_ready)))) = true.
Proof.
  apply (one_cart_per_identity_is_kept sample_compare sample_sign sample_is_email
           (sample_ctx None None) (AddItem 1 1) (reliable db_ready));
    [discriminate | discriminate | reflexivity | reflexivity].
Defined.

(** ** The order list *)

Lemma insert_newest_first_perm (o : Order.t) (l : list Order.t) :
  Permutation (insert_newest_first o l) (o :: l).
Proof.
  induction l as [|x l IH]; simpl; [apply Permutation_refl|].
  destruct (Order.createdAt x <? Order.createdAt o); [apply Permutation_refl|].
  eapply Permutation_trans; [apply perm_skip; exact IH | apply perm_swap].
Qed.

Lemma orderBy_desc_createdAt_perm (l : list Order.t) :
  Permutation (orderBy_desc_createdAt l) l.
Proof.
  unfold orderBy_desc_createdAt.
  assert (G : forall acc, Permutation (fold_left (fun acc o => insert_newest_first o acc) l acc)
                                      (acc ++ l)).
  { induction l as [|x l IH]; intros acc; simpl.
    - rewrite app_nil_r. apply Permutation_refl.
    - eapply Permutation_trans; [apply IH|].
      eapply Permutation_trans;
        [apply Permutation_app_tail; apply insert_newest_first_perm|].
      simpl. apply Permutation_cons_app. apply Permutation_refl. }
  exact (G []).
Qed.







Lemma map_each_query {A B} (xs : list A) (g : A -> DB -> Z) (h : A -> Z -> B) (d : DB) :
  map_each xs (fun x => n <- query (g x) ;; ret (h x n)) (reliable d)
  = Done (map (fun x => h x (g x d)) xs) (reliable d).
Proof.
  induction xs as [|x xs IH]; [reflexivity|].
  cbn [map_each map]. unfold bind at 1. rewrite bind_query. unfold ret at 1.
  unfold bind at 1. rewrite IH. reflexivity.
Qed.


Lemma ceil_div_bounds (total limit : Z) :
  1 <= limit ->
  (ceil_div total limit - 1) * limit < total <= ceil_div total limit * limit.
Proof.
  intros Hl. unfold ceil_div.
  pose proof (Z.div_mod (total + limit - 1) limit ltac:(lia)) as Hdm.
  pose proof (Z.mod_pos_bound (total + limit - 1) limit ltac:(lia)) as Hm.
  nia.
Qed.

Lemma list_orders_run (u : Z) (q : OrderQuery) (d : DB) :
  list_orders u q (reliable d)
  = Done (mkOrdersPage
            (map (fun o => summary o (count_items (Order.id o) d))
                 (firstn (Z.to_nat (query_limit q))
                    (skipn (Z.to_nat ((query_page q - 1) * query_limit q))
                       (matching_orders u (q_status q) d))))
            (mkPagination (query_page q) (query_limit q)
               (Z.of_nat (List.length (filter (whereClause u (q_status q)) (orders d))))
               (ceil_div (Z.of_nat (List.length (filter (whereClause u (q_status q))
                                                        (orders d))))
                         (query_limit q))))
         (reliable d).
Proof.
  unfold list_orders. cbv zeta. rewrite !bind_query.
  unfold bind at 1.
  rewrite (map_each_query _ (fun o => count_items (Order.id o)) summary d).
  reflexivity.
Qed.








Lemma firstn_plus {A} (n m : nat) (l : list A) :
  firstn (n + m) l = firstn n l ++ firstn m (skipn n l).
Proof.
  revert l. induction n as [|n IH]; intros l; [reflexivity|].
  destruct l as [|x l]; simpl; [rewrite firstn_nil; reflexivity|].
  rewrite IH. reflexivity.
Qed.

Lemma skipn_plus {A} (n m : nat) (l : list A) :
  skipn (n + m) l = skipn m (skipn n l).
Proof.
  revert l. induction n as [|n IH]; intros l; [reflexivity|].
  destruct l as [|x l]; simpl; [rewrite skipn_nil; reflexivity|]. apply IH.
Qed.

(** Consecutive pages of [n] rows are a prefix of the rows that follow the
    first page. *)
Lemma pages_concat {A} (n k a : nat) (l : list A) :
  flat_map (fun i => firstn n (skipn (i * n) l)) (seq a k)
  = firstn (k * n) (skipn (a * n) l).
Proof.
  revert a. induction k as [|k IH]; intros a; [reflexivity|].
  cbn [seq flat_map]. rewrite IH.
  replace (S k * n)%nat with (n + k * n)%nat by lia.
  replace (S a * n)%nat with (a * n + n)%nat by lia.
  rewrite firstn_plus, skipn_plus. reflexivity.
Qed.

Lemma page_ids_run (c : Ctx) (q : OrderQuery) (d : DB) (u : Z) (j : nat) :
  bearer c = Some u ->
  1 <= query_limit q <= 100 ->
  page_ids c q d (Z.of_nat (S j))
  = map Order.id (firstn (Z.to_nat (query_limit q))
                    (skipn (j * Z.to_nat (query_limit q))
                       (matching_orders u (q_status q) d))).
Proof.
  intros Hb Hl. unfold page_ids, orders_get. rewrite Hb.
  set (q' := mkOrderQuery (Some (Z.of_nat (S j))) (q_limit q) (q_status q)).
  assert (Hlim : query_limit q' = query_limit q) by reflexivity.
  assert (Hq' : orderQuerySchema q' = true).
  { unfold orderQuerySchema. rewrite Hlim. unfold q', query_page. cbn [q_page].
    apply andb_true_iff. split; [apply andb_true_iff; split|]; apply Z.leb_le; lia. }
  rewrite Hq', list_orders_run. cbn [fst op_orders]. rewrite map_map. cbn [summary os_id].
  rewrite Hlim. unfold q' at 1, query_page. cbn [q_page q_status].
  replace (Z.to_nat ((Z.of_nat (S j) - 1) * query_limit q))
    with (j * Z.to_nat (query_limit q))%nat by lia.
  reflexivity.
Qed.

(** X20: the pages of [GET /orders] partition the caller's orders.  For an
    authenticated caller and a limit between 1 and 100, reading the pages 1
    to [totalPages] one after the other on the same tables yields the
    caller's matching orders newest first, and so every such order exactly
    once: no order is skipped and none is shown on two pages. *)
Theorem order_pages_cover (c : Ctx) (q : OrderQuery) (d : DB) (u : Z) :
  bearer c = Some u ->
  1 <= query_limit q <= 100 ->
  let mine := filter (whereClause u (q_status q)) (orders d) in
  let totalPages := ceil_div (Z.of_nat (List.length mine)) (query_limit q) in
  flat_map (fun i => page_ids c q d (Z.of_nat i)) (seq 1 (Z.to_nat totalPages))
  = map Order.id (matching_orders u (q_status q) d)
  /\ Permutation (map Order.id (matching_orders u (q_status q) d)) (map Order.id mine).
Proof.
  intros Hb Hl mine totalPages.
  assert (Hperm : Permutation (matching_orders u (q_status q) d) mine)
    by apply orderBy_desc_createdAt_perm.
  split; [|apply Permutation_map; exact Hperm].
  assert (Hpages : forall l,
            flat_map (fun i => page_ids c q d (Z.of_nat i)) (map S l)
            = map Order.id
                (flat_map (fun j => firstn (Z.to_nat (query_limit q))
                                      (skipn (j * Z.to_nat (query_limit q))
                                         (matching_orders u (q_status q) d))) l)).
  { induction l as [|j l IH]; [reflexivity|].
    cbn [map flat_map]. rewrite IH, (page_ids_run c q d u j Hb Hl), map_app. reflexivity. }
  rewrite <- seq_shift, Hpages, pages_concat.
  rewrite Nat.mul_0_l. cbn [skipn]. rewrite firstn_all2; [reflexivity|].
  rewrite (Permutation_length Hperm).
  pose proof (ceil_div_bounds (Z.of_nat (List.length mine)) (query_limit q) ltac:(lia))
    as Hceil.
  fold totalPages in Hceil. nia.
Qed.

Lemma order_pages_cover_witness :
  flat_map (fun i => page_ids (sample_ctx (Some 1) None) (mkOrderQuery None (Some 1) None)
                       db_one_order (Z.of_nat i))
           (seq 1 1)
  = [1].
Proof.
  apply (order_pages_cover (sample_ctx (Some 1) None) (mkOrderQuery None (Some 1) None)
           db_one_order 1 eq_refl).
  cbv. split; discriminate.
Defined.

(** ** The shape of the answers *)

Lemma triple_ret {A} (P : DB -> Prop) (Q : A -> DB -> Prop) (E : DB -> Prop) (a : A) :
  (forall d, P d -> Q a d) -> triple P (ret a) Q E.
Proof. intros H s Hs. apply H. exact Hs. Qed.

Lemma triple_bind {A B} (P : DB -> Prop) (m : M A) (k : A -> M B)
    (R : A -> DB -> Prop) (Q : B -> DB -> Prop) (E : DB -> Prop) :
  triple P m R E -> (forall a, triple (R a) (k a) Q E) -> triple P (bind m k) Q E.
Proof.
  intros Hm Hk s Hs. unfold bind. specialize (Hm s Hs).
  destruct (m s) as [a s' | e s']; [apply Hk; exact Hm | exact Hm].
Qed.

Lemma triple_any {A} (m : M A) :
  triple (fun _ => True) m (fun _ _ => True) (fun _ => True).
Proof. intros s _. destruct (m s); exact I. Qed.

Lemma answers_well_ret (r : Response) : well_formed r = true -> answers_well (ret r).
Proof. intros H. apply triple_ret. intros d _. exact H. Qed.

Lemma answers_well_bind {A} (m : M A) (k : A -> M Response) :
  (forall a, answers_well (k a)) -> answers_well (bind m k).
Proof.
  intros H. unfold answers_well.
  apply (triple_bind _ m k (fun _ _ => True)); [apply triple_any | exact H].
Qed.

Lemma errorHandler_well_formed (c : Ctx) (e : DbError) :
  well_formed (errorHandler (thrown c e)) = true.
Proof. unfold errorHandler, thrown. destruct (_ || _); reflexivity. Qed.

Lemma answers_well_run (c : Ctx) (m : M Response) (s : Store) :
  answers_well m -> well_formed (fst (run c m s)) = true.
Proof.
  intros H. unfold run. specialize (H s I).
  destruct (m s); [exact H | apply errorHandler_well_formed].
Qed.

Lemma answers_well_try_catch (m : M Response) (msg : string) (s : Store) :
  answers_well m -> well_formed (fst (try_catch m msg s)) = true.
Proof.
  intros H. unfold try_catch. specialize (H s I). destruct (m s); [exact H | reflexivity].
Qed.

Ltac answers_well_auto :=
  cbv zeta;
  repeat first
    [ apply answers_well_ret; reflexivity
    | apply answers_well_bind; intros ?
    | match goal with
      | |- answers_well (match ?x with _ => _ end) => destruct x
      end ].

(** X21: status and body of an answer always agree.  Every core request, on
    any store, failing or not, is answered either 200 or 201 with a data
    body, or 400, 401, 403, 404 or 500 with an error body; no core request
    is ever answered 409 (Conflict). *)
Theorem answers_are_well_formed
    (comparePassword : string -> string -> bool)
    (signJWT : JWTPayload -> string -> string)
    (is_email : string -> bool)
    (c : Ctx) (r : Request) (s : Store) :
  let answer := fst (handle comparePassword signJWT is_email c r s) in
  well_formed answer = true
  /\ error_kind answer <> Some Conflict.
Proof.
  cbv zeta.
  assert (H : well_formed (fst (handle comparePassword signJWT is_email c r s)) = true).
  { destruct r; simpl handle.
    - unfold cart_get. apply answers_well_try_catch. answers_well_auto.
    - unfold cart_post_items.
      destruct (addToCartSchema productId quantity); [|reflexivity].
      apply answers_well_try_catch. answers_well_auto.
    - unfold cart_put_item.
      destruct (updateCartItemSchema quantity); [|reflexivity].
      apply answers_well_try_catch. answers_well_auto.
    - unfold cart_delete_item. apply answers_well_try_catch. answers_well_auto.
    - unfold cart_delete. apply answers_well_try_catch. answers_well_auto.
    - unfold auth_login.
      destruct (loginSchema is_email email password); [|reflexivity].
      apply answers_well_run. answers_well_auto.
    - unfold checkout_post.
      destruct (bearer c); [|reflexivity].
      destruct (checkoutSchema b); [|reflexivity].
      apply answers_well_run. answers_well_auto.
    - unfold orders_get_id.
      destruct (bearer c); [|reflexivity].
      destruct (orderIdParamsSchema id); [|reflexivity].
      apply answers_well_run. answers_well_auto.
    - unfold orders_get_id_status.
      destruct (bearer c); [|reflexivity].
      destruct (orderIdParamsSchema id); [|reflexivity].
      apply answers_well_run. answers_well_auto. }
  split; [exact H|].
  unfold well_formed in H. unfold error_kind.
  destruct (body _);
    repeat match goal with
           | |- context [if ?b then _ else _] => destruct b eqn:?
           end;
    try discriminate;
    repeat match goal with
           | E : (_ =? _) = true |- _ => apply Z.eqb_eq in E
           end;
    exfalso;
    repeat match goal with
           | E : (_ =? _) = false |- _ => apply Z.eqb_neq in E
           end;
    repeat match goal with
           | E : status _ = _ |- _ => rewrite E in *
           end;
    simpl in H; try discriminate H; try lia.
Qed.

(** ** Deleting a product *)

Lemma forget_product_orderId (id : Z) (i : OrderItem.t) :
  OrderItem.orderId (forget_product id i) = OrderItem.orderId i.
Proof. unfold forget_product. destruct (col_eqZ _ _); reflexivity. Qed.

Lemma filter_of_map {A B} (f : B -> bool) (g : A -> B) (l : list A) :
  filter f (map g l) = map g (filter (fun x => f (g x)) l).
Proof.
  induction l as [|x l IH]; [reflexivity|]. simpl.
  destruct (f (g x)); simpl; rewrite IH; reflexivity.
Qed.

Lemma flat_map_of_map {A B C} (f : B -> list C) (g : A -> B) (l : list A) :
  flat_map f (map g l) = flat_map (fun x => f (g x)) l.
Proof. induction l as [|x l IH]; [reflexivity|]. simpl. rewrite IH. reflexivity. Qed.

Lemma filter_filter_other (id k : Z) (P : list Product.t) :
  k <> id ->
  filter (fun p => k =? Product.id p) (filter (fun p => negb (Product.id p =? id)) P)
  = filter (fun p => k =? Product.id p) P.
Proof.
  intros Hk. induction P as [|p P IH]; [reflexivity|]. simpl.
  destruct (Product.id p =? id) eqn:E; simpl.
  - apply Z.eqb_eq in E. destruct (Z.eqb_spec k (Product.id p)); [lia | exact IH].
  - destruct (k =? Product.id p); [rewrite IH|]; auto.
Qed.

(** The lines an order detail shows for one order line are the same before
    and after the deletion, up to the columns of the live product. *)
Lemma order_line_survives (id : Z) (d : DB) (p : Product.t) (i : OrderItem.t) :
  products_pkey d = true ->
  hd_error (filter (fun q => Product.id q =? id) (products d)) = Some p ->
  map line_digest
    (map detail_item
       match filter (fun q => col_eqZ (OrderItem.productId (forget_product id i))
                                      (Some (Product.id q)))
                    (products (without_product id d)) with
       | [] => [(forget_product id i, None)]
       | ps => map (fun q => (forget_product id i, Some q)) ps
       end)
  = map line_digest
      (map detail_item
         match filter (fun q => col_eqZ (OrderItem.productId i) (Some (Product.id q)))
                      (products d) with
         | [] => [(i, None)]
         | ps => map (fun q => (i, Some q)) ps
         end).
Proof.
  intros Hpk Hp.
  assert (Hdigest : forall (j : OrderItem.t) (q : option Product.t),
            line_digest (detail_item (j, q))
            = (OrderItem.id j, OrderItem.quantity j, OrderItem.priceAtTime j)).
  { intros j [q|]; unfold detail_item; simpl; [destruct (Product.id q =? 0)|]; reflexivity. }
  unfold forget_product. cbn [products without_product].
  destruct (OrderItem.productId i) as [k|] eqn:Hk; cbn [col_eqZ].
  - destruct (Z.eqb_spec k id) as [->|Hne].
    + cbn [OrderItem.productId col_eqZ].
      assert (Hone : filter (fun q => id =? Product.id q) (products d) = [p]).
      { apply (filter_single (fun a b => Product.id a =? Product.id b)).
        - exact Hpk.
        - intros a b Ha Hb. apply Z.eqb_eq in Ha, Hb. apply Z.eqb_eq. lia.
        - rewrite <- Hp. f_equal. apply filter_ext. intros q. apply Z.eqb_sym. }
      rewrite Hone.
      replace (filter (fun _ : Product.t => false)
                      (filter (fun q => negb (Product.id q =? id)) (products d)))
        with (@nil Product.t)
        by (symmetry; apply filter_none; reflexivity).
      cbn [map]. rewrite !Hdigest. reflexivity.
    + rewrite Hk. cbn [col_eqZ]. rewrite (filter_filter_other id k _ Hne). reflexivity.
  - rewrite Hk. cbn [col_eqZ].
    replace (filter (fun _ : Product.t => false)
                    (filter (fun q => negb (Product.id q =? id)) (products d)))
      with (@nil Product.t)
      by (symmetry; apply filter_none; reflexivity).
    replace (filter (fun _ : Product.t => false) (products d)) with (@nil Product.t)
      by (symmetry; apply filter_none; reflexivity).
    reflexivity.
Qed.

Lemma order_rows_survive (id : Z) (d : DB) (p : Product.t) (orderId : Z) :
  products_pkey d = true ->
  hd_error (filter (fun q => Product.id q =? id) (products d)) = Some p ->
  map line_digest (map detail_item (order_rows orderId (without_product id d)))
  = map line_digest (map detail_item (order_rows orderId d)).
Proof.
  intros Hpk Hp. unfold order_rows.
  change (orderItems (without_product id d)) with (map (forget_product id) (orderItems d)).
  rewrite filter_of_map.
  rewrite (filter_ext (fun x => OrderItem.orderId (forget_product id x) =? orderId)
                      (fun x => OrderItem.orderId x =? orderId))
    by (intros x; rewrite forget_product_orderId; reflexivity).
  rewrite flat_map_of_map.
  induction (filter (fun x => OrderItem.orderId x =? orderId) (orderItems d)) as [|i l IH];
    [reflexivity|].
  cbn [flat_map]. rewrite !map_app, IH. f_equal.
  apply (order_line_survives id d p i Hpk Hp).
Qed.

Lemma fkey_without_product (id : Z) (d : DB) :
  cartItems_product_fkey d = true -> cartItems_product_fkey (without_product id d) = true.
Proof.
  unfold cartItems_product_fkey. cbn [cartItems products without_product].
  rewrite !forallb_forall. intros H it Hit. apply filter_In in Hit. destruct Hit as [Hin Hne].
  specialize (H it Hin). apply existsb_exists in H. destruct H as [q [Hq Hid]].
  apply existsb_exists. exists q. split; [|exact Hid].
  apply filter_In. split; [exact Hq|]. apply Z.eqb_eq in Hid. rewrite Hid. exact Hne.
Qed.

(** X22: deleting a product keeps the order history.  An admin deleting an
    existing product is answered the confirmation; the product row is gone
    and no other product is, the cart lines of the product are gone and no
    other line is (so the product foreign key of the cart lines still
    holds), while users, carts, orders and status history are untouched.
    With product keys in force, every order detail is answered as before the
    deletion up to the columns of the live product: the same lines with the
    same quantities and prices at the time of the order, the same total,
    status and history; the status timeline is answered exactly as before.
    A caller whose token carries the customer role is answered 403 and
    nothing is written. *)
Theorem product_delete_keeps_order_history
    (req : Ctx) (payload : JWTPayload) (id : Z) (d : DB) (p : Product.t) :
  jwt_role payload = admin ->
  products_pkey d = true ->
  hd_error (filter (fun q => Product.id q =? id) (products d)) = Some p ->
  let d' := without_product id d in
  products_delete req (Some payload) id (reliable d)
  = (Confirmed "Product deleted successfully", reliable d')
  /\ (forall q, In q (products d') <-> In q (products d) /\ Product.id q <> id)
  /\ (forall it, In it (cartItems d') <-> In it (cartItems d) /\ CartItem.productId it <> id)
  /\ (cartItems_product_fkey d = true -> cartItems_product_fkey d' = true)
  /\ users d' = users d
  /\ carts d' = carts d
  /\ orders d' = orders d
  /\ orderStatusHistory d' = orderStatusHistory d
  /\ (forall c orderId,
        order_digest (fst (orders_get_id c orderId (reliable d')))
        = order_digest (fst (orders_get_id c orderId (reliable d))))
  /\ (forall c orderId,
        fst (orders_get_id_status c orderId (reliable d'))
        = fst (orders_get_id_status c orderId (reliable d)))
  /\ (forall other s,
        jwt_role other = customer ->
        products_delete req (Some other) id s
        = (Refused (json (Failure "Forbidden: Insufficient permissions") 403), s)).
Proof.
  intros Hrole Hpk Hp d'.
  split; [|split; [|split; [|split; [|split; [|split; [|split; [|split; [|split; [|split]]]]]]]]];
    try reflexivity.
  - unfold products_delete, requireRole. rewrite Hrole. cbn [existsb role_eqb orb].
    rewrite bind_query, Hp. reflexivity.
  - intros q. unfold d'. cbn [products without_product]. rewrite filter_In.
    split; intros [H1 H2]; (split; [exact H1|]).
    + intros E. rewrite E, Z.eqb_refl in H2. discriminate H2.
    + destruct (Z.eqb_spec (Product.id q) id); [contradiction | reflexivity].
  - intros it. unfold d'. cbn [cartItems without_product]. rewrite filter_In.
    split; intros [H1 H2]; (split; [exact H1|]).
    + intros E. rewrite E, Z.eqb_refl in H2. discriminate H2.
    + destruct (Z.eqb_spec (CartItem.productId it) id); [contradiction | reflexivity].
  - apply fkey_without_product.
  - intros c orderId. unfold orders_get_id.
    destruct (bearer c) as [userId|]; [|reflexivity].
    destruct (orderIdParamsSchema orderId); [|reflexivity].
    unfold run. rewrite !bind_query.
    change (orders d') with (orders d).
    destruct (firstn 1 (filter (fun o => Order.id o =? orderId) (orders d))) as [|order rest];
      [reflexivity|].
    destruct (not_owner order userId); [reflexivity|].
    rewrite !bind_query. unfold ret. cbn [fst]. unfold order_digest, json.
    cbn [body status ov_id ov_orderNumber ov_status ov_totalAmount ov_shippingAddress
         ov_items ov_statusHistory ov_createdAt].
    unfold d'. rewrite (order_rows_survive id d p orderId Hpk Hp). reflexivity.
  - intros c orderId. unfold orders_get_id_status.
    destruct (bearer c) as [userId|]; [|reflexivity].
    destruct (orderIdParamsSchema orderId); [|reflexivity].
    unfold run. rewrite !bind_query.
    change (orders d') with (orders d).
    destruct (firstn 1 (filter (fun o => Order.id o =? orderId) (orders d))) as [|order rest];
      [reflexivity|].
    destruct (not_owner order userId); reflexivity.
  - intros other s Hother. unfold products_delete, requireRole. rewrite Hother. reflexivity.
Qed.

Lemma product_delete_keeps_order_history_witness :
  order_digest (fst (orders_get_id (sample_ctx (Some 1) None) 1
                       (reliable (without_product 1 db_history))))
  = order_digest (fst (orders_get_id (sample_ctx (Some 1) None) 1 (reliable db_history))).
Proof.
  destruct (product_delete_keeps_order_history (sample_ctx None None) admin_payload 1
              db_history productA eq_refl eq_refl eq_refl)
    as [_ [_ [_ [_ [_ [_ [_ [_ [H _]]]]]]]]].
  apply H.
Defined.

(** ** Changing a product *)








(** ** Registration *)





(** ** Uploading product images *)

Lemma upload_loop_rest (files : list (option (string * string)))
    (uploaded : list (string * bool)) (i : nat) :
  (0 < i)%nat ->
  exists tail,
    fst (fold_left upload_step files (uploaded, i)) = uploaded ++ tail
    /\ forallb (fun x => negb (snd x)) tail = true.
Proof.
  revert uploaded i. induction files as [|file files IH]; intros uploaded i Hi.
  - exists []. rewrite app_nil_r. split; reflexivity.
  - cbn [fold_left upload_step]. destruct file as [[publicUrl storagePath]|].
    + destruct (IH (uploaded ++ [(publicUrl,
                                  Nat.eqb i 0 && Nat.eqb (List.length uploaded) 0)])
                   (S i) ltac:(lia)) as [tail [Htail Hnone]].
      exists ((publicUrl, false) :: tail). split.
      * rewrite Htail, <- app_assoc. cbn [app].
        destruct i; [lia | reflexivity].
      * exact Hnone.
    + destruct (IH uploaded (S i) ltac:(lia)) as [tail [Htail Hnone]].
      exists tail. split; assumption.
Qed.

Lemma upload_loop_first (url path : string) (rest : list (option (string * string))) :
  exists tail,
    upload_loop (Some (url, path) :: rest) = (url, true) :: tail
    /\ forallb (fun x => negb (snd x)) tail = true.
Proof.
  unfold upload_loop. cbn [fold_left upload_step app List.length Nat.eqb andb].
  destruct (upload_loop_rest rest [(url, true)] 1 ltac:(lia)) as [tail [Htail Hnone]].
  exists tail. split; [exact Htail | exact Hnone].
Qed.

Lemma image_rows_secondary (nextval productId : Z) (imgs : list (string * bool)) :
  forallb (fun x => negb (snd x)) imgs = true ->
  forallb (fun im => negb (ProductImage.isPrimary im)) (image_rows nextval productId imgs)
  = true.
Proof.
  revert nextval. induction imgs as [|[url isPrimary] imgs IH]; intros nextval H;
    [reflexivity|].
  cbn [forallb snd] in H. apply andb_true_iff in H. destruct H as [H1 H2].
  cbn [image_rows forallb ProductImage.isPrimary]. rewrite H1. apply IH. exact H2.
Qed.

Lemma no_primary_among (f : ProductImage.t -> bool) (rows : list ProductImage.t) :
  forallb (fun im => negb (ProductImage.isPrimary im)) rows = true ->
  filter (fun im => f im && ProductImage.isPrimary im) rows = [].
Proof.
  intros H. apply filter_none. intros im Hin. rewrite forallb_forall in H.
  specialize (H im Hin). apply negb_true_iff in H. rewrite H. apply andb_false_r.
Qed.

(** After the insert of a first row that is primary for [id] and further
    rows that are not primary, a product of key [id] has one more primary
    image and the others have theirs. *)
Lemma primary_images_after (id : Z) (first : ProductImage.t) (rows : list ProductImage.t)
    (d : DB) (q : Product.t) :
  ProductImage.productId first = id ->
  ProductImage.isPrimary first = true ->
  forallb (fun im => negb (ProductImage.isPrimary im)) rows = true ->
  primary_images q (with_productImages (fun t => t ++ first :: rows) d)
  = primary_images q d ++ (if Product.id q =? id then [first] else []).
Proof.
  intros Hid Hprimary Hrows. unfold primary_images. cbn [productImages with_productImages].
  rewrite filter_app. f_equal. cbn [filter].
  rewrite (no_primary_among _ rows Hrows), Hid, Hprimary, andb_true_r, Z.eqb_sym.
  destruct (Product.id q =? id); reflexivity.
Qed.

Lemma weigh_app (w : CartItem.t -> Product.t -> Z)
    (a b : list (CartItem.t * Product.t * option string)) :
  weigh w (a ++ b) = weigh w a + weigh w b.
Proof.
  unfold weigh. induction a as [|x a IH]; simpl; [reflexivity|]. rewrite IH. lia.
Qed.

Lemma weigh_rows_after (w : CartItem.t -> Product.t -> Z) (id : Z)
    (first : ProductImage.t) (rows : list ProductImage.t) (d : DB)
    (it : CartItem.t) (q : Product.t) :
  ProductImage.productId first = id ->
  ProductImage.isPrimary first = true ->
  forallb (fun im => negb (ProductImage.isPrimary im)) rows = true ->
  (Product.id q = id -> primary_images q d <> []) ->
  weigh w (rows_of (with_productImages (fun t => t ++ first :: rows) d) it q)
  = weigh w (rows_of d it q) + (if Product.id q =? id then w it q else 0).
Proof.
  intros Hid Hprimary Hrows Hsome. unfold rows_of.
  rewrite (primary_images_after id first rows d q Hid Hprimary Hrows).
  destruct (Z.eqb_spec (Product.id q) id) as [E|E].
  - specialize (Hsome E). destruct (primary_images q d) as [|im imgs]; [contradiction|].
    cbn [app].
    change (weigh w (map (fun im0 => (it, q, Some (ProductImage.url im0)))
                         ((im :: imgs) ++ [first]))
            = weigh w (map (fun im0 => (it, q, Some (ProductImage.url im0))) (im :: imgs))
              + w it q).
    rewrite map_app, weigh_app. unfold weigh at 2. simpl. lia.
  - rewrite app_nil_r, Z.add_0_r. reflexivity.
Qed.

Lemma cart_rows_by_line (cartId : Z) (d : DB) :
  cart_rows cartId d
  = flat_map (fun it => flat_map (rows_of d it)
                          (filter (fun p => CartItem.productId it =? Product.id p)
                                  (products d)))
             (lines_of cartId d).
Proof. reflexivity. Qed.

Lemma sum_of_zeros {A} (f : A -> Z) (l : list A) :
  (forall x, In x l -> f x = 0) -> fold_right Z.add 0 (map f l) = 0.
Proof.
  induction l as [|x l IH]; intros H; [reflexivity|]. simpl.
  rewrite (H x (or_introl eq_refl)), IH; [reflexivity|].
  intros y Hy. apply H. right. exact Hy.
Qed.

Lemma weigh_line_after (w : CartItem.t -> Product.t -> Z) (id : Z)
    (first : ProductImage.t) (rows : list ProductImage.t) (d : DB) (p : Product.t)
    (it : CartItem.t) :
  ProductImage.productId first = id ->
  ProductImage.isPrimary first = true ->
  forallb (fun im => negb (ProductImage.isPrimary im)) rows = true ->
  products_pkey d = true ->
  hd_error (filter (fun q => Product.id q =? id) (products d)) = Some p ->
  primary_images p d <> [] ->
  weigh w (flat_map (rows_of (with_productImages (fun t => t ++ first :: rows) d) it)
             (filter (fun q => CartItem.productId it =? Product.id q) (products d)))
  = weigh w (flat_map (rows_of d it)
               (filter (fun q => CartItem.productId it =? Product.id q) (products d)))
    + (if CartItem.productId it =? id then w it p else 0).
Proof.
  intros Hid Hprimary Hrows Hpk Hp Hsome.
  destruct (hd_error_filter_in _ _ _ Hp) as [Hin Hkey]. apply Z.eqb_eq in Hkey.
  assert (Hone : forall q, In q (products d) -> Product.id q = id -> primary_images q d <> []).
  { intros q Hq Eq.
    rewrite (same_key_same_row Product.id (products d) q p Hpk Hq Hin ltac:(lia)).
    exact Hsome. }
  assert (G : forall Q, (forall q, In q Q -> In q (products d)) ->
            weigh w (flat_map (rows_of (with_productImages (fun t => t ++ first :: rows) d) it)
                              Q)
            = weigh w (flat_map (rows_of d it) Q)
              + fold_right Z.add 0
                  (map (fun q => if Product.id q =? id then w it q else 0) Q)).
  { induction Q as [|q Q IH]; intros Hsub; [reflexivity|].
    cbn [flat_map map fold_right]. rewrite !weigh_app, IH
      by (intros x Hx; apply Hsub; right; exact Hx).
    rewrite (weigh_rows_after w id first rows d it q Hid Hprimary Hrows)
      by (apply Hone, Hsub; left; reflexivity).
    lia. }
  rewrite G by (intros q Hq; apply filter_In in Hq; tauto).
  f_equal.
  destruct (Z.eqb_spec (CartItem.productId it) id) as [E|E].
  - rewrite E.
    assert (Hsingle : filter (fun q => id =? Product.id q) (products d) = [p]).
    { rewrite <- Hkey. apply filter_by_key; assumption. }
    rewrite Hsingle. cbn [map fold_right]. rewrite Hkey, Z.eqb_refl. lia.
  - apply sum_of_zeros. intros q Hq. apply filter_In in Hq. destruct Hq as [_ Hq].
    apply Z.eqb_eq in Hq.
    destruct (Z.eqb_spec (Product.id q) id); [lia | reflexivity].
Qed.

Lemma weigh_cart_after (w : CartItem.t -> Product.t -> Z) (id : Z)
    (first : ProductImage.t) (rows : list ProductImage.t) (d : DB) (p : Product.t)
    (cartId : Z) :
  ProductImage.productId first = id ->
  ProductImage.isPrimary first = true ->
  forallb (fun im => negb (ProductImage.isPrimary im)) rows = true ->
  products_pkey d = true ->
  hd_error (filter (fun q => Product.id q =? id) (products d)) = Some p ->
  primary_images p d <> [] ->
  weigh w (cart_rows cartId (with_productImages (fun t => t ++ first :: rows) d))
  = weigh w (cart_rows cartId d)
    + fold_right Z.add 0
        (map (fun it => w it p)
             (filter (fun it => CartItem.productId it =? id) (lines_of cartId d))).
Proof.
  intros Hid Hprimary Hrows Hpk Hp Hsome. rewrite !cart_rows_by_line.
  change (products (with_productImages (fun t => t ++ first :: rows) d)) with (products d).
  change (lines_of cartId (with_productImages (fun t => t ++ first :: rows) d))
    with (lines_of cartId d).
  induction (lines_of cartId d) as [|it l IH]; [reflexivity|].
  cbn [flat_map filter]. rewrite !weigh_app, IH.
  rewrite (weigh_line_after w id first rows d p it Hid Hprimary Hrows Hpk Hp Hsome).
  destruct (CartItem.productId it =? id); cbn [map fold_right]; lia.
Qed.

Lemma itemCount_weigh (cartId : Z) (rows : list (CartItem.t * Product.t * option string)) :
  cr_itemCount (cart_view cartId rows) = weigh (fun it _ => CartItem.quantity it) rows.
Proof.
  unfold cart_view, weigh. cbn [cr_itemCount]. rewrite fold_left_sum, Z.add_0_l, map_map.
  f_equal. apply map_ext. intros [[it q] img]. reflexivity.
Qed.

Lemma sum_of_ones {A} (l : list A) :
  fold_right Z.add 0 (map (fun _ => 1) l) = Z.of_nat (List.length l).
Proof. induction l as [|x l IH]; [reflexivity|]. cbn [map fold_right List.length]. lia. Qed.

Lemma items_weigh (cartId : Z) (rows : list (CartItem.t * Product.t * option string)) :
  Z.of_nat (List.length (cr_items (cart_view cartId rows))) = weigh (fun _ _ => 1) rows.
Proof.
  unfold cart_view, weigh. cbn [cr_items]. rewrite length_map.
  rewrite (sum_of_ones rows). reflexivity.
Qed.

(** X25: an upload never demotes the primary image a product already has,
    and the cart view then lists the product once more.  When an admin
    uploads images for an existing product and the first file is stored, the
    first new row is primary and the others are not, so a product that had
    primary images has one more.  From then on the store no longer has at
    most one primary image per product, and the view of every cart lists
    each line of that product once more: the number of listed items grows by
    the number of those lines and the item count by their quantities, while
    the amount a checkout charges is unchanged. *)
Theorem second_primary_image_inflates_the_cart
    (req : Ctx) (payload : JWTPayload) (id : Z) (url path : string)
    (rest : list (option (string * string))) (nextval : Z) (d : DB) (p : Product.t) :
  jwt_role payload = admin ->
  products_pkey d = true ->
  hd_error (filter (fun q => Product.id q =? id) (products d)) = Some p ->
  primary_images p d <> [] ->
  exists rows,
    let first := ProductImage.mk nextval id url true in
    let d' := with_productImages (fun t => t ++ first :: rows) d in
    products_post_images req (Some payload) id (Some (Some (url, path) :: rest)) nextval
      (reliable d)
    = (Uploaded (first :: rows), reliable d')
    /\ forallb (fun im => negb (ProductImage.isPrimary im)) rows = true
    /\ primary_images p d' = primary_images p d ++ [first]
    /\ one_primary_image d' = false
    /\ (forall cartId,
          cr_itemCount (cart_view cartId (cart_rows cartId d'))
          = cr_itemCount (cart_view cartId (cart_rows cartId d))
            + quantity_of id (lines_of cartId d))
    /\ (forall cartId,
          Z.of_nat (List.length (cr_items (cart_view cartId (cart_rows cartId d'))))
          = Z.of_nat (List.length (cr_items (cart_view cartId (cart_rows cartId d))))
            + Z.of_nat (List.length (filter (fun it => CartItem.productId it =? id)
                                            (lines_of cartId d))))
    /\ (forall cartId, order_total (cart_lines cartId d') = order_total (cart_lines cartId d)).
Proof.
  intros Hrole Hpk Hp Hsome.
  destruct (upload_loop_first url path rest) as [tail [Hloop Htail]].
  destruct (hd_error_filter_in _ _ _ Hp) as [Hin Hkey]. apply Z.eqb_eq in Hkey.
  exists (image_rows (nextval + 1) id tail). cbv zeta.
  pose proof (image_rows_secondary (nextval + 1) id tail Htail) as Hrows.
  set (first := ProductImage.mk nextval id url true).
  set (rows := image_rows (nextval + 1) id tail) in *.
  assert (Hafter : primary_images p (with_productImages (fun t => t ++ first :: rows) d)
                   = primary_images p d ++ [first]).
  { rewrite (primary_images_after id first rows d p eq_refl eq_refl Hrows).
    rewrite Hkey, Z.eqb_refl. reflexivity. }
  split; [|split; [exact Hrows|split; [exact Hafter|split; [|split; [|split]]]]].
  - unfold products_post_images, requireRole. rewrite Hrole. cbn [existsb role_eqb orb].
    rewrite bind_query, Hp, Hloop. cbn [List.length Nat.eqb].
    unfold bind, insert_productImages. rewrite stmt_reliable. reflexivity.
  - destruct (one_primary_image _) eqn:E; [exfalso|reflexivity].
    unfold one_primary_image in E. rewrite forallb_forall in E.
    specialize (E p Hin). fold (primary_images p (with_productImages
                                                    (fun t => t ++ first :: rows) d)) in E.
    rewrite Hafter, length_app in E. apply Nat.leb_le in E.
    destruct (primary_images p d); [contradiction | simpl in E; lia].
  - intros cartId. rewrite !itemCount_weigh.
    rewrite (weigh_cart_after _ id first rows d p cartId eq_refl eq_refl Hrows Hpk Hp Hsome).
    reflexivity.
  - intros cartId. rewrite !items_weigh.
    rewrite (weigh_cart_after _ id first rows d p cartId eq_refl eq_refl Hrows Hpk Hp Hsome).
    rewrite sum_of_ones. reflexivity.
  - intros cartId. reflexivity.
Qed.

Lemma second_primary_image_inflates_the_cart_witness :
  exists rows,
    cr_itemCount (cart_view 1 (cart_rows 1 (with_productImages
                                              (fun t => t ++ ProductImage.mk 2 1 "b.png" true
                                                               :: rows)
                                              db_pictured)))
    = (2 + 3) + 2.
Proof.
  assert (Hsome : primary_images productA db_pictured <> []) by (vm_compute; discriminate).
  destruct (second_primary_image_inflates_the_cart (sample_ctx None None) admin_payload 1
              "b.png" "products/1/b.png" [] 2 db_pictured productA
              eq_refl eq_refl eq_refl Hsome)
    as [rows [_ [_ [_ [_ [Hcount _]]]]]].
  exists rows. rewrite Hcount. reflexivity.
Defined.

(** On the sample store the second primary image of product A takes the
    total shown for cart 1 from 35 to 55, its two units at 10.00 being
    counted twice. *)
Example second_primary_image_sample :
  cr_total (cart_view 1 (cart_rows 1 db_pictured)) = 35%float
  /\ cr_total (cart_view 1 (cart_rows 1 (with_productImages
                                           (fun t => t ++ [ProductImage.mk 2 1 "b.png" true])
                                           db_pictured)))
     = 55%float.
Proof. split; reflexivity. Qed.
